(** * Tech-Stack-Agent: rule pre-checks, prompt composer, response normalizer
      and chat turn, embedded from [src/rules.py], [src/recommender.py] and
      [src/App.py].

    Python texts are modelled as [string] (one [ascii] per character); case
    mapping and white space follow Python on the ASCII range.  Python dicts
    whose key order is observable are association lists. *)

From Stdlib Require Import String Ascii List ZArith Bool Arith Lia DecimalString.
Import ListNotations.

Local Open Scope string_scope.
Local Open Scope Z_scope.

(* ================================================================== *)
(** ** Python text primitives *)
(* ================================================================== *)

Module PyStr.

(** Characters as code points. *)
Definition ord (c : ascii) : nat := nat_of_ascii c.

Definition is_upper (c : ascii) : bool :=
  ((65 <=? ord c) && (ord c <=? 90))%nat.

Definition is_lower (c : ascii) : bool :=
  ((97 <=? ord c) && (ord c <=? 122))%nat.

Definition lower_char (c : ascii) : ascii :=
  if is_upper c then ascii_of_nat (ord c + 32) else c.

Definition upper_char (c : ascii) : ascii :=
  if is_lower c then ascii_of_nat (ord c - 32) else c.

(** [str.isspace] on the ASCII range: TAB, LF, VT, FF, CR, FS, GS, RS, US
    and the blank. *)
Definition is_space (c : ascii) : bool :=
  (((9 <=? ord c) && (ord c <=? 13)) ||
   ((28 <=? ord c) && (ord c <=? 32)))%nat.

Fixpoint map (f : ascii -> ascii) (s : string) : string :=
  match s with
  | EmptyString => EmptyString
  | String c s' => String (f c) (map f s')
  end.

(** [s.lower()] *)
Definition lower (s : string) : string := map lower_char s.

(** [s.capitalize()]: first character upper-cased, all the others
    lower-cased. *)
Definition capitalize (s : string) : string :=
  match s with
  | EmptyString => EmptyString
  | String c s' => String (upper_char c) (lower s')
  end.

(** [s.replace(old, new)] for one-character [old] and [new], the only way
    the sources call it. *)
Definition replace (old new : ascii) (s : string) : string :=
  map (fun c => if Ascii.eqb c old then new else c) s.

(** [s.startswith(p)] *)
Fixpoint startswith (s p : string) : bool :=
  match p, s with
  | EmptyString, _ => true
  | String _ _, EmptyString => false
  | String a p', String b s' => Ascii.eqb a b && startswith s' p'
  end.

(** [s.startswith((p1, p2, ...))] *)
Definition startswith_any (s : string) (ps : list string) : bool :=
  existsb (startswith s) ps.

(** [s.find(sub)]: index of the first occurrence, [-1] when there is
    none. *)
Fixpoint find (s sub : string) : Z :=
  if startswith s sub then 0
  else match s with
       | EmptyString => -1
       | String _ s' => let r := find s' sub in
                        if r <? 0 then -1 else r + 1
       end.

(** [s.rfind(sub)]: index of the last occurrence, [-1] when there is
    none. *)
Fixpoint rfind (s sub : string) : Z :=
  match s with
  | EmptyString => if startswith EmptyString sub then 0 else -1
  | String _ s' => let r := rfind s' sub in
                   if 0 <=? r then r + 1
                   else if startswith s sub then 0 else -1
  end.

(** [sub in s] *)
Definition contains (sub s : string) : bool := 0 <=? find s sub.

Definition len (s : string) : Z := Z.of_nat (String.length s).

(** [s[lo:hi]] with Python's clipping of the two bounds. *)
Definition slice (s : string) (lo hi : Z) : string :=
  let n := len s in
  let clip i := if i <? 0 then Z.max 0 (i + n) else Z.min i n in
  let a := clip lo in
  let b := clip hi in
  String.substring (Z.to_nat a) (Z.to_nat (b - a)) s.

(** [s.lstrip()], [s.rstrip()] and [s.strip()] *)
Fixpoint lstrip (s : string) : string :=
  match s with
  | EmptyString => EmptyString
  | String c s' => if is_space c then lstrip s' else s
  end.

Fixpoint rstrip (s : string) : string :=
  match s with
  | EmptyString => EmptyString
  | String c s' =>
      match rstrip s' with
      | EmptyString => if is_space c then EmptyString
                       else String c EmptyString
      | r => String c r
      end
  end.

Definition strip (s : string) : string := rstrip (lstrip s).

(** [sep.join(parts)] *)
Fixpoint join (sep : string) (parts : list string) : string :=
  match parts with
  | [] => EmptyString
  | [p] => p
  | p :: rest => p ++ sep ++ join sep rest
  end.

(** [s.split(sep)] for a one-character separator. *)
Fixpoint split (sep : ascii) (s : string) : list string :=
  match s with
  | EmptyString => [EmptyString]
  | String c s' =>
      if Ascii.eqb c sep then EmptyString :: split sep s'
      else match split sep s' with
           | [] => [String c EmptyString]
           | p :: ps => String c p :: ps
           end
  end.

(** [x in [a, b, ...]] for texts. *)
Definition mem (x : string) (l : list string) : bool :=
  existsb (String.eqb x) l.

(** Occurrence of a character, and of a text, in a text. *)
Fixpoint occurs (c : ascii) (s : string) : Prop :=
  match s with
  | EmptyString => False
  | String c' s' => c' = c \/ occurs c s'
  end.

Definition substring_of (sub s : string) : Prop :=
  exists pre post, s = pre ++ sub ++ post.

End PyStr.


(* ================================================================== *)
(** ** Python values, dicts and exceptions *)
(* ================================================================== *)

(** The values that flow through the pipeline: what [json.loads] builds and
    what the dict literals of the sources hold.  A float keeps the text of
    its literal; no arithmetic is done on it. *)
#[local] Set Warnings "-register-all".
Inductive pyval : Type :=
| PyNone
| PyBool (b : bool)
| PyInt (z : Z)
| PyFloat (literal : string)
| PyStr (s : string)
| PyList (items : list pyval)
| PyDict (entries : list (string * pyval)).

(** A dict with text keys, in insertion order. *)
Definition dict : Type := list (string * pyval).

(** [key in d] *)
Definition dict_has (d : dict) (key : string) : bool :=
  existsb (fun kv => String.eqb (fst kv) key) d.

(** [d.get(key)] *)
Fixpoint dict_get (d : dict) (key : string) : option pyval :=
  match d with
  | [] => None
  | (k, v) :: d' => if String.eqb k key then Some v else dict_get d' key
  end.

(** [d[key] = v]: overwrite in place, or append a new entry. *)
Fixpoint dict_set (d : dict) (key : string) (v : pyval) : dict :=
  match d with
  | [] => [(key, v)]
  | (k, w) :: d' => if String.eqb k key then (k, v) :: d'
                    else (k, w) :: dict_set d' key v
  end.

(** [isinstance(v, list)] *)
Definition is_list (v : pyval) : bool :=
  match v with PyList _ => true | _ => false end.

(** [v and isinstance(v, list)]: a list with at least one item. *)
Definition is_nonempty_list (v : pyval) : bool :=
  match v with PyList (_ :: _) => true | _ => false end.

(** The exceptions the sources raise, catch or let escape, each with the
    text that [str(e)] gives. *)
Inductive exn : Type :=
| JSONDecodeError (msg : string)
| ValueError (msg : string)
| KeyError (msg : string)
| TypeError (msg : string)
| OtherException (type_name msg : string).

(** [type(e).__name__] *)
Definition exn_type_name (e : exn) : string :=
  match e with
  | JSONDecodeError _ => "JSONDecodeError"
  | ValueError _ => "ValueError"
  | KeyError _ => "KeyError"
  | TypeError _ => "TypeError"
  | OtherException n _ => n
  end.

(** [str(e)] *)
Definition exn_str (e : exn) : string :=
  match e with
  | JSONDecodeError m | ValueError m | KeyError m | TypeError m => m
  | OtherException _ m => m
  end.

Definition nl : string := String (ascii_of_nat 10) EmptyString.
Definition dq : string := String (ascii_of_nat 34) EmptyString.
Definition sq : string := String (ascii_of_nat 39) EmptyString.
Definition bs : string := String (ascii_of_nat 92) EmptyString.

Module PyRepr.

Definition hex_digit (n : nat) : ascii :=
  if (n <? 10)%nat then ascii_of_nat (48 + n) else ascii_of_nat (87 + n).

(** One character of [repr(s)], for the quote character chosen.  Bytes
    above the ASCII range are the UTF-8 encoding of printable characters
    and are kept. *)
Definition repr_char (quote c : ascii) : string :=
  let n := PyStr.ord c in
  if (n =? 92)%nat then bs ++ bs
  else if Ascii.eqb c quote then bs ++ String quote EmptyString
  else if (n =? 10)%nat then bs ++ "n"
  else if (n =? 13)%nat then bs ++ "r"
  else if (n =? 9)%nat then bs ++ "t"
  else if ((n <? 32) || (n =? 127))%nat
       then bs ++ "x" ++ String (hex_digit (n / 16))
                           (String (hex_digit (n mod 16)) EmptyString)
  else String c EmptyString.

Fixpoint repr_chars (quote : ascii) (s : string) : string :=
  match s with
  | EmptyString => EmptyString
  | String c s' => repr_char quote c ++ repr_chars quote s'
  end.

(** [repr(s)] of a text: single quotes, unless the text holds a single
    quote and no double quote. *)
Definition repr_str (s : string) : string :=
  let quote := if PyStr.contains sq s && negb (PyStr.contains dq s)
               then ascii_of_nat 34 else ascii_of_nat 39 in
  String quote (repr_chars quote s) ++ String quote EmptyString.

Definition str_int (z : Z) : string :=
  DecimalString.NilEmpty.string_of_int (Z.to_int z).

(** [repr(v)] *)
Fixpoint repr (v : pyval) : string :=
  match v with
  | PyNone => "None"
  | PyBool true => "True"
  | PyBool false => "False"
  | PyInt z => str_int z
  | PyFloat literal => literal
  | PyStr s => repr_str s
  | PyList items => "[" ++ PyStr.join ", " (List.map repr items) ++ "]"
  | PyDict entries =>
      "{" ++ PyStr.join ", "
               (List.map (fun kv => repr_str (fst kv) ++ ": " ++ repr (snd kv))
                         entries) ++ "}"
  end.

(** [str(v)], which is what an f-string field [{v}] renders. *)
Definition str (v : pyval) : string :=
  match v with
  | PyStr s => s
  | _ => repr v
  end.

End PyRepr.

(* ================================================================== *)
(** ** [src/rules.py] *)
(* ================================================================== *)

(** The project details the sidebar of [src/App.py] keeps in the session: a
    dict with six fixed keys, created in this order.  A field is [None] when
    its key is absent, which [dict.get(key, default)] turns into the
    default. *)
Record ProjectDetails : Type := {
  project_description : option string;
  app_type : option string;
  team_skills : option (list string);
  budget : option string;
  timeline : option string;
  scalability_needs : option string
}.

(** [project_details.get(key, "")] and [project_details.get(key, [])] *)
Definition get_text (field : option string) : string :=
  match field with Some s => s | None => "" end.

Definition get_list (field : option (list string)) : list string :=
  match field with Some l => l | None => [] end.

Definition py_strings (l : list string) : pyval := PyList (List.map PyStr l).

Definition jamstack_recommendation : dict :=
  [ ("stack_name",
     PyStr "JAMstack (e.g., Astro / Eleventy / Hugo / Next.js static export)");
    ("core_components",
     py_strings ["Static Site Generator"; "CDN (Netlify, Vercel, GitHub Pages)"]);
    ("justification",
     PyStr "For simple, static content with low budget and fast timeline, JAMstack offers optimal performance, security, and low cost.");
    ("pros",
     py_strings ["Excellent performance"; "High security"; "Low hosting costs";
                 "Good developer experience"]);
    ("cons",
     py_strings ["Not suitable for dynamic server-side logic without workarounds (serverless functions)";
                 "Build times can increase for very large sites"]) ].

Definition static_site_verdict : dict :=
  [ ("recommendations", PyList [PyDict jamstack_recommendation]);
    ("source", PyStr "Rule-Based Pre-check") ].

Definition contradictory_input_verdict : dict :=
  [ ("error", PyStr "Contradictory Input");
    ("details", PyStr "High scalability typically requires a robust backend. Please clarify if a backend is needed or adjust scalability expectations.");
    ("source", PyStr "Rule-Based Pre-check") ].

Definition unrealistic_scope_verdict : dict :=
  [ ("error", PyStr "Potentially Unrealistic Scope");
    ("details", PyStr "A complex project with a very short timeline and limited budget/expertise is challenging. Consider adjusting scope, timeline, or budget.");
    ("source", PyStr "Rule-Based Pre-check") ].

Definition static_site_keywords : list string :=
  ["static site"; "brochure website"; "portfolio"; "landing page"].

Definition backend_skills : list string :=
  ["node.js"; "python"; "java"; "go"; "ruby"; "php"; "c#"].

Definition complex_keywords : list string :=
  ["enterprise system"; "large scale platform"; "many complex features"].

(** [apply_pre_checks(project_details)]: a direct recommendation, an error,
    or [None] when no rule triggers. *)
Definition apply_pre_checks (project_details : ProjectDetails) : option dict :=
  let app_type := PyStr.lower (get_text (app_type project_details)) in
  let description :=
    PyStr.lower (get_text (project_description project_details)) in
  let scalability :=
    PyStr.lower (get_text (scalability_needs project_details)) in
  let budget := PyStr.lower (get_text (budget project_details)) in
  let timeline := PyStr.lower (get_text (timeline project_details)) in
  let team_skills :=
    List.map PyStr.lower (get_list (team_skills project_details)) in
  (* Rule 1: Simple Static Site *)
  if existsb (fun keyword => PyStr.contains keyword app_type
                             || PyStr.contains keyword description)
             static_site_keywords
     && PyStr.mem scalability ["low"; ""]
     && String.eqb budget "low"
     && PyStr.startswith timeline "very short"
  then Some static_site_verdict
  (* Rule 2: Contradiction - High Scalability with No Backend *)
  else if PyStr.mem scalability ["high"; "very high"]
          && (PyStr.contains "no backend" description
              || PyStr.contains "frontend only" app_type
              || negb (existsb (fun skill => PyStr.mem skill backend_skills)
                               (filter (fun _ => negb (PyStr.mem "none" team_skills))
                                       team_skills)))
  then Some contradictory_input_verdict
  (* Rule 3: Contradiction - Complex Project, Short Timeline, Low
     Expertise/Budget *)
  else if existsb (fun keyword => PyStr.contains keyword description)
                  complex_keywords
          && PyStr.startswith_any timeline ["very short"; "short"]
          && (String.eqb budget "low"
              || PyStr.mem "none" team_skills
              || match team_skills with [] => true | _ => false end)
  then Some unrealistic_scope_verdict
  else None.

(* ================================================================== *)
(** ** Conversation memory *)
(* ================================================================== *)

(** One turn: the text given to the chain and the text it answered. *)
Definition turn : Type := (string * string)%type.

Inductive chat_message : Type :=
| HumanMessage (content : string)
| AIMessage (content : string).

Module Memory.

(** [k=5], "Remember last 5 interactions" ([get_llm_and_memory]). *)
Definition k : nat := 5.

Definition window : Type := list turn.

(** A fresh memory, as [get_llm_and_memory] stores it in the session. *)
Definition empty : window := [].

(** Modelled from the spec: LangChain's [ConversationBufferWindowMemory]
    is a library class that the sources only construct; its appending and
    eviction are not in [src/].  The spec's Memory Window is the "ordered
    sequence of the last K ConversationTurns (K=5), FIFO eviction of the
    oldest turn when exceeding K". *)
Definition append (w : window) (t : turn) : window :=
  let w' := (w ++ [t])%list in
  if (k <? List.length w')%nat then List.tl w' else w'.

(** Modelled from the spec: the window's order "is exactly the order
    exposed to the model as chat history"; with [return_messages=True]
    a turn is exposed as its human message followed by the answer. *)
Definition chat_history_buffer (w : window) : list chat_message :=
  List.flat_map (fun t => [HumanMessage (fst t); AIMessage (snd t)]) w.

(** The window after a run of turns, from a fresh memory. *)
Definition after (turns : list turn) : window :=
  List.fold_left append turns empty.

End Memory.

(* ================================================================== *)
(** ** [src/recommender.py] *)
(* ================================================================== *)

(** [SYSTEM_PROMPT_LANGCHAIN.format(project_context_summary=...)] *)
Definition SYSTEM_PROMPT_LANGCHAIN (project_context_summary : string) : string :=
  nl ++ PyStr.join nl
    [ "You are an expert AI Tech Stack Advisor. Your task is to analyze the user's project requirements";
      "and recommend up to three suitable technology stacks. Your recommendations must be thorough,";
      "well-justified, and directly address the user's inputs. Consider the conversation history for follow-up questions.";
      "";
      "Current Project Context (if provided by user, otherwise assume this is the first interaction):";
      project_context_summary;
      "";
      "Instructions for your response:";
      "1. If the user asks a follow-up question, prioritize answering that question in the context of previous recommendations OR if the new input significantly changes criteria, provide new recommendations.";
      "2. Structure your entire response as a single JSON array. Each element in the array";
      "   should be a JSON object representing one technology stack recommendation, containing the";
      "   following keys:";
      "   - " ++ dq ++ "stack_name" ++ dq ++ ": A descriptive name for the tech stack.";
      "   - " ++ dq ++ "core_components" ++ dq ++ ": A list of strings detailing the main technologies.";
      "   - " ++ dq ++ "justification" ++ dq ++ ": A detailed explanation of why this stack is a good fit, referencing user inputs and conversation history.";
      "   - " ++ dq ++ "pros" ++ dq ++ ": A list of key advantages.";
      "   - " ++ dq ++ "cons" ++ dq ++ ": A list of key disadvantages or trade-offs.";
      "   - " ++ dq ++ "addressed_follow_up" ++ dq ++ ": (Optional string) Briefly mention if/how this response addresses a follow-up from the user.";
      "3. If providing initial recommendations, be comprehensive. If answering a follow-up, be concise and targeted if possible." ]
  ++ nl.

(** [project_details.items()]: the keys that are present, in the order in
    which [src/App.py] creates them, with their values. *)
Definition items (project_details : ProjectDetails) : list (string * pyval) :=
  let text key field :=
    match field with Some s => [(key, PyStr s)] | None => [] end in
  (text "project_description" (project_description project_details)
   ++ text "app_type" (app_type project_details)
   ++ match team_skills project_details with
      | Some l => [("team_skills", py_strings l)]
      | None => []
      end
   ++ text "budget" (budget project_details)
   ++ text "timeline" (timeline project_details)
   ++ text "scalability_needs" (scalability_needs project_details))%list.

(** One entry of the context summary:
    [f"- {key.replace('_', ' ').capitalize()}: {value}"] *)
Definition summary_line (kv : string * pyval) : string :=
  "- " ++ PyStr.capitalize (PyStr.replace "_" " " (fst kv)) ++ ": "
       ++ PyRepr.str (snd kv).

(** [context_summary] of [format_user_input_with_context] *)
Definition context_summary (entries : list (string * pyval)) : string :=
  PyStr.join nl (List.map summary_line entries).

(** [format_user_input_with_context(project_details, user_query)] *)
Definition format_user_input_with_context
           (project_details : ProjectDetails) (user_query : string) : string :=
  let context_summary := context_summary (items project_details) in
  nl ++ PyStr.join nl
    [ "    System Instructions:";
      "    " ++ SYSTEM_PROMPT_LANGCHAIN context_summary;
      "";
      "    User's Current Request/Context:";
      "    The overall project context is as follows:";
      "    " ++ context_summary;
      "    ";
      "    User's specific question for this turn: " ++ dq
        ++ (if String.eqb user_query "" then
              "Provide initial tech stack recommendations based on the context above."
            else user_query)
        ++ dq;
      "";
      "    Please provide your recommendations or answer in the specified JSON format.";
      "    " ].

(** The hosted model behind [chain.invoke]: given the chat history and the
    input of the turn it raises, or answers with the chain's output, whose
    ['text'] entry may be absent. *)
Record llm_client : Type := {
  generate : list chat_message -> string -> exn + option string
}.

(** A message of the chat log [st.session_state.messages]. *)
Record message : Type := {
  role : string;
  content : pyval
}.

(** What a run of the script does that can be observed: the Streamlit calls,
    the call of [get_llm_chain_response], and the call of the model. *)
Inductive event : Type :=
| st_chat_message (role : string)
| st_spinner (text : string)
| st_markdown (body : string)
| st_error (body : string)
| st_success (body : string)
| st_warning (body : string)
| st_text_area (label value : string)
| st_rerun
| call_get_llm_chain_response (user_query : string)
| chain_invoke (chat_history_buffer : list chat_message)
               (user_full_input : string).

(** [st.session_state] *)
Module SessionState.

Record t : Type := {
  project_details : ProjectDetails;
  messages : list message;
  llm : option llm_client;
  memory : option Memory.window;
  last_llm_raw_output : option string;
  last_llm_formatted_input : option string
}.

Definition append_message (m : message) (s : t) : t :=
  {| project_details := project_details s;
     messages := (messages s ++ [m])%list;
     llm := llm s;
     memory := memory s;
     last_llm_raw_output := last_llm_raw_output s;
     last_llm_formatted_input := last_llm_formatted_input s |}.

Definition set_memory (w : option Memory.window) (s : t) : t :=
  {| project_details := project_details s;
     messages := messages s;
     llm := llm s;
     memory := w;
     last_llm_raw_output := last_llm_raw_output s;
     last_llm_formatted_input := last_llm_formatted_input s |}.

Definition set_last_llm (raw_output formatted_input : string) (s : t) : t :=
  {| project_details := project_details s;
     messages := messages s;
     llm := llm s;
     memory := memory s;
     last_llm_raw_output := Some raw_output;
     last_llm_formatted_input := Some formatted_input |}.

End SessionState.

(** The script as a computation over the session state that logs its
    events and may let an exception escape. *)
Module Script.

Record world : Type := {
  state : SessionState.t;
  trace : list event
}.

Definition M (A : Type) : Type := world -> (exn + A) * world.

Definition ret {A} (a : A) : M A := fun w => (inr a, w).

Definition bind {A B} (c : M A) (f : A -> M B) : M B :=
  fun w => match c w with
           | (inl e, w') => (inl e, w')
           | (inr a, w') => f a w'
           end.

Definition raise {A} (e : exn) : M A := fun w => (inl e, w).

Definition emit (ev : event) : M unit :=
  fun w => (inr tt, {| state := state w; trace := (trace w ++ [ev])%list |}).

Definition gets {A} (f : SessionState.t -> A) : M A :=
  fun w => (inr (f (state w)), w).

Definition modify (f : SessionState.t -> SessionState.t) : M unit :=
  fun w => (inr tt, {| state := f (state w); trace := trace w |}).

(** [d[key]], which raises [KeyError] on a missing key. *)
Definition getitem (d : dict) (key : string) : M pyval :=
  match dict_get d key with
  | Some v => ret v
  | None => raise (KeyError (PyRepr.repr_str key))
  end.

Fixpoint mapM {A B} (f : A -> M B) (l : list A) : M (list B) :=
  match l with
  | [] => ret []
  | a :: l' => bind (f a) (fun b => bind (mapM f l') (fun bs => ret (b :: bs)))
  end.

End Script.

Declare Scope script_scope.
Delimit Scope script_scope with script.
Notation "x <- c1 ;; c2" := (Script.bind c1 (fun x => c2))
  (at level 61, c1 at next level, right associativity) : script_scope.
Notation "c1 ;; c2" := (Script.bind c1 (fun _ => c2))
  (at level 61, right associativity) : script_scope.

Section Pipeline.

(** [json.loads]: the decoded value, or the exception it raises. *)
Variable json_loads : string -> exn + pyval.

(** The body of the [try] of [get_llm_chain_response] from the moment the
    chain has answered: clean the text, look for the span from the first
    opening bracket to the last closing one, decode it. *)
Definition parse_llm_output (raw_llm_output : string) : exn + dict :=
  let cleaned_output := PyStr.strip raw_llm_output in
  let json_start := PyStr.find cleaned_output "[" in
  let json_end := PyStr.rfind cleaned_output "]" + 1 in
  if negb (json_start =? -1) && negb (json_end =? 0) && (json_end >? json_start)
  then
    let json_str := PyStr.slice cleaned_output json_start json_end in
    match json_loads json_str with
    | inl e => inl e
    | inr parsed_recommendations =>
        if negb (is_list parsed_recommendations)
        then inl (ValueError "LLM output was valid JSON, but not a list.")
        else inr [ ("recommendations", parsed_recommendations);
                   ("source", PyStr "LLM via LangChain") ]
    end
  else
    inr [ ("error", PyStr "LLM_RESPONSE_NOT_JSON_ARRAY");
          ("details", PyStr "LLM did not return a parseable JSON array. Displaying raw text.");
          ("raw_text_fallback", PyStr cleaned_output);
          ("source", PyStr "LLM via LangChain") ].

(** The two [except] clauses of [get_llm_chain_response]. *)
Definition handle_exception (e : exn) (raw_llm_output : string) : dict :=
  match e with
  | JSONDecodeError _ =>
      let error_detail :=
        "Failed to parse LLM output as JSON. Error: " ++ exn_str e
        ++ ". Raw output was: " ++ nl ++ raw_llm_output in
      [ ("error", PyStr "LLM_JSON_PARSE_ERROR");
        ("details", PyStr error_detail);
        ("raw_text_fallback", PyStr raw_llm_output) ]
  | _ =>
      let error_detail :=
        "An unexpected error occurred: " ++ exn_type_name e ++ " - "
        ++ exn_str e in
      [ ("error", PyStr "LLM_CHAIN_ERROR");
        ("details", PyStr error_detail);
        ("raw_text_fallback", PyStr raw_llm_output) ]
  end.

(** The Response Normalizer: what [get_llm_chain_response] returns for the
    raw text [raw_llm_output] of the chain. *)
Definition normalize (raw_llm_output : string) : dict :=
  match parse_llm_output raw_llm_output with
  | inr package => package
  | inl e => handle_exception e raw_llm_output
  end.

Local Open Scope script_scope.

(** [chain.invoke({"user_full_input": formatted_input})]: the chain gives
    the model the history the memory exposes and the input; when the
    model has answered, the chain saves the turn in the memory. *)
Definition invoke_chain (llm : llm_client) (formatted_input : string)
  : Script.M (exn + option string) :=
  memory <- Script.gets SessionState.memory ;;
  let history :=
    match memory with
    | Some w => Memory.chat_history_buffer w
    | None => []
    end in
  Script.emit (chain_invoke history formatted_input) ;;
  match generate llm history formatted_input with
  | inl e => Script.ret (inl e)
  | inr response_from_chain =>
      Script.modify
        (SessionState.set_memory
           (option_map
              (fun w => Memory.append w (formatted_input,
                                         get_text response_from_chain))
              memory)) ;;
      Script.ret (inr response_from_chain)
  end.

(** [get_llm_chain_response(llm, memory, project_details, user_query)];
    [memory] is the session's memory object, which the chain updates in
    place, so the model reaches it through the session state. *)
Definition get_llm_chain_response (llm : option llm_client)
           (project_details : ProjectDetails) (user_query : string)
  : Script.M dict :=
  Script.emit (call_get_llm_chain_response user_query) ;;
  match llm with
  | None =>
      Script.ret [ ("error", PyStr "LLM_NOT_INITIALIZED");
                   ("details", PyStr "LLM client could not be set up.") ]
  | Some llm =>
      let formatted_input :=
        format_user_input_with_context project_details user_query in
      response <- invoke_chain llm formatted_input ;;
      match response with
      | inl e => Script.ret (handle_exception e "")
      | inr response_from_chain =>
          let raw_llm_output := get_text response_from_chain in
          Script.modify
            (SessionState.set_last_llm raw_llm_output formatted_input) ;;
          Script.ret (normalize raw_llm_output)
      end
  end.

(* ================================================================ *)
(** ** [src/App.py]: one chat turn *)
(* ================================================================ *)

(** [for rec_item in response_data: rec_item["source"] = source].  Both
    loops of the script run over a list; an item that is not a dict does
    not support item assignment. *)
Definition set_source (response_data source : pyval) : Script.M pyval :=
  match response_data with
  | PyList recs =>
      recs' <- Script.mapM
                 (fun rec_item =>
                    match rec_item with
                    | PyDict d => Script.ret (PyDict (dict_set d "source" source))
                    | _ => Script.raise
                             (TypeError "object does not support item assignment")
                    end) recs ;;
      Script.ret (PyList recs')
  | _ => Script.raise (TypeError "object is not iterable")
  end.

(** [d.get(key, default)] *)
Definition dict_get_default (d : dict) (key : string) (default : pyval)
  : pyval :=
  match dict_get d key with Some v => v | None => default end.

Definition assistant (content : pyval) : message :=
  {| role := "assistant"; content := content |}.

(** "1. Apply Rule-Based Pre-checks", the branch [if rule_result:]. *)
Definition rule_path (rule_result : dict) : Script.M pyval :=
  if dict_has rule_result "error" then
    error <- Script.getitem rule_result "error" ;;
    details <- Script.getitem rule_result "details" ;;
    let error_message :=
      "**Rule-Based Check Failed:** " ++ PyRepr.str error ++ " - "
      ++ PyRepr.str details in
    Script.emit (st_error error_message) ;;
    Script.modify (SessionState.append_message
                     (assistant (PyStr error_message))) ;;
    Script.ret PyNone
  else
    Script.emit (st_success "💡 Recommendation from Rule-Based Pre-check:") ;;
    response_data <- Script.getitem rule_result "recommendations" ;;
    set_source response_data
               (dict_get_default rule_result "source"
                                 (PyStr "Rule-Based System")).

(** "2. If no rule triggered, call LLM via LangChain", the [else]
    branch. *)
Definition model_path (current_project_details : ProjectDetails)
           (user_query : string) : Script.M pyval :=
  llm <- Script.gets SessionState.llm ;;
  memory <- Script.gets SessionState.memory ;;
  match llm, memory with
  | Some _, Some _ =>
      llm_response_package <-
        get_llm_chain_response llm current_project_details user_query ;;
      if dict_has llm_response_package "recommendations" then
        response_data <- Script.getitem llm_response_package "recommendations" ;;
        set_source response_data
                   (dict_get_default llm_response_package "source"
                                     (PyStr "LLM via LangChain"))
      else if dict_has llm_response_package "raw_text_fallback" then
        details <- Script.getitem llm_response_package "details" ;;
        Script.emit (st_warning ("AI Response (Fallback): "
                                 ++ PyRepr.str details)) ;;
        raw_text_fallback <-
          Script.getitem llm_response_package "raw_text_fallback" ;;
        Script.emit (st_text_area "Raw AI Output:"
                                  (PyRepr.str raw_text_fallback)) ;;
        Script.modify (SessionState.append_message
                         (assistant (PyDict llm_response_package))) ;;
        Script.ret PyNone
      else if dict_has llm_response_package "error" then
        error <- Script.getitem llm_response_package "error" ;;
        details <- Script.getitem llm_response_package "details" ;;
        let error_message :=
          "**AI Agent Error:** " ++ PyRepr.str error ++ " - "
          ++ PyRepr.str details in
        Script.emit (st_error error_message) ;;
        Script.modify (SessionState.append_message
                         (assistant (PyStr error_message))) ;;
        Script.ret PyNone
      else Script.ret PyNone
  | _, _ =>
      let no_llm_error := "LLM or Memory not initialized. Cannot proceed." in
      Script.emit (st_error no_llm_error) ;;
      Script.modify (SessionState.append_message
                       (assistant (PyStr no_llm_error))) ;;
      Script.ret PyNone
  end.

(** The handler [if user_query:] of the chat input. *)
Definition chat_turn (user_query : string) : Script.M unit :=
  if String.eqb user_query "" then Script.ret tt
  else
    Script.modify (SessionState.append_message
                     {| role := "user"; content := PyStr user_query |}) ;;
    Script.emit (st_chat_message "user") ;;
    Script.emit (st_markdown user_query) ;;
    Script.emit (st_chat_message "assistant") ;;
    Script.emit (st_spinner "🤖 AI Agent is analyzing...") ;;
    current_project_details <- Script.gets SessionState.project_details ;;
    let rule_result := apply_pre_checks current_project_details in
    response_data <-
      match rule_result with
      | Some ((_ :: _) as rule_result) => rule_path rule_result
      | _ => model_path current_project_details user_query
      end ;;
    if is_nonempty_list response_data then
      Script.modify (SessionState.append_message (assistant response_data)) ;;
      Script.emit st_rerun
    else Script.ret tt.

End Pipeline.

(** How often a run reached the model path: calls of
    [get_llm_chain_response] and calls of the model. *)
Definition is_model_event (ev : event) : bool :=
  match ev with
  | call_get_llm_chain_response _ | chain_invoke _ _ => true
  | _ => false
  end.

Definition model_calls (trace : list event) : nat :=
  List.length (List.filter is_model_event trace).

(** The events of a turn up to the rule check. *)
Definition turn_prelude (user_query : string) : list event :=
  [ st_chat_message "user"; st_markdown user_query;
    st_chat_message "assistant"; st_spinner "🤖 AI Agent is analyzing..." ].

Definition user_message (user_query : string) : message :=
  {| role := "user"; content := PyStr user_query |}.

(* ================================================================== *)
(** ** Vocabulary of the specification *)
(* ================================================================== *)

(** Equality of texts up to case. *)
Definition same_text_ci (a b : string) : Prop :=
  PyStr.lower a = PyStr.lower b.

(** "field is value", "field is unset", "field starts with prefix" and
    "field contains keyword", all up to case. *)
Definition field_is (field : option string) (value : string) : Prop :=
  same_text_ci (get_text field) value.

Definition field_unset (field : option string) : Prop :=
  get_text field = "".

Definition field_starts_with (field : option string) (p : string) : Prop :=
  exists rest, PyStr.lower (get_text field) = PyStr.lower p ++ rest.

Definition field_contains (field : option string) (keyword : string) : Prop :=
  PyStr.substring_of (PyStr.lower keyword) (PyStr.lower (get_text field)).

(** The skills of the team, lower-cased as [apply_pre_checks] reads them. *)
Definition skills (pd : ProjectDetails) : list string :=
  List.map PyStr.lower (get_list (team_skills pd)).

Definition has_backend_skill (pd : ProjectDetails) : Prop :=
  exists skill, In skill (skills pd) /\ In skill backend_skills.

(** Rule 1, the static-site shortcut. *)
Definition static_site_rule (pd : ProjectDetails) : Prop :=
  (exists keyword, In keyword static_site_keywords /\
                   (field_contains (app_type pd) keyword \/
                    field_contains (project_description pd) keyword))
  /\ (field_is (scalability_needs pd) "Low" \/ field_unset (scalability_needs pd))
  /\ field_is (budget pd) "Low"
  /\ field_starts_with (timeline pd) "Very Short".

Definition high_scalability (pd : ProjectDetails) : Prop :=
  field_is (scalability_needs pd) "High"
  \/ field_is (scalability_needs pd) "Very High".

(** Rule 2 in the words of the specification: high scalability and no
    backend in the description, a frontend-only application, or a team with
    none of the backend skills. *)
Definition contradiction_rule_of_spec (pd : ProjectDetails) : Prop :=
  high_scalability pd
  /\ (field_contains (project_description pd) "no backend"
      \/ field_contains (app_type pd) "frontend only"
      \/ ~ has_backend_skill pd).

(** Rule 2 as [apply_pre_checks] tests it: a team that lists "none" counts
    as a team without backend skill. *)
Definition contradiction_rule (pd : ProjectDetails) : Prop :=
  high_scalability pd
  /\ (field_contains (project_description pd) "no backend"
      \/ field_contains (app_type pd) "frontend only"
      \/ In "none" (skills pd)
      \/ ~ has_backend_skill pd).

(** Rule 3, the scope contradiction. *)
Definition scope_rule (pd : ProjectDetails) : Prop :=
  (exists keyword, In keyword complex_keywords /\
                   field_contains (project_description pd) keyword)
  /\ (field_starts_with (timeline pd) "Very Short"
      \/ field_starts_with (timeline pd) "Short")
  /\ (field_is (budget pd) "Low" \/ In "none" (skills pd) \/ skills pd = []).

(** The rules in their fixed order. *)
Inductive rule : Type := StaticSite | ScalabilityBackend | ScopeTimeline.

Definition priority (r : rule) : nat :=
  match r with StaticSite => 1 | ScalabilityBackend => 2 | ScopeTimeline => 3 end.

Definition matches (r : rule) (pd : ProjectDetails) : Prop :=
  match r with
  | StaticSite => static_site_rule pd
  | ScalabilityBackend => contradiction_rule pd
  | ScopeTimeline => scope_rule pd
  end.

Definition verdict_of (r : rule) : dict :=
  match r with
  | StaticSite => static_site_verdict
  | ScalabilityBackend => contradictory_input_verdict
  | ScopeTimeline => unrealistic_scope_verdict
  end.

(** The three conditions of [apply_pre_checks], named. *)
Definition static_site_test (pd : ProjectDetails) : bool :=
  existsb (fun keyword =>
             PyStr.contains keyword (PyStr.lower (get_text (app_type pd)))
             || PyStr.contains keyword
                  (PyStr.lower (get_text (project_description pd))))
          static_site_keywords
  && PyStr.mem (PyStr.lower (get_text (scalability_needs pd))) ["low"; ""]
  && String.eqb (PyStr.lower (get_text (budget pd))) "low"
  && PyStr.startswith (PyStr.lower (get_text (timeline pd))) "very short".

Definition contradiction_test (pd : ProjectDetails) : bool :=
  PyStr.mem (PyStr.lower (get_text (scalability_needs pd))) ["high"; "very high"]
  && (PyStr.contains "no backend"
        (PyStr.lower (get_text (project_description pd)))
      || PyStr.contains "frontend only" (PyStr.lower (get_text (app_type pd)))
      || negb (existsb (fun skill => PyStr.mem skill backend_skills)
                       (filter (fun _ => negb (PyStr.mem "none" (skills pd)))
                               (skills pd)))).

Definition scope_test (pd : ProjectDetails) : bool :=
  existsb (fun keyword =>
             PyStr.contains keyword
               (PyStr.lower (get_text (project_description pd))))
          complex_keywords
  && PyStr.startswith_any (PyStr.lower (get_text (timeline pd)))
                          ["very short"; "short"]
  && (String.eqb (PyStr.lower (get_text (budget pd))) "low"
      || PyStr.mem "none" (skills pd)
      || match skills pd with [] => true | _ => false end).

(** The result packages of the pipeline, as the specification names them. *)
Definition is_unparsed_fallback (package : dict) (raw_text : string) : Prop :=
  dict_get package "error" = Some (PyStr "LLM_RESPONSE_NOT_JSON_ARRAY")
  /\ dict_get package "raw_text_fallback" = Some (PyStr raw_text).

(** What a JSON decoder does with a text that starts with an opening
    bracket: it reads an array, so the value, when there is one, is a list. *)
Definition decodes_arrays (json_loads : string -> exn + pyval) : Prop :=
  forall text value,
    PyStr.startswith text "[" = true ->
    json_loads text = inr value -> is_list value = true.

(** A raw text in which a first opening bracket and, after it, a last
    closing bracket are found, with the text between them. *)
Definition bracket_span (raw_text before body after : string) : Prop :=
  raw_text = before ++ "[" ++ body ++ "]" ++ after
  /\ ~ PyStr.occurs "[" before
  /\ ~ PyStr.occurs "]" after.

(** A text of white space only. *)
Definition blank (s : string) : Prop :=
  forall c, PyStr.occurs c s -> PyStr.is_space c = true.

(** Title case in the words of the specification: every word starts with a
    capital, the other letters are small. *)
Fixpoint title_from (inside_word : bool) (s : string) : string :=
  match s with
  | EmptyString => EmptyString
  | String c s' =>
      String (if inside_word then PyStr.lower_char c else PyStr.upper_char c)
             (title_from (PyStr.is_upper c || PyStr.is_lower c) s')
  end.

Definition title_case (s : string) : string := title_from false s.

(** The summary line of a field in the words of the specification. *)
Definition spec_field_line (kv : string * pyval) : string :=
  title_case (PyStr.replace "_" " " (fst kv)) ++ ": " ++ PyRepr.str (snd kv).

(** The lines of a text. *)
Definition lines (s : string) : list string := PyStr.split (ascii_of_nat 10) s.

(** The context summary in the words of the specification: exactly one line
    per field, each line holding the title-cased field name, a colon and the
    value. *)
Definition summary_as_specified (pd : ProjectDetails) : Prop :=
  Forall2 (fun line kv => PyStr.substring_of (spec_field_line kv) line)
          (lines (context_summary (items pd))) (items pd).

(** The last [n] elements of a list, in their order. *)
Definition last_n {A} (n : nat) (l : list A) : list A :=
  List.skipn (List.length l - n) l.

(* ================================================================== *)
(** ** Sample inputs *)
(* ================================================================== *)

(** The project details with which [src/App.py] starts a session. *)
Definition initial_project_details : ProjectDetails :=
  {| project_description := Some "";
     app_type := Some "Web Application";
     team_skills := Some [];
     budget := Some "Medium";
     timeline := Some "Medium (3-6 months)";
     scalability_needs := Some "Medium" |}.

(** A small portfolio site that is also described as an enterprise system:
    the conditions of rule 1 and of rule 3 hold together. *)
Definition portfolio_project : ProjectDetails :=
  {| project_description := Some "A Portfolio page for our enterprise system";
     app_type := Some "Web Application";
     team_skills := Some ["JavaScript"];
     budget := Some "Low";
     timeline := Some "Very Short (Under 1 month)";
     scalability_needs := Some "Low" |}.

(** High scalability asked of a team that ticks both "Python" and "None". *)
Definition python_and_none_project : ProjectDetails :=
  {| project_description := Some "";
     app_type := Some "Web Application";
     team_skills := Some ["Python"; "None"];
     budget := Some "Medium";
     timeline := Some "Medium (3-6 months)";
     scalability_needs := Some "High" |}.

(** A description of two lines. *)
Definition two_line_project : ProjectDetails :=
  {| project_description := Some ("A shop" ++ nl ++ "with a blog");
     app_type := Some "Web Application";
     team_skills := Some ["Python"];
     budget := Some "Medium";
     timeline := Some "Medium (3-6 months)";
     scalability_needs := Some "Medium" |}.

(** A decoder that knows the two texts of the specification's examples,
    with the answers of [json.loads] on them, and rejects any other text. *)
Definition sample_json_loads (s : string) : exn + pyval :=
  if String.eqb s "[{bad json}]" then
    inl (JSONDecodeError "Expecting property name enclosed in double quotes: line 1 column 3 (char 2)")
  else if String.eqb s ("[{" ++ dq ++ "stack_name" ++ dq ++ ":" ++ dq ++ "X"
                        ++ dq ++ "," ++ dq ++ "core_components" ++ dq ++ ":[],"
                        ++ dq ++ "justification" ++ dq ++ ":" ++ dq ++ "y"
                        ++ dq ++ "}]") then
    inr (PyList [PyDict [ ("stack_name", PyStr "X");
                          ("core_components", PyList []);
                          ("justification", PyStr "y") ]])
  else inl (JSONDecodeError "Expecting value: line 1 column 1 (char 0)").

(** A decoder stub that answers the same value for every text, as a test
    double for [json.loads] does. *)
Definition decoder_answering (v : pyval) : string -> exn + pyval :=
  fun _ => inr v.

(** A model that answers every prompt with the malformed text of the
    specification's example. *)
Definition sample_llm : llm_client :=
  {| generate := fun _ _ => inr (Some "[{bad json}]") |}.

(** A session as the script sets it up, before the first turn. *)
Definition new_session (pd : ProjectDetails) : Script.world :=
  {| Script.state :=
       {| SessionState.project_details := pd;
          SessionState.messages := [];
          SessionState.llm := Some sample_llm;
          SessionState.memory := Some Memory.empty;
          SessionState.last_llm_raw_output := None;
          SessionState.last_llm_formatted_input := None |};
     Script.trace := [] |}.

(* ================================================================== *)
(** ** More vocabulary and sample inputs *)
(* ================================================================== *)

(** Two project details that differ at most in the case of their letters. *)
Definition same_up_to_case (pd pd' : ProjectDetails) : Prop :=
  same_text_ci (get_text (project_description pd))
               (get_text (project_description pd'))
  /\ same_text_ci (get_text (app_type pd)) (get_text (app_type pd'))
  /\ List.map PyStr.lower (get_list (team_skills pd))
     = List.map PyStr.lower (get_list (team_skills pd'))
  /\ same_text_ci (get_text (budget pd)) (get_text (budget pd'))
  /\ same_text_ci (get_text (timeline pd)) (get_text (timeline pd'))
  /\ same_text_ci (get_text (scalability_needs pd))
                  (get_text (scalability_needs pd')).

(** The initial project details with the scalability slider moved to High:
    no skill is ticked. *)
Definition high_scalability_no_skills : ProjectDetails :=
  {| project_description := Some "";
     app_type := Some "Web Application";
     team_skills := Some [];
     budget := Some "Medium";
     timeline := Some "Medium (3-6 months)";
     scalability_needs := Some "High" |}.

(** The portfolio project as a user may type and store it in other case. *)
Definition portfolio_project_upper : ProjectDetails :=
  {| project_description := Some "A PORTFOLIO PAGE FOR OUR ENTERPRISE SYSTEM";
     app_type := Some "web application";
     team_skills := Some ["JAVASCRIPT"];
     budget := Some "LOW";
     timeline := Some "very short (under 1 month)";
     scalability_needs := Some "low" |}.

(** A complex project on a short timeline with a low budget: only rule 3
    matches. *)
Definition enterprise_project : ProjectDetails :=
  {| project_description := Some "An enterprise system for all our branches";
     app_type := Some "Web Application";
     team_skills := Some ["Python"];
     budget := Some "Low";
     timeline := Some "Short (1-3 months)";
     scalability_needs := Some "Medium" |}.

(** A package with an error code, details and the raw text, as
    [src/App.py] reads it. *)
Definition is_error_package (package : dict) (code details raw_text : string)
  : Prop :=
  dict_has package "recommendations" = false
  /\ dict_get package "error" = Some (PyStr code)
  /\ dict_get package "details" = Some (PyStr details)
  /\ dict_get package "raw_text_fallback" = Some (PyStr raw_text).

(** A decoder stub that raises the same exception for every text. *)
Definition decoder_raising (e : exn) : string -> exn + pyval :=
  fun _ => inl e.

(** Models that answer every prompt with one text, or raise. *)
Definition llm_answering (text : string) : llm_client :=
  {| generate := fun _ _ => inr (Some text) |}.

Definition llm_raising (e : exn) : llm_client :=
  {| generate := fun _ _ => inl e |}.

(** A session as [new_session], with the model given. *)
Definition session_with (client : llm_client) (pd : ProjectDetails)
  : Script.world :=
  {| Script.state :=
       {| SessionState.project_details := pd;
          SessionState.messages := [];
          SessionState.llm := Some client;
          SessionState.memory := Some Memory.empty;
          SessionState.last_llm_raw_output := None;
          SessionState.last_llm_formatted_input := None |};
     Script.trace := [] |}.

(** What a turn may do to the session: it keeps the project details and the
    model client, and only appends to the chat log and to the trace. *)
Definition turn_extends (w w' : Script.world) : Prop :=
  SessionState.project_details (Script.state w')
  = SessionState.project_details (Script.state w)
  /\ SessionState.llm (Script.state w') = SessionState.llm (Script.state w)
  /\ (exists added,
         SessionState.messages (Script.state w')
         = (SessionState.messages (Script.state w) ++ added)%list)
  /\ (exists events, Script.trace w' = (Script.trace w ++ events)%list).

Definition preserves {A} (c : Script.M A) : Prop :=
  forall w, turn_extends w (snd (c w)).

(** The dicts of a list of values, when every value is a dict. *)
Fixpoint as_dicts (values : list pyval) : option (list dict) :=
  match values with
  | [] => Some []
  | PyDict d :: rest => option_map (cons d) (as_dicts rest)
  | _ :: _ => None
  end.

(** The chat history that a memory exposes. *)
Definition history_of (memory : option Memory.window) : list chat_message :=
  match memory with
  | Some window => Memory.chat_history_buffer window
  | None => []
  end.

(** The session once the query is logged and shown. *)
Definition after_prelude (user_query : string) (w : Script.world)
  : Script.world :=
  {| Script.state :=
       SessionState.append_message (user_message user_query) (Script.state w);
     Script.trace := (Script.trace w ++ turn_prelude user_query)%list |}.

(** The two model events of a turn that reaches the model. *)
Definition model_events (user_query : string) (w : Script.world)
  : list event :=
  [ call_get_llm_chain_response user_query;
    chain_invoke (history_of (SessionState.memory (Script.state w)))
                 (format_user_input_with_context
                    (SessionState.project_details (Script.state w))
                    user_query) ].

(** The session once the model has answered [text] in a turn. *)
Definition after_model_answer (user_query text : string) (w : Script.world)
  : Script.world :=
  let input :=
    format_user_input_with_context
      (SessionState.project_details (Script.state w)) user_query in
  {| Script.state :=
       SessionState.set_last_llm text input
         (SessionState.set_memory
            (option_map (fun window => Memory.append window (input, text))
                        (SessionState.memory (Script.state w)))
            (SessionState.append_message (user_message user_query)
                                         (Script.state w)));
     Script.trace :=
       (Script.trace w ++ turn_prelude user_query
        ++ model_events user_query w)%list |}.

(** The session once the model has raised in a turn. *)
Definition after_model_failure (user_query : string) (w : Script.world)
  : Script.world :=
  {| Script.state :=
       SessionState.append_message (user_message user_query) (Script.state w);
     Script.trace :=
       (Script.trace w ++ turn_prelude user_query
        ++ model_events user_query w)%list |}.

(** A turn that reaches the model: there is a query, no rule gives a
    verdict, and the session holds the model client and a memory. *)
Definition model_turn (user_query : string) (w : Script.world)
           (client : llm_client) : Prop :=
  user_query <> ""
  /\ apply_pre_checks (SessionState.project_details (Script.state w)) = None
  /\ SessionState.llm (Script.state w) = Some client
  /\ exists window, SessionState.memory (Script.state w) = Some window.

(** What the model does with the prompt of the turn. *)
Definition model_outcome (user_query : string) (w : Script.world)
           (client : llm_client) : exn + option string :=
  generate client
           (history_of (SessionState.memory (Script.state w)))
           (format_user_input_with_context
              (SessionState.project_details (Script.state w)) user_query).

(** The session with a shown fallback: the package is logged, a warning and
    the raw text are displayed. *)
Definition with_fallback (package : dict) (details raw_text : string)
           (w : Script.world) : Script.world :=
  {| Script.state :=
       SessionState.append_message (assistant (PyDict package)) (Script.state w);
     Script.trace :=
       (Script.trace w
        ++ [ st_warning ("AI Response (Fallback): " ++ details);
             st_text_area "Raw AI Output:" raw_text ])%list |}.

(** The session with logged recommendations and the rerun they trigger. *)
Definition with_recommendations (recs : list pyval) (w : Script.world)
  : Script.world :=
  {| Script.state :=
       SessionState.append_message (assistant (PyList recs)) (Script.state w);
     Script.trace := (Script.trace w ++ [st_rerun])%list |}.

(** A recommendation with the source of the model path attached. *)
Definition with_model_source (d : dict) : pyval :=
  PyDict (dict_set d "source" (PyStr "LLM via LangChain")).

(** A session in which the model client is missing. *)
Definition session_without_llm (pd : ProjectDetails) : Script.world :=
  {| Script.state :=
       {| SessionState.project_details := pd;
          SessionState.messages := [];
          SessionState.llm := None;
          SessionState.memory := Some Memory.empty;
          SessionState.last_llm_raw_output := None;
          SessionState.last_llm_formatted_input := None |};
     Script.trace := [] |}.

(** The answer of the specification's round trip, and what it decodes to. *)
Definition round_trip_answer : string :=
  "here is the answer:" ++ nl
  ++ "[{" ++ dq ++ "stack_name" ++ dq ++ ":" ++ dq ++ "X" ++ dq ++ ","
  ++ dq ++ "core_components" ++ dq ++ ":[]," ++ dq ++ "justification" ++ dq
  ++ ":" ++ dq ++ "y" ++ dq ++ "}]" ++ nl ++ "done".

Definition round_trip_recommendation : dict :=
  [ ("stack_name", PyStr "X");
    ("core_components", PyList []);
    ("justification", PyStr "y") ].

(** The query of a first turn. *)
Definition first_query : string := "recommend".

(* ================================================================== *)
(** ** [get_llm_and_memory] and the start of the script *)
(* ================================================================== *)

(** The part of [st.session_state] that the start of the script and the
    "Clear Conversation History" button use.  A memory is an object that
    several keys can hold: the keys hold a reference into [objects]. *)
Module Startup.

Record store : Type := {
  session_id : option string;
  llm : option llm_client;
  memory : option nat;
  conversation_memory : list (string * nat);
  objects : list Memory.window
}.

(** How a run of the start of the script ends: it goes on to the rest of the
    script, [st.stop()] ends it, or an exception escapes. *)
Inductive outcome : Type :=
| Continues
| Stopped
| Raised (e : exn).

(** [key in st.session_state] and [st.session_state[key]] for the keys
    [conversation_memory_<session id>]. *)
Fixpoint lookup (keys : list (string * nat)) (key : string) : option nat :=
  match keys with
  | [] => None
  | (k, r) :: keys' => if String.eqb k key then Some r else lookup keys' key
  end.

Definition memory_key (session_id : string) : string :=
  "conversation_memory_" ++ session_id.

(** [get_llm_and_memory(session_id)].  [construct] is what building the
    [ChatGoogleGenerativeAI] client gives: the client, or the exception it
    raises.  The result is [None], or the pair of the client and the memory
    object of the session. *)
Definition get_llm_and_memory (construct : exn + llm_client)
           (session_id : string) (s : store)
  : option (llm_client * nat) * store * list event :=
  match construct with
  | inl e =>
      (None, s, [st_error ("Error initializing Google Gemini: " ++ exn_str e)])
  | inr llm =>
      let memory_key := memory_key session_id in
      match lookup (conversation_memory s) memory_key with
      | Some r => (Some (llm, r), s, [])
      | None =>
          let r := List.length (objects s) in
          (Some (llm, r),
           {| session_id := Startup.session_id s;
              llm := Startup.llm s;
              memory := memory s;
              conversation_memory :=
                (conversation_memory s ++ [(memory_key, r)])%list;
              objects := (objects s ++ [Memory.empty])%list |},
           [])
      end
  end.

(** The start of [src/App.py], lines 17 to 28.  [llm_truth] and
    [memory_truth] are the truth values Python gives the client object and
    the memory object in [if llm and memory]. *)
Definition start (construct : exn + llm_client)
           (llm_truth memory_truth : bool) (s : store)
  : outcome * store * list event :=
  let session_id :=
    match Startup.session_id s with
    | Some id => id
    | None => "default_user_session"
    end in
  let s :=
    {| session_id := Some session_id;
       llm := Startup.llm s;
       memory := memory s;
       conversation_memory := conversation_memory s;
       objects := objects s |} in
  match Startup.llm s, memory s with
  | Some _, Some _ => (Continues, s, [])
  | _, _ =>
      match get_llm_and_memory construct session_id s with
      | (None, s', events) =>
          (Raised (TypeError "cannot unpack non-iterable NoneType object"),
           s', events)
      | (Some (llm, memory), s', events) =>
          if llm_truth && memory_truth then
            (Continues,
             {| session_id := Startup.session_id s';
                llm := Some llm;
                memory := Some memory;
                conversation_memory := conversation_memory s';
                objects := objects s' |},
             events)
          else
            (Stopped, s',
             (events
              ++ [st_error "Could not initialize AI model or memory. Please check API key configuration."])%list)
      end
  end.

(** Replace the object at a reference. *)
Fixpoint set_object (objects : list Memory.window) (r : nat)
         (w : Memory.window) : list Memory.window :=
  match objects, r with
  | [], _ => []
  | _ :: rest, O => w :: rest
  | o :: rest, S r' => o :: set_object rest r' w
  end.

(** The handler of the "Clear Conversation History" button: it clears the
    object under the key [conversation_memory_<session id>], with the
    session id that the start of the script has read. *)
Definition clear_history (s : store) : outcome * store * list event :=
  let session_id :=
    match Startup.session_id s with
    | Some id => id
    | None => "default_user_session"
    end in
  match lookup (conversation_memory s) (memory_key session_id) with
  | None => (Raised (KeyError (PyRepr.repr_str (memory_key session_id))), s, [])
  | Some r =>
      (Continues,
       {| session_id := Startup.session_id s;
          llm := llm s;
          memory := memory s;
          conversation_memory := conversation_memory s;
          objects := set_object (objects s) r Memory.empty |},
       [st_success "Conversation history cleared!"; st_rerun])
  end.

(** A session before the first run of the script. *)
Definition fresh : store :=
  {| session_id := None;
     llm := None;
     memory := None;
     conversation_memory := [];
     objects := [] |}.

(** The memory that the key [memory] refers to. *)
Definition current_memory (s : store) : option Memory.window :=
  match memory s with
  | Some r => List.nth_error (objects s) r
  | None => None
  end.

(** The keys refer to objects of the store. *)
Definition well_formed (s : store) : Prop :=
  (forall key r, lookup (conversation_memory s) key = Some r ->
                 (r < List.length (objects s))%nat)
  /\ (forall r, memory s = Some r -> (r < List.length (objects s))%nat).

(** The session after a first run with the sample model, and one turn in
    its memory. *)
Definition started : store :=
  {| session_id := Some "default_user_session";
     llm := Some sample_llm;
     memory := Some 0%nat;
     conversation_memory :=
       [("conversation_memory_default_user_session", 0%nat)];
     objects := [[("recommend", "[{bad json}]")]] |}.

End Startup.

(* ================================================================== *)
(** ** Facts about the text primitives *)
(* ================================================================== *)

Module PyStrFacts.
Import PyStr.

Lemma append_empty_r (s : string) : s ++ "" = s.
Proof. induction s as [|c s IH]; simpl; [reflexivity | now rewrite IH]. Qed.

Lemma append_assoc (a b c : string) : (a ++ b) ++ c = a ++ b ++ c.
Proof. induction a as [|x a IH]; simpl; [reflexivity | now rewrite IH]. Qed.

Lemma len_append (a b : string) : len (a ++ b) = len a + len b.
Proof.
  unfold len. induction a as [|x a IH]; simpl String.length.
  - reflexivity.
  - rewrite !Nat2Z.inj_succ, IH. lia.
Qed.

Lemma len_nonneg (s : string) : 0 <= len s.
Proof. unfold len. lia. Qed.

Lemma startswith_append (p r : string) : startswith (p ++ r) p = true.
Proof.
  induction p as [|c p IH]; simpl; [now destruct r|].
  now rewrite Ascii.eqb_refl, IH.
Qed.

Lemma startswith_inv (s p : string) :
  startswith s p = true -> exists r, s = p ++ r.
Proof.
  revert s. induction p as [|c p IH]; intros s H.
  - exists s. reflexivity.
  - destruct s as [|d s]; simpl in H; [discriminate|].
    apply andb_true_iff in H as [Hc Hs].
    apply Ascii.eqb_eq in Hc. subst d.
    destruct (IH _ Hs) as [r ->]. now exists r.
Qed.

Lemma startswith_iff (s p : string) :
  startswith s p = true <-> exists r, s = p ++ r.
Proof.
  split; [apply startswith_inv|]. intros [r ->]. apply startswith_append.
Qed.

Lemma find_nil (sub : string) :
  find "" sub = if startswith "" sub then 0 else -1.
Proof. reflexivity. Qed.

Lemma find_cons (c : ascii) (s sub : string) :
  find (String c s) sub =
  if startswith (String c s) sub then 0
  else if find s sub <? 0 then -1 else find s sub + 1.
Proof. reflexivity. Qed.

Lemma rfind_cons (c : ascii) (s sub : string) :
  rfind (String c s) sub =
  if 0 <=? rfind s sub then rfind s sub + 1
  else if startswith (String c s) sub then 0 else -1.
Proof. reflexivity. Qed.

Lemma len_cons (c : ascii) (s : string) : len (String c s) = len s + 1.
Proof. unfold len. simpl String.length. lia. Qed.

Lemma find_lower_bound (s sub : string) : -1 <= find s sub.
Proof.
  induction s as [|c s IH].
  - rewrite find_nil. destruct (startswith "" sub); lia.
  - rewrite find_cons. destruct (startswith (String c s) sub); [lia|].
    destruct (find s sub <? 0) eqn:E; [lia|]. apply Z.ltb_ge in E. lia.
Qed.

Lemma find_found (s sub : string) :
  0 <= find s sub ->
  exists pre post, s = pre ++ sub ++ post /\ find s sub = len pre.
Proof.
  induction s as [|c s IH].
  - rewrite find_nil. destruct (startswith "" sub) eqn:E; [|lia]. intros _.
    apply startswith_inv in E as [r E]. now exists "", r.
  - rewrite find_cons. destruct (startswith (String c s) sub) eqn:E.
    + intros _. apply startswith_inv in E as [r E]. now exists "", r.
    + destruct (find s sub <? 0) eqn:F; [lia|]. intros _.
      apply Z.ltb_ge in F. destruct (IH F) as (pre & post & Hs & Hp).
      exists (String c pre), post. split.
      * simpl. now rewrite <- Hs.
      * rewrite Hp, len_cons. reflexivity.
Qed.

Lemma find_missing (s sub : string) :
  find s sub < 0 -> ~ substring_of sub s.
Proof.
  induction s as [|c s IH].
  - rewrite find_nil. destruct (startswith "" sub) eqn:E; [lia|].
    intros _ (pre & post & H).
    destruct pre; simpl in H.
    + rewrite H, startswith_append in E. discriminate.
    + discriminate.
  - rewrite find_cons. destruct (startswith (String c s) sub) eqn:E; [lia|].
    destruct (find s sub <? 0) eqn:F.
    + intros _ (pre & post & H). apply Z.ltb_lt in F.
      destruct pre as [|d pre]; simpl in H.
      * rewrite H, startswith_append in E. discriminate.
      * injection H as _ H. apply (IH F). now exists pre, post.
    + apply Z.ltb_ge in F. lia.
Qed.

Lemma contains_iff (sub s : string) :
  contains sub s = true <-> substring_of sub s.
Proof.
  unfold contains. split.
  - intros H. apply Z.leb_le in H.
    destruct (find_found _ _ H) as (pre & post & E & _). now exists pre, post.
  - intros H. apply Z.leb_le.
    destruct (Z_lt_le_dec (find s sub) 0) as [L|L]; [|exact L].
    now apply find_missing in L.
Qed.

Lemma mem_iff (x : string) (l : list string) : mem x l = true <-> In x l.
Proof.
  unfold mem. rewrite existsb_exists. split.
  - intros (y & Hy & E). apply String.eqb_eq in E. now subst.
  - intros H. exists x. split; [exact H | apply String.eqb_refl].
Qed.

(** *** One-character searches *)

Lemma startswith_char (c d : ascii) (s : string) :
  startswith (String d s) (String c "") = Ascii.eqb c d.
Proof. simpl. destruct s; apply andb_true_r. Qed.

Lemma find_char_absent (c : ascii) (s : string) :
  ~ occurs c s -> find s (String c "") = -1.
Proof.
  induction s as [|d s IH]; intros H; [reflexivity|].
  rewrite find_cons, startswith_char. simpl in H.
  destruct (Ascii.eqb c d) eqn:E.
  - apply Ascii.eqb_eq in E. subst. tauto.
  - rewrite IH by tauto. reflexivity.
Qed.

Lemma find_char_first (c : ascii) (a r : string) :
  ~ occurs c a -> find (a ++ String c r) (String c "") = len a.
Proof.
  induction a as [|d a IH]; intros H.
  - simpl append. now rewrite find_cons, startswith_char, Ascii.eqb_refl.
  - simpl append. rewrite find_cons, startswith_char. simpl in H.
    destruct (Ascii.eqb c d) eqn:E.
    + apply Ascii.eqb_eq in E. subst. tauto.
    + rewrite IH by tauto. rewrite len_cons.
      pose proof (len_nonneg a).
      destruct (len a <? 0) eqn:F; [apply Z.ltb_lt in F; lia | reflexivity].
Qed.

Lemma rfind_char_absent (c : ascii) (s : string) :
  ~ occurs c s -> rfind s (String c "") = -1.
Proof.
  induction s as [|d s IH]; intros H; [reflexivity|].
  rewrite rfind_cons, startswith_char. simpl in H.
  rewrite IH by tauto. simpl.
  destruct (Ascii.eqb c d) eqn:E; [|reflexivity].
  apply Ascii.eqb_eq in E. subst. tauto.
Qed.

Lemma rfind_char_last (c : ascii) (a r : string) :
  ~ occurs c r -> rfind (a ++ String c r) (String c "") = len a.
Proof.
  intros H. induction a as [|d a IH].
  - simpl append. rewrite rfind_cons, startswith_char, Ascii.eqb_refl.
    now rewrite rfind_char_absent.
  - simpl append. rewrite rfind_cons, IH, len_cons.
    pose proof (len_nonneg a).
    destruct (0 <=? len a) eqn:F; [reflexivity | apply Z.leb_gt in F; lia].
Qed.

Lemma occurs_append (c : ascii) (a b : string) :
  occurs c (a ++ b) <-> occurs c a \/ occurs c b.
Proof. induction a as [|d a IH]; simpl; tauto. Qed.

(** *** Slices *)

Lemma substring_prefix (m c : string) :
  String.substring 0 (String.length m) (m ++ c) = m.
Proof.
  induction m as [|x m IH]; simpl.
  - now destruct c.
  - now rewrite IH.
Qed.

Lemma substring_middle (a m c : string) :
  String.substring (String.length a) (String.length m) (a ++ m ++ c) = m.
Proof.
  induction a as [|x a IH]; simpl; [apply substring_prefix | exact IH].
Qed.

Lemma slice_middle (a m c : string) :
  slice (a ++ m ++ c) (len a) (len a + len m) = m.
Proof.
  unfold slice. rewrite !len_append.
  pose proof (len_nonneg a). pose proof (len_nonneg m).
  pose proof (len_nonneg c).
  destruct (len a <? 0) eqn:E1; [apply Z.ltb_lt in E1; lia|].
  destruct (len a + len m <? 0) eqn:E2; [apply Z.ltb_lt in E2; lia|].
  rewrite !Z.min_l by lia.
  replace (len a + len m - len a) with (len m) by lia.
  unfold len. rewrite !Nat2Z.id. apply substring_middle.
Qed.

(** *** Stripping *)

Lemma lstrip_keeps (a r : string) (x : ascii) :
  is_space x = false ->
  lstrip (a ++ String x r) = lstrip a ++ String x r.
Proof.
  intros Hx. induction a as [|d a IH]; simpl.
  - now rewrite Hx.
  - destruct (is_space d); [exact IH | reflexivity].
Qed.

Lemma rstrip_char (x : ascii) (r : string) :
  is_space x = false -> rstrip (String x r) = String x (rstrip r).
Proof.
  intros Hx. simpl. destruct (rstrip r); [now rewrite Hx | reflexivity].
Qed.

Lemma rstrip_keeps (a r : string) (x : ascii) :
  is_space x = false ->
  rstrip (a ++ String x r) = a ++ String x (rstrip r).
Proof.
  intros Hx. induction a as [|d a IH].
  - simpl append. now apply rstrip_char.
  - simpl append. simpl rstrip. rewrite IH.
    destruct a; reflexivity.
Qed.

Lemma occurs_lstrip (c : ascii) (s : string) :
  occurs c (lstrip s) -> occurs c s.
Proof.
  induction s as [|d s IH]; simpl; [tauto|].
  destruct (is_space d); simpl; tauto.
Qed.

Lemma occurs_rstrip (c : ascii) (s : string) :
  occurs c (rstrip s) -> occurs c s.
Proof.
  induction s as [|d s IH]; simpl; [tauto|].
  destruct (rstrip s) eqn:E.
  - destruct (is_space d); simpl; tauto.
  - simpl. simpl in IH. tauto.
Qed.

Lemma occurs_strip (c : ascii) (s : string) :
  occurs c (strip s) -> occurs c s.
Proof. intros H. now apply occurs_lstrip, occurs_rstrip. Qed.

End PyStrFacts.
(* ================================================================== *)
(** ** The rules of [apply_pre_checks] *)
(* ================================================================== *)

Module RuleFacts.
Import PyStr PyStrFacts.

Lemma lower_append (a b : string) : lower (a ++ b) = lower a ++ lower b.
Proof.
  unfold lower. induction a as [|c a IH]; simpl; [reflexivity|].
  now rewrite IH.
Qed.

Lemma lower_empty_iff (s : string) : lower s = "" <-> s = "".
Proof. destruct s; simpl; split; intros H; try reflexivity; discriminate. Qed.

Lemma filter_const {A} (b : bool) (l : list A) :
  filter (fun _ => b) l = if b then l else [].
Proof.
  induction l as [|x l IH]; simpl; [now destruct b|].
  rewrite IH. now destruct b.
Qed.

(** The function is the chain of its three tests. *)
Lemma apply_pre_checks_chain (pd : ProjectDetails) :
  apply_pre_checks pd =
  if static_site_test pd then Some static_site_verdict
  else if contradiction_test pd then Some contradictory_input_verdict
  else if scope_test pd then Some unrealistic_scope_verdict
  else None.
Proof. reflexivity. Qed.

Lemma keyword_test_iff (keywords : list string) (f : string -> bool)
      (P : string -> Prop) :
  (forall keyword, In keyword keywords -> (f keyword = true <-> P keyword)) ->
  existsb f keywords = true <-> exists keyword, In keyword keywords /\ P keyword.
Proof.
  intros H. rewrite existsb_exists. split.
  - intros (kw & Hin & Hf). exists kw. split; [exact Hin|]. now apply H.
  - intros (kw & Hin & Hp). exists kw. split; [exact Hin|]. now apply H.
Qed.

Lemma static_site_keywords_lower (keyword : string) :
  In keyword static_site_keywords -> lower keyword = keyword.
Proof.
  intros H. repeat (destruct H as [<-|H]; [reflexivity|]). destruct H.
Qed.

Lemma complex_keywords_lower (keyword : string) :
  In keyword complex_keywords -> lower keyword = keyword.
Proof.
  intros H. repeat (destruct H as [<-|H]; [reflexivity|]). destruct H.
Qed.

Lemma field_contains_iff (field : option string) (keyword : string) :
  lower keyword = keyword ->
  contains keyword (lower (get_text field)) = true
  <-> field_contains field keyword.
Proof.
  intros H. unfold field_contains. rewrite H. apply contains_iff.
Qed.

Lemma field_is_iff (field : option string) (value : string) :
  String.eqb (lower (get_text field)) (lower value) = true
  <-> field_is field value.
Proof. apply String.eqb_eq. Qed.

Lemma field_starts_with_iff (field : option string) (p : string) :
  startswith (lower (get_text field)) (lower p) = true
  <-> field_starts_with field p.
Proof. apply startswith_iff. Qed.

Lemma static_site_test_iff (pd : ProjectDetails) :
  static_site_test pd = true <-> static_site_rule pd.
Proof.
  unfold static_site_test, static_site_rule.
  rewrite !andb_true_iff.
  rewrite (keyword_test_iff static_site_keywords _
             (fun keyword => field_contains (app_type pd) keyword \/
                             field_contains (project_description pd) keyword)).
  2:{ intros kw Hk. apply static_site_keywords_lower in Hk.
      rewrite orb_true_iff, !field_contains_iff by exact Hk. tauto. }
  rewrite mem_iff.
  change "low" with (lower "Low") at 2.
  change "very short" with (lower "Very Short").
  rewrite field_is_iff, field_starts_with_iff.
  unfold field_is at 1, same_text_ci, field_unset. simpl In.
  rewrite <- (lower_empty_iff (get_text (scalability_needs pd))).
  change (lower "Low") with "low".
  split.
  - intros [[[H1 H2] H3] H4]. repeat split; try assumption.
    destruct H2 as [H2|[H2|[]]]; [left|right]; now symmetry.
  - intros (H1 & H2 & H3 & H4). repeat split; try assumption.
    destruct H2 as [H2|H2]; [left | right; left]; now symmetry.
Qed.

Lemma has_backend_skill_iff (pd : ProjectDetails) :
  existsb (fun skill => mem skill backend_skills) (skills pd) = true
  <-> has_backend_skill pd.
Proof.
  unfold has_backend_skill. rewrite existsb_exists.
  split; intros (sk & H1 & H2); exists sk; split; try assumption;
    now apply mem_iff.
Qed.

Lemma high_scalability_iff (pd : ProjectDetails) :
  mem (lower (get_text (scalability_needs pd))) ["high"; "very high"] = true
  <-> high_scalability pd.
Proof.
  rewrite mem_iff. unfold high_scalability, field_is, same_text_ci.
  change (lower "High") with "high".
  change (lower "Very High") with "very high".
  generalize (lower (get_text (scalability_needs pd))). intros s.
  simpl In. intuition congruence.
Qed.

(** The guarded search for a backend skill: listing "none" empties it. *)
Lemma backend_search_iff (pd : ProjectDetails) :
  negb (existsb (fun skill => mem skill backend_skills)
                (filter (fun _ => negb (mem "none" (skills pd))) (skills pd)))
  = true
  <-> In "none" (skills pd) \/ ~ has_backend_skill pd.
Proof.
  rewrite filter_const, negb_true_iff.
  destruct (mem "none" (skills pd)) eqn:E; simpl.
  - apply mem_iff in E. tauto.
  - assert (~ In "none" (skills pd)) as Hn.
    { intros H. apply mem_iff in H. congruence. }
    rewrite <- has_backend_skill_iff.
    destruct (existsb _ (skills pd)); intuition congruence.
Qed.

Lemma contradiction_test_iff (pd : ProjectDetails) :
  contradiction_test pd = true <-> contradiction_rule pd.
Proof.
  unfold contradiction_test, contradiction_rule.
  rewrite andb_true_iff, !orb_true_iff, high_scalability_iff,
    backend_search_iff.
  rewrite !field_contains_iff by reflexivity. tauto.
Qed.

Lemma scope_test_iff (pd : ProjectDetails) :
  scope_test pd = true <-> scope_rule pd.
Proof.
  unfold scope_test, scope_rule, startswith_any.
  rewrite !andb_true_iff, !orb_true_iff.
  rewrite (keyword_test_iff complex_keywords _
             (fun keyword => field_contains (project_description pd) keyword)).
  2:{ intros kw Hk. apply complex_keywords_lower in Hk.
      now apply field_contains_iff. }
  simpl existsb. rewrite !orb_true_iff.
  change "very short" with (lower "Very Short").
  change "short" with (lower "Short").
  change "low" with (lower "Low").
  rewrite !field_starts_with_iff, field_is_iff, mem_iff.
  assert ((match skills pd with [] => true | _ :: _ => false end) = true
          <-> skills pd = []) as ->.
  { destruct (skills pd); split; intros H; try reflexivity; discriminate. }
  intuition discriminate.
Qed.

Lemma matches_iff (r : rule) (pd : ProjectDetails) :
  matches r pd <->
  match r with
  | StaticSite => static_site_test pd
  | ScalabilityBackend => contradiction_test pd
  | ScopeTimeline => scope_test pd
  end = true.
Proof.
  destruct r; simpl; symmetry;
    [apply static_site_test_iff | apply contradiction_test_iff
     | apply scope_test_iff].
Qed.

(** The first rule, in the fixed order, whose condition holds decides. *)
Lemma first_match (pd : ProjectDetails) (r : rule) :
  matches r pd ->
  (forall r', (priority r' < priority r)%nat -> ~ matches r' pd) ->
  apply_pre_checks pd = Some (verdict_of r).
Proof.
  intros Hr Hearlier. rewrite apply_pre_checks_chain.
  assert (forall r', (priority r' < priority r)%nat ->
                     match r' with
                     | StaticSite => static_site_test pd
                     | ScalabilityBackend => contradiction_test pd
                     | ScopeTimeline => scope_test pd
                     end = false) as Hf.
  { intros r' Hlt. apply not_true_is_false. intros H.
    apply (Hearlier r' Hlt). now apply matches_iff. }
  apply matches_iff in Hr.
  destruct r; simpl in Hr.
  - now rewrite Hr.
  - rewrite (Hf StaticSite) by (simpl; lia). now rewrite Hr.
  - rewrite (Hf StaticSite), (Hf ScalabilityBackend) by (simpl; lia).
    now rewrite Hr.
Qed.

(** Rules 1 and 2 ask for different scalability needs. *)
Lemma static_site_excludes_contradiction (pd : ProjectDetails) :
  static_site_rule pd -> ~ contradiction_rule pd.
Proof.
  intros (_ & Hs & _) (Hh & _).
  unfold high_scalability, field_is, field_unset, same_text_ci in *.
  rewrite <- lower_empty_iff in Hs. simpl in *.
  destruct Hs as [Hs|Hs], Hh as [Hh|Hh]; rewrite Hs in Hh; discriminate.
Qed.

End RuleFacts.

(* ================================================================== *)
(** ** Properties of the rule pre-checks *)
(* ================================================================== *)

Section RuleClaims.
Import RuleFacts.

Lemma static_site_refuted_by_test (pd : ProjectDetails) :
  static_site_test pd = false -> ~ static_site_rule pd.
Proof. intros H R. apply static_site_test_iff in R. congruence. Qed.





(** C2, as stated, fails: with high scalability needs and a team that
    lists both "Python" and "None" the static-site rule does not match,
    the function returns the "Contradictory Input" error, and yet none of
    the three stated conditions holds (the team has a backend skill). *)
Lemma contradiction_rule_of_spec_counterexample :
  ~ static_site_rule python_and_none_project
  /\ apply_pre_checks python_and_none_project =
     Some [ ("error", PyStr "Contradictory Input");
         ("details", PyStr "High scalability typically requires a robust backend. Please clarify if a backend is needed or adjust scalability expectations.");
         ("source", PyStr "Rule-Based Pre-check") ]
  /\ ~ contradiction_rule_of_spec python_and_none_project.
Proof.
  split; [apply static_site_refuted_by_test; vm_compute; reflexivity|].
  split; [vm_compute; reflexivity|].
  intros (_ & [H|[H|H]]).
  - apply field_contains_iff in H; [|reflexivity]. vm_compute in H.
    discriminate.
  - apply field_contains_iff in H; [|reflexivity]. vm_compute in H.
    discriminate.
  - apply H. exists "python". split; vm_compute; tauto.
Qed.

(** C2, amended: for project details that do not match the static-site
    rule, [apply_pre_checks] returns the "Contradictory Input" error
    exactly when the scalability needs are High or Very High (up to case)
    and the description contains "no backend", or the application type
    contains "frontend only", or the lower-cased skills contain "none", or
    they contain none of the backend skills. *)
Theorem contradictory_input_iff (pd : ProjectDetails) :
  ~ static_site_rule pd ->
  (apply_pre_checks pd =
   Some [ ("error", PyStr "Contradictory Input");
         ("details", PyStr "High scalability typically requires a robust backend. Please clarify if a backend is needed or adjust scalability expectations.");
         ("source", PyStr "Rule-Based Pre-check") ]
   <-> contradiction_rule pd).
Proof.
  intros Hs. rewrite <- contradiction_test_iff, apply_pre_checks_chain.
  destruct (static_site_test pd) eqn:E1.
  - exfalso. apply Hs. now apply static_site_test_iff.
  - destruct (contradiction_test pd); [tauto|].
    destruct (scope_test pd); split; discriminate.
Qed.

Lemma contradictory_input_iff_witness :
  ~ static_site_rule python_and_none_project
  /\ (apply_pre_checks python_and_none_project =
      Some [ ("error", PyStr "Contradictory Input");
         ("details", PyStr "High scalability typically requires a robust backend. Please clarify if a backend is needed or adjust scalability expectations.");
         ("source", PyStr "Rule-Based Pre-check") ]
      <-> contradiction_rule python_and_none_project).
Proof.
  assert (~ static_site_rule python_and_none_project) as H
      by (apply static_site_refuted_by_test; vm_compute; reflexivity).
  split; [exact H | exact (contradictory_input_iff _ H)].
Defined.



(** C10: with scalability needs High or Very High, a skill equal to "None"
    up to case makes [apply_pre_checks] return the "Contradictory Input"
    error, whatever the other skills of the team are. *)
Theorem none_skill_forces_contradiction (pd : ProjectDetails) :
  high_scalability pd ->
  (exists skill, In skill (get_list (team_skills pd))
                 /\ same_text_ci skill "None") ->
  apply_pre_checks pd =
  Some [ ("error", PyStr "Contradictory Input");
         ("details", PyStr "High scalability typically requires a robust backend. Please clarify if a backend is needed or adjust scalability expectations.");
         ("source", PyStr "Rule-Based Pre-check") ].
Proof.
  intros Hh (skill & Hin & Hci).
  assert (contradiction_rule pd) as Hc.
  { split; [exact Hh|]. right. right. left.
    unfold skills. apply in_map_iff. exists skill. split; [exact Hci | exact Hin]. }
  apply (first_match pd ScalabilityBackend); [exact Hc|].
  intros r' Hlt Hm. destruct r'; simpl in Hlt; try lia.
  exact (static_site_excludes_contradiction pd Hm Hc).
Qed.

Lemma none_skill_forces_contradiction_witness :
  high_scalability python_and_none_project
  /\ (exists skill,
         In skill (get_list (team_skills python_and_none_project))
         /\ same_text_ci skill "None")
  /\ In "Python" (get_list (team_skills python_and_none_project))
  /\ apply_pre_checks python_and_none_project =
     Some [ ("error", PyStr "Contradictory Input");
         ("details", PyStr "High scalability typically requires a robust backend. Please clarify if a backend is needed or adjust scalability expectations.");
         ("source", PyStr "Rule-Based Pre-check") ].
Proof.
  assert (high_scalability python_and_none_project) as H1
      by (left; reflexivity).
  assert (exists skill,
             In skill (get_list (team_skills python_and_none_project))
             /\ same_text_ci skill "None") as H2
      by (exists "None"; split; [simpl; tauto | reflexivity]).
  split; [exact H1|]. split; [exact H2|]. split; [simpl; tauto|].
  exact (none_skill_forces_contradiction _ H1 H2).
Defined.

End RuleClaims.

(* ================================================================== *)
(** ** Properties of the Response Normalizer *)
(* ================================================================== *)

Section NormalizerClaims.
Import PyStr PyStrFacts.

Variable json_loads : string -> exn + pyval.

(** The cleaned text of a raw text with a bracket span. *)
Lemma strip_bracket_span (raw before body after : string) :
  bracket_span raw before body after ->
  strip raw = lstrip before ++ ("[" ++ body ++ "]") ++ rstrip after.
Proof.
  intros (-> & _ & _). unfold strip.
  change ("[" ++ body ++ "]" ++ after)
    with (String "[" (body ++ String "]" after)).
  rewrite lstrip_keeps by reflexivity.
  replace (lstrip before ++ String "[" (body ++ String "]" after))
    with ((lstrip before ++ String "[" body) ++ String "]" after)
    by (rewrite append_assoc; reflexivity).
  rewrite rstrip_keeps by reflexivity.
  rewrite !append_assoc. simpl. rewrite ?append_assoc. reflexivity.
Qed.

(** With a bracket span, the normalizer decodes exactly the text from the
    first opening bracket to the last closing bracket. *)
Lemma parse_llm_output_span (raw before body after : string) :
  bracket_span raw before body after ->
  parse_llm_output json_loads raw =
  match json_loads ("[" ++ body ++ "]") with
  | inl e => inl e
  | inr parsed =>
      if negb (is_list parsed)
      then inl (ValueError "LLM output was valid JSON, but not a list.")
      else inr [ ("recommendations", parsed);
                 ("source", PyStr "LLM via LangChain") ]
  end.
Proof.
  intros Hspan. pose proof (strip_bracket_span _ _ _ _ Hspan) as Hclean.
  destruct Hspan as (_ & Hb & Ha).
  unfold parse_llm_output. rewrite Hclean.
  set (A := lstrip before). set (C := rstrip after).
  assert (~ occurs "[" A) as HA by (intros H; now apply occurs_lstrip in H).
  assert (~ occurs "]" C) as HC by (intros H; now apply occurs_rstrip in H).
  assert (find (A ++ ("[" ++ body ++ "]") ++ C) "[" = len A) as ->.
  { change (("[" ++ body ++ "]") ++ C) with (String "[" ((body ++ "]") ++ C)).
    now apply find_char_first. }
  assert (rfind (A ++ ("[" ++ body ++ "]") ++ C) "]" = len A + len body + 1)
    as ->.
  { replace (A ++ ("[" ++ body ++ "]") ++ C)
      with ((A ++ String "[" body) ++ String "]" C).
    - rewrite rfind_char_last by exact HC.
      rewrite len_append, len_cons. lia.
    - rewrite !append_assoc. simpl. rewrite ?append_assoc. reflexivity. }
  pose proof (len_nonneg A). pose proof (len_nonneg body).
  assert (negb (len A =? -1) = true) as ->
      by (apply negb_true_iff, Z.eqb_neq; lia).
  assert (negb (len A + len body + 1 + 1 =? 0) = true) as ->
      by (apply negb_true_iff, Z.eqb_neq; lia).
  assert ((len A + len body + 1 + 1 >? len A) = true) as ->
      by (apply Z.gtb_lt; lia).
  cbn [andb].
  replace (len A + len body + 1 + 1) with (len A + len ("[" ++ body ++ "]")).
  - now rewrite slice_middle.
  - change ("[" ++ body ++ "]") with (String "[" (body ++ "]")).
    rewrite len_cons, len_append. change (len "]") with 1. lia.
Qed.

(** Without an opening bracket there is no span. *)
Lemma parse_llm_output_no_bracket (raw : string) :
  ~ occurs "[" raw ->
  parse_llm_output json_loads raw =
  inr [ ("error", PyStr "LLM_RESPONSE_NOT_JSON_ARRAY");
        ("details", PyStr "LLM did not return a parseable JSON array. Displaying raw text.");
        ("raw_text_fallback", PyStr (strip raw));
        ("source", PyStr "LLM via LangChain") ].
Proof.
  intros H. unfold parse_llm_output.
  rewrite find_char_absent by (intros Ho; now apply occurs_strip in Ho).
  reflexivity.
Qed.

(** What [strip] trims: blanks on both sides, and nothing is left to
    trim. *)
Lemma lstrip_split (s : string) :
  exists l, s = l ++ lstrip s /\ blank l.
Proof.
  induction s as [|c s (l & Hl & Hb)].
  - exists "". split; [reflexivity | intros c []].
  - simpl. destruct (is_space c) eqn:E.
    + exists (String c l). split; [simpl; now rewrite <- Hl|].
      intros d [<-|Hd]; [exact E | now apply Hb].
    + exists "". split; [reflexivity | intros d []].
Qed.

Lemma rstrip_split (s : string) :
  exists r, s = rstrip s ++ r /\ blank r.
Proof.
  induction s as [|c s (r & Hr & Hb)].
  - exists "". split; [reflexivity | intros c []].
  - simpl. destruct (rstrip s) as [|d t] eqn:E.
    + destruct (is_space c) eqn:Ec.
      * exists (String c r). split; [simpl in Hr; now rewrite <- Hr|].
        intros x [<-|Hx]; [exact Ec | now apply Hb].
      * exists r. split; [simpl in *; now rewrite <- Hr | exact Hb].
    + exists r. split; [simpl in *; now rewrite <- Hr | exact Hb].
Qed.

Lemma strip_split (s : string) :
  exists l r, s = l ++ strip s ++ r /\ blank l /\ blank r.
Proof.
  destruct (lstrip_split s) as (l & Hl & Hbl).
  destruct (rstrip_split (lstrip s)) as (r & Hr & Hbr).
  exists l, r. unfold strip. now rewrite <- Hr.
Qed.

Lemma rstrip_idempotent (s : string) : rstrip (rstrip s) = rstrip s.
Proof.
  induction s as [|c s IH]; [reflexivity|].
  simpl. destruct (rstrip s) as [|d t] eqn:E.
  - destruct (is_space c) eqn:Ec; [reflexivity | simpl; now rewrite Ec].
  - simpl. simpl in IH. rewrite IH. reflexivity.
Qed.

Lemma strip_trimmed (s : string) :
  lstrip (strip s) = strip s /\ rstrip (strip s) = strip s.
Proof.
  unfold strip. split; [|apply rstrip_idempotent].
  assert (lstrip (lstrip s) = lstrip s) as H.
  { induction s as [|c s IH]; [reflexivity|].
    simpl. destruct (is_space c) eqn:E; [exact IH | simpl; now rewrite E]. }
  destruct (lstrip s) as [|c t]; [reflexivity|].
  simpl in H. destruct (is_space c) eqn:E.
  - exfalso. assert (String.length (lstrip t) <= String.length t)%nat.
    { clear. induction t as [|d t IH]; simpl; [lia|].
      destruct (is_space d); simpl; lia. }
    rewrite H in H0. simpl in H0. lia.
  - rewrite rstrip_char by exact E. simpl. now rewrite E.
Qed.

(** C5: a raw text with no opening bracket at all gives the fallback
    package whose raw text is the trimmed input; no exception path is
    taken. *)
Theorem no_bracket_gives_fallback (raw : string) :
  ~ occurs "[" raw ->
  normalize json_loads raw =
  [ ("error", PyStr "LLM_RESPONSE_NOT_JSON_ARRAY");
    ("details", PyStr "LLM did not return a parseable JSON array. Displaying raw text.");
    ("raw_text_fallback", PyStr (strip raw));
    ("source", PyStr "LLM via LangChain") ]
  /\ is_unparsed_fallback (normalize json_loads raw) (strip raw)
  /\ (forall e, parse_llm_output json_loads raw <> inl e).
Proof.
  intros H. unfold normalize.
  rewrite (parse_llm_output_no_bracket raw H).
  split; [reflexivity|]. split; [split; reflexivity | discriminate].
Qed.

(** C4: when the text between the first opening bracket and the last
    closing bracket is rejected by the decoder, the result is the
    "LLM_JSON_PARSE_ERROR" package; its details hold the decoder's message
    and its raw text is the original, untrimmed text. *)
Theorem malformed_json_gives_parse_error
        (raw before body after msg : string) :
  bracket_span raw before body after ->
  json_loads ("[" ++ body ++ "]") = inl (JSONDecodeError msg) ->
  normalize json_loads raw =
  [ ("error", PyStr "LLM_JSON_PARSE_ERROR");
    ("details", PyStr ("Failed to parse LLM output as JSON. Error: " ++ msg
                       ++ ". Raw output was: " ++ nl ++ raw));
    ("raw_text_fallback", PyStr raw) ].
Proof.
  intros Hspan Hdec. unfold normalize.
  rewrite (parse_llm_output_span _ _ _ _ Hspan), Hdec. reflexivity.
Qed.

(** The branch for a decoded value that is not a list: the [ValueError]
    raised there is caught by the general handler, which gives the
    "LLM_CHAIN_ERROR" package with the original, untrimmed text.  It takes a
    decoder that answers a text in brackets with something else than a list,
    which [json.loads] does not do. *)
Lemma not_a_list_gives_chain_error
        (raw before body after : string) (parsed : pyval) :
  bracket_span raw before body after ->
  json_loads ("[" ++ body ++ "]") = inr parsed ->
  is_list parsed = false ->
  normalize json_loads raw =
  [ ("error", PyStr "LLM_CHAIN_ERROR");
    ("details", PyStr "An unexpected error occurred: ValueError - LLM output was valid JSON, but not a list.");
    ("raw_text_fallback", PyStr raw) ].
Proof.
  intros Hspan Hdec Hlist. unfold normalize.
  rewrite (parse_llm_output_span _ _ _ _ Hspan), Hdec, Hlist. reflexivity.
Qed.

(** Whenever the decoded value is not a list, the result is not the fallback
    package. *)
Lemma not_a_list_never_fallback
      (raw before body after : string) (parsed : pyval) :
  bracket_span raw before body after ->
  json_loads ("[" ++ body ++ "]") = inr parsed ->
  is_list parsed = false ->
  ~ is_unparsed_fallback (normalize json_loads raw) (strip raw).
Proof.
  intros Hspan Hdec Hlist [H _]. unfold normalize in H.
  rewrite (parse_llm_output_span _ _ _ _ Hspan), Hdec, Hlist in H.
  discriminate H.
Qed.

(** A decoded list is passed through as the recommendations. *)
Lemma list_gives_recommendations
      (raw before body after : string) (recs : list pyval) :
  bracket_span raw before body after ->
  json_loads ("[" ++ body ++ "]") = inr (PyList recs) ->
  normalize json_loads raw =
  [ ("recommendations", PyList recs); ("source", PyStr "LLM via LangChain") ].
Proof.
  intros Hspan Hdec. unfold normalize.
  rewrite (parse_llm_output_span _ _ _ _ Hspan), Hdec. reflexivity.
Qed.

End NormalizerClaims.

Lemma bracket_span_intro (before body after : string) :
  PyStr.find before "[" = -1 -> PyStr.find after "]" = -1 ->
  bracket_span (before ++ "[" ++ body ++ "]" ++ after) before body after.
Proof.
  assert (forall c s, PyStr.find s (String c "") = -1 -> ~ PyStr.occurs c s) as F.
  { intros c s. induction s as [|d s IH]; [intros _ []|].
    rewrite PyStrFacts.find_cons, PyStrFacts.startswith_char.
    destruct (Ascii.eqb c d) eqn:E; [discriminate|].
    destruct (PyStr.find s (String c "") <? 0) eqn:L.
    - intros _ [->|H]; [now rewrite Ascii.eqb_refl in E|].
      pose proof (PyStrFacts.find_lower_bound s (String c "")).
      apply Z.ltb_lt in L. apply IH; [lia | exact H].
    - apply Z.ltb_ge in L. lia. }
  intros H1 H2. split; [reflexivity|]. split; now apply F.
Qed.

Lemma no_bracket_gives_fallback_witness :
  ~ PyStr.occurs "[" "  I cannot answer that.  "
  /\ normalize sample_json_loads "  I cannot answer that.  " =
     [ ("error", PyStr "LLM_RESPONSE_NOT_JSON_ARRAY");
       ("details", PyStr "LLM did not return a parseable JSON array. Displaying raw text.");
       ("raw_text_fallback", PyStr "I cannot answer that.");
       ("source", PyStr "LLM via LangChain") ].
Proof.
  assert (~ PyStr.occurs "[" "  I cannot answer that.  ") as H.
  { simpl. intros H.
    repeat (destruct H as [H|H]; [discriminate H|]). exact H. }
  split; [exact H|].
  exact (proj1 (no_bracket_gives_fallback sample_json_loads _ H)).
Defined.

Lemma malformed_json_gives_parse_error_witness :
  bracket_span " [{bad json}] " " " "{bad json}" " "
  /\ sample_json_loads "[{bad json}]" =
     inl (JSONDecodeError "Expecting property name enclosed in double quotes: line 1 column 3 (char 2)")
  /\ normalize sample_json_loads " [{bad json}] " =
     [ ("error", PyStr "LLM_JSON_PARSE_ERROR");
       ("details", PyStr ("Failed to parse LLM output as JSON. Error: Expecting property name enclosed in double quotes: line 1 column 3 (char 2). Raw output was: "
                          ++ nl ++ " [{bad json}] "));
       ("raw_text_fallback", PyStr " [{bad json}] ") ].
Proof.
  assert (bracket_span " [{bad json}] " " " "{bad json}" " ") as H
      by (apply (bracket_span_intro " " "{bad json}" " "); reflexivity).
  split; [exact H|]. split; [reflexivity|].
  exact (malformed_json_gives_parse_error sample_json_loads _ _ _ _ _ H eq_refl).
Defined.


(** The round trip of the specification: commentary around the array is
    dropped and the decoded list is passed through. *)
Example normalize_round_trip :
  normalize sample_json_loads
    ("here is the answer:" ++ nl
     ++ "[{" ++ dq ++ "stack_name" ++ dq ++ ":" ++ dq ++ "X" ++ dq ++ ","
     ++ dq ++ "core_components" ++ dq ++ ":[]," ++ dq ++ "justification" ++ dq
     ++ ":" ++ dq ++ "y" ++ dq ++ "}]" ++ nl ++ "done")
  = [ ("recommendations",
       PyList [PyDict [ ("stack_name", PyStr "X");
                        ("core_components", PyList []);
                        ("justification", PyStr "y") ]]);
      ("source", PyStr "LLM via LangChain") ].
Proof. vm_compute. reflexivity. Qed.

(* ================================================================== *)
(** ** Properties of the memory window *)
(* ================================================================== *)

Module MemoryFacts.
Import Memory.
Local Open Scope nat_scope.
Local Open Scope list_scope.

Lemma append_bounded (w : window) (t : turn) :
  length w <= k -> length (append w t) <= k.
Proof.
  intros H. unfold append.
  destruct (k <? length (w ++ [t])) eqn:E.
  - destruct w as [|x w]; simpl in *; [lia|].
    rewrite length_app. simpl. lia.
  - now apply Nat.ltb_ge in E.
Qed.

Lemma tl_skipn {A} (m : nat) (l : list A) : tl (skipn m l) = skipn (S m) l.
Proof.
  revert l. induction m as [|m IH]; intros [|x l]; try reflexivity.
  simpl skipn at 1. rewrite IH. reflexivity.
Qed.

(** Appending to the last [k] turns of a history gives the last [k] turns
    of the longer history. *)
Lemma append_last_n (history : list turn) (t : turn) :
  append (last_n k history) t = last_n k (history ++ [t]).
Proof.
  unfold append, last_n. rewrite !length_app, length_skipn. simpl length.
  destruct (Nat.le_gt_cases k (length history)) as [L|L].
  - replace (length history - (length history - k) + 1) with (S k) by lia.
    assert ((k <? S k) = true) as -> by (apply Nat.ltb_lt; lia).
    replace (length history + 1 - k) with (S (length history - k)) by lia.
    rewrite <- tl_skipn, skipn_app.
    replace (length history - k - length history) with 0 by lia.
    simpl skipn at 2.
    destruct (skipn (length history - k) history) eqn:E; [|reflexivity].
    exfalso. apply (f_equal (@length _)) in E. rewrite length_skipn in E.
    simpl in E. unfold k in *. lia.
  - replace (length history - k) with 0 by lia. simpl skipn.
    assert ((k <? length history - 0 + 1) = false) as ->
        by (apply Nat.ltb_ge; lia).
    replace (length history + 1 - k) with 0 by lia. reflexivity.
Qed.

Lemma fold_append_last_n (turns history : list turn) :
  fold_left append turns (last_n k history) = last_n k (history ++ turns).
Proof.
  revert history. induction turns as [|t turns IH]; intros history.
  - now rewrite app_nil_r.
  - simpl. rewrite append_last_n, IH, <- app_assoc. reflexivity.
Qed.

Lemma after_last_n (turns : list turn) : after turns = last_n k turns.
Proof. exact (fold_append_last_n turns []). Qed.

End MemoryFacts.

(** C9: the memory window never holds more than 5 turns; it holds the last 5
    turns of the conversation, oldest first, and this is the order of the
    chat history given to the model; after six turns the first one is gone
    and the other five remain in their order. *)
Theorem memory_window_keeps_last_five :
  (forall turns : list turn,
      (List.length (Memory.after turns) <= 5)%nat
      /\ Memory.after turns = List.skipn (List.length turns - 5) turns
      /\ Memory.chat_history_buffer (Memory.after turns) =
         List.flat_map (fun t => [HumanMessage (fst t); AIMessage (snd t)])
                       (List.skipn (List.length turns - 5) turns))
  /\ (forall t1 t2 t3 t4 t5 t6 : turn,
         Memory.after [t1; t2; t3; t4; t5; t6] = [t2; t3; t4; t5; t6]
         /\ Memory.chat_history_buffer (Memory.after [t1; t2; t3; t4; t5; t6]) =
            [ HumanMessage (fst t2); AIMessage (snd t2);
              HumanMessage (fst t3); AIMessage (snd t3);
              HumanMessage (fst t4); AIMessage (snd t4);
              HumanMessage (fst t5); AIMessage (snd t5);
              HumanMessage (fst t6); AIMessage (snd t6) ]).
Proof.
  split.
  - intros turns. rewrite MemoryFacts.after_last_n. unfold last_n.
    change Memory.k with 5%nat.
    split; [rewrite length_skipn; lia|]. split; reflexivity.
  - intros. split; reflexivity.
Qed.

(* ================================================================== *)
(** ** Properties of the prompt composer *)
(* ================================================================== *)

Module SummaryFacts.
Import PyStr PyStrFacts.

Lemma split_no_sep (sep : ascii) (p : string) :
  ~ occurs sep p -> split sep p = [p].
Proof.
  induction p as [|c p IH]; intros H; [reflexivity|].
  simpl in *. destruct (Ascii.eqb c sep) eqn:E.
  - apply Ascii.eqb_eq in E. tauto.
  - rewrite IH by tauto. reflexivity.
Qed.

Lemma split_first (sep : ascii) (p rest : string) :
  ~ occurs sep p ->
  split sep (p ++ String sep rest) = p :: split sep rest.
Proof.
  induction p as [|c p IH]; intros H.
  - simpl. now rewrite Ascii.eqb_refl.
  - simpl in *. destruct (Ascii.eqb c sep) eqn:E.
    + apply Ascii.eqb_eq in E. tauto.
    + rewrite IH by tauto. reflexivity.
Qed.

(** Splitting a joined text gives the parts back, when there is at least
    one part and no part holds the separator. *)
Lemma split_join (sep : ascii) (parts : list string) :
  parts <> [] ->
  (forall p, In p parts -> ~ occurs sep p) ->
  split sep (join (String sep "") parts) = parts.
Proof.
  induction parts as [|p parts IH]; intros Hne Hno; [contradiction|].
  destruct parts as [|q parts].
  - simpl. apply split_no_sep. apply Hno. now left.
  - change (join (String sep "") (p :: q :: parts))
      with (p ++ String sep (join (String sep "") (q :: parts))).
    rewrite split_first by (apply Hno; now left).
    rewrite IH; [reflexivity | discriminate |].
    intros r Hr. apply Hno. now right.
Qed.

Lemma upper_char_newline (c : ascii) :
  upper_char c = ascii_of_nat 10 -> c = ascii_of_nat 10.
Proof.
  destruct c as [[] [] [] [] [] [] [] []]; vm_compute; intros H;
    try reflexivity; discriminate H.
Qed.

Lemma lower_char_newline (c : ascii) :
  lower_char c = ascii_of_nat 10 -> c = ascii_of_nat 10.
Proof.
  destruct c as [[] [] [] [] [] [] [] []]; vm_compute; intros H;
    try reflexivity; discriminate H.
Qed.

Lemma occurs_map (f : ascii -> ascii) (c : ascii) (s : string) :
  (forall d, f d = c -> d = c) -> occurs c (map f s) -> occurs c s.
Proof.
  intros Hf. induction s as [|d s IH]; simpl; [tauto|].
  intros [H|H]; [left; now apply Hf | right; now apply IH].
Qed.

(** The humanized name of a field has a line break only if the key has
    one. *)
Lemma humanized_newline (key : string) :
  occurs (ascii_of_nat 10) (capitalize (replace "_" " " key)) ->
  occurs (ascii_of_nat 10) key.
Proof.
  destruct key as [|c key]; simpl; [tauto|].
  intros [H|H].
  - left. apply upper_char_newline in H.
    destruct (Ascii.eqb c "_"); [discriminate H | exact H].
  - right. apply (occurs_map _ _ _ lower_char_newline) in H.
    apply (occurs_map (fun c => if Ascii.eqb c "_" then " "%char else c)).
    + intros d. destruct (Ascii.eqb d "_"); [discriminate | tauto].
    + exact H.
Qed.

Lemma summary_line_newline (kv : string * pyval) :
  ~ occurs (ascii_of_nat 10) (fst kv) ->
  ~ occurs (ascii_of_nat 10) (PyRepr.str (snd kv)) ->
  ~ occurs (ascii_of_nat 10) (summary_line kv).
Proof.
  intros Hk Hv H. unfold summary_line in H.
  apply occurs_append in H as [H|H].
  - simpl in H. intuition discriminate.
  - apply occurs_append in H as [H|H]; [now apply Hk, humanized_newline|].
    apply occurs_append in H as [H|H]; [|now apply Hv].
    simpl in H. intuition discriminate.
Qed.

(** The keys of the project details hold no line break. *)
Lemma items_keys (pd : ProjectDetails) (kv : string * pyval) :
  In kv (items pd) -> ~ occurs (ascii_of_nat 10) (fst kv).
Proof.
  unfold items. rewrite !in_app_iff.
  destruct (project_description pd), (app_type pd), (team_skills pd),
    (budget pd), (timeline pd), (scalability_needs pd);
    simpl; intros H;
    repeat (destruct H as [H|H]; try contradiction);
    subst kv; simpl; intuition discriminate.
Qed.

End SummaryFacts.

(** C8, as stated, fails: for the project details a session starts with, the
    name of the first field is rendered "Project description", not
    "Project Description"; and a description of two lines gives a summary
    with one more line than there are fields. *)
Lemma summary_as_specified_counterexample :
  ~ summary_as_specified initial_project_details
  /\ List.length (lines (context_summary (items two_line_project)))
     <> List.length (items two_line_project)
  /\ lines (context_summary (items initial_project_details)) =
     [ "- Project description: ";
       "- App type: Web Application";
       "- Team skills: []";
       "- Budget: Medium";
       "- Timeline: Medium (3-6 months)";
       "- Scalability needs: Medium" ].
Proof.
  split; [|split; [vm_compute; discriminate | reflexivity]].
  intros H. unfold summary_as_specified in H.
  inversion H as [|line kv ls kvs Hfirst _ Hl Hk].
  assert (line = "- Project description: ") as -> by (vm_compute in Hl; congruence).
  assert (kv = ("project_description", PyStr "")) as ->
      by (vm_compute in Hk; congruence).
  apply PyStrFacts.contains_iff in Hfirst. vm_compute in Hfirst.
  discriminate.
Qed.

(** C8, amended: when no value holds a line break, the context summary of
    project details with at least one field has exactly one line per field,
    in the order of the fields; the line of a field is "- ", the key with
    its underscores replaced by blanks and capitalized (first character in
    upper case, all others in lower case, as in "App type"), ": " and the
    value. *)
Theorem context_summary_lines (pd : ProjectDetails) :
  items pd <> [] ->
  (forall key value, In (key, value) (items pd) ->
                     ~ PyStr.occurs (ascii_of_nat 10) (PyRepr.str value)) ->
  lines (context_summary (items pd)) =
  List.map (fun kv => "- " ++ PyStr.capitalize (PyStr.replace "_" " " (fst kv))
                      ++ ": " ++ PyRepr.str (snd kv))
           (items pd).
Proof.
  intros Hne Hval. unfold lines, context_summary.
  change nl with (String (ascii_of_nat 10) "").
  rewrite SummaryFacts.split_join.
  - reflexivity.
  - destruct (items pd); [contradiction | discriminate].
  - intros p Hp. apply in_map_iff in Hp as ([key value] & <- & Hin).
    apply SummaryFacts.summary_line_newline.
    + now apply (SummaryFacts.items_keys pd).
    + now apply (Hval key).
Qed.

Lemma context_summary_lines_witness :
  items initial_project_details <> []
  /\ (forall key value,
         In (key, value) (items initial_project_details) ->
         ~ PyStr.occurs (ascii_of_nat 10) (PyRepr.str value))
  /\ lines (context_summary (items initial_project_details)) =
     [ "- Project description: ";
       "- App type: Web Application";
       "- Team skills: []";
       "- Budget: Medium";
       "- Timeline: Medium (3-6 months)";
       "- Scalability needs: Medium" ].
Proof.
  assert (items initial_project_details <> []) as H1 by discriminate.
  assert (forall key value,
             In (key, value) (items initial_project_details) ->
             ~ PyStr.occurs (ascii_of_nat 10) (PyRepr.str value)) as H2.
  { intros key value H.
    repeat (destruct H as [H|H];
            [injection H as _ <-; vm_compute; intuition discriminate|]).
    destruct H. }
  split; [exact H1|]. split; [exact H2|].
  exact (context_summary_lines initial_project_details H1 H2).
Defined.

(* ================================================================== *)
(** ** Properties of the chat turn *)
(* ================================================================== *)

Section TurnClaims.

Variable json_loads : string -> exn + pyval.

Lemma model_calls_app (t1 t2 : list event) :
  model_calls (t1 ++ t2) = (model_calls t1 + model_calls t2)%nat.
Proof. unfold model_calls. now rewrite filter_app, length_app. Qed.

(** A verdict of [apply_pre_checks] is one of its three dict literals. *)
Lemma apply_pre_checks_verdicts (pd : ProjectDetails) (verdict : dict) :
  apply_pre_checks pd = Some verdict ->
  verdict = static_site_verdict
  \/ verdict = contradictory_input_verdict
  \/ verdict = unrealistic_scope_verdict.
Proof.
  rewrite RuleFacts.apply_pre_checks_chain.
  destruct (static_site_test pd); [intros [= <-]; tauto|].
  destruct (contradiction_test pd); [intros [= <-]; tauto|].
  destruct (scope_test pd); [intros [= <-]; tauto | discriminate].
Qed.

(** When the model answers, [get_llm_chain_response] returns what the
    normalizer makes of the answer. *)
Lemma get_llm_chain_response_normalizes
      (client : llm_client) (pd : ProjectDetails) (user_query text : string)
      (w : Script.world) :
  generate client
           match SessionState.memory (Script.state w) with
           | Some window => Memory.chat_history_buffer window
           | None => []
           end
           (format_user_input_with_context pd user_query)
  = inr (Some text) ->
  fst (get_llm_chain_response json_loads (Some client) pd user_query w)
  = inr (normalize json_loads text).
Proof.
  destruct w as [s tr]. cbn [Script.state]. intros H.
  unfold get_llm_chain_response, invoke_chain.
  cbv [Script.bind Script.emit Script.gets Script.modify Script.ret
       Script.state Script.trace].
  rewrite H. reflexivity.
Qed.

(** The turn of an error verdict. *)
Lemma chat_turn_rule_error
      (user_query error details : string) (source : pyval) (w : Script.world) :
  user_query <> "" ->
  apply_pre_checks (SessionState.project_details (Script.state w))
  = Some [("error", PyStr error); ("details", PyStr details);
          ("source", source)] ->
  chat_turn json_loads user_query w =
  (inr tt,
   {| Script.state :=
        SessionState.append_message
          (assistant (PyStr ("**Rule-Based Check Failed:** " ++ error
                             ++ " - " ++ details)))
          (SessionState.append_message (user_message user_query)
                                       (Script.state w));
      Script.trace :=
        Script.trace w ++ turn_prelude user_query
        ++ [st_error ("**Rule-Based Check Failed:** " ++ error
                      ++ " - " ++ details)] |}).
Proof.
  intros Hq Hrule. apply String.eqb_neq in Hq.
  destruct w as [s tr]. unfold chat_turn. rewrite Hq.
  cbv [Script.bind Script.modify Script.emit Script.gets Script.state
       Script.trace].
  cbn [SessionState.project_details SessionState.append_message].
  cbn [Script.state] in Hrule. rewrite Hrule.
  cbv [rule_path dict_has existsb fst Script.bind Script.getitem dict_get
       Script.ret Script.emit Script.modify Script.state Script.trace].
  replace (String.eqb "error" "error") with true by reflexivity.
  cbn [orb]. cbv iota beta.
  replace (String.eqb "details" "details") with true by reflexivity.
  replace (String.eqb "error" "details") with false by reflexivity.
  cbv iota beta. cbn [PyRepr.str is_nonempty_list].
  unfold turn_prelude. rewrite <- !app_assoc. reflexivity.
Qed.

(** The turn of the direct recommendation. *)
Lemma chat_turn_rule_direct (user_query : string) (w : Script.world) :
  user_query <> "" ->
  apply_pre_checks (SessionState.project_details (Script.state w))
  = Some static_site_verdict ->
  chat_turn json_loads user_query w =
  (inr tt,
   {| Script.state :=
        SessionState.append_message
          (assistant
             (PyList [PyDict (jamstack_recommendation
                              ++ [("source", PyStr "Rule-Based Pre-check")])]))
          (SessionState.append_message (user_message user_query)
                                       (Script.state w));
      Script.trace :=
        Script.trace w ++ turn_prelude user_query
        ++ [st_success "💡 Recommendation from Rule-Based Pre-check:";
            st_rerun] |}).
Proof.
  intros Hq Hrule. apply String.eqb_neq in Hq.
  destruct w as [s tr]. unfold chat_turn. rewrite Hq.
  cbv [Script.bind Script.modify Script.emit Script.gets Script.state
       Script.trace].
  cbn [SessionState.project_details SessionState.append_message].
  cbn [Script.state] in Hrule. rewrite Hrule.
  cbv [static_site_verdict rule_path dict_has existsb fst Script.bind
       Script.getitem dict_get Script.ret Script.emit Script.modify
       Script.state Script.trace set_source Script.mapM dict_get_default].
  replace (String.eqb "recommendations" "error") with false by reflexivity.
  replace (String.eqb "source" "error") with false by reflexivity.
  replace (String.eqb "recommendations" "recommendations") with true
    by reflexivity.
  replace (String.eqb "recommendations" "source") with false by reflexivity.
  replace (String.eqb "source" "source") with true by reflexivity.
  cbn [orb]. cbv iota beta. cbn [is_nonempty_list].
  unfold turn_prelude. rewrite <- !app_assoc. reflexivity.
Qed.

(** C3: in a turn for which [apply_pre_checks] returns a verdict, the
    model path does not run: the turn adds no call of
    [get_llm_chain_response] and no call of the model to the trace, leaves
    the memory as it was, and what it adds to the chat log is the verdict
    of the rule, the recommendation with its source or the error with its
    details. *)
Theorem rule_verdict_skips_model
        (user_query : string) (w : Script.world) (verdict : dict) :
  user_query <> "" ->
  apply_pre_checks (SessionState.project_details (Script.state w))
  = Some verdict ->
  let w' := snd (chat_turn json_loads user_query w) in
  fst (chat_turn json_loads user_query w) = inr tt
  /\ model_calls (Script.trace w') = model_calls (Script.trace w)
  /\ (forall ev, In ev (Script.trace w') -> is_model_event ev = true ->
                 In ev (Script.trace w))
  /\ SessionState.memory (Script.state w')
     = SessionState.memory (Script.state w)
  /\ exists shown,
      SessionState.messages (Script.state w') =
      (SessionState.messages (Script.state w)
       ++ [user_message user_query; assistant shown])%list
      /\ (verdict = static_site_verdict ->
          shown = PyList [PyDict (jamstack_recommendation
                                  ++ [("source", PyStr "Rule-Based Pre-check")])])
      /\ (forall error details,
             dict_get verdict "error" = Some (PyStr error) ->
             dict_get verdict "details" = Some (PyStr details) ->
             shown = PyStr ("**Rule-Based Check Failed:** " ++ error
                            ++ " - " ++ details)).
Proof.
  intros Hq Hrule.
  assert (forall display,
             (forall ev, In ev display -> is_model_event ev = false) ->
             model_calls (Script.trace w ++ turn_prelude user_query ++ display)
             = model_calls (Script.trace w)
             /\ (forall ev,
                    In ev (Script.trace w ++ turn_prelude user_query ++ display) ->
                    is_model_event ev = true -> In ev (Script.trace w)))
    as Htrace.
  { intros display Hd. split.
    - rewrite !model_calls_app.
      assert (model_calls display = 0%nat) as ->.
      { unfold model_calls. induction display as [|ev d IH]; [reflexivity|].
        simpl. rewrite (Hd ev) by now left.
        apply IH. intros ev' H. apply Hd. now right. }
      unfold model_calls. simpl. lia.
    - intros ev Hin Hev. apply in_app_or in Hin as [Hin|Hin]; [exact Hin|].
      apply in_app_or in Hin as [Hin|Hin].
      + simpl in Hin.
        repeat (destruct Hin as [<-|Hin]; [discriminate Hev|]). destruct Hin.
      + rewrite (Hd ev Hin) in Hev. discriminate. }
  destruct (apply_pre_checks_verdicts _ _ Hrule) as [ -> | [ -> | -> ] ].
  - rewrite (chat_turn_rule_direct user_query w Hq Hrule). cbn [fst snd].
    cbn [Script.trace Script.state].
    destruct (Htrace [st_success "💡 Recommendation from Rule-Based Pre-check:";
                      st_rerun]) as [H1 H2].
    { intros ev [ <- | [ <- | [] ] ]; reflexivity. }
    split; [reflexivity|]. split; [exact H1|]. split; [exact H2|].
    split; [reflexivity|].
    eexists. split; [|split].
    + cbn [SessionState.messages SessionState.append_message].
      rewrite <- app_assoc. reflexivity.
    + reflexivity.
    + intros error details He. discriminate He.
  - rewrite (chat_turn_rule_error user_query _ _ _ w Hq Hrule).
    cbn [fst snd]. cbn [Script.trace Script.state].
    match goal with
    | |- context [st_error ?m] => destruct (Htrace [st_error m]) as [H1 H2]
    end.
    { intros ev [ <- | [] ]; reflexivity. }
    split; [reflexivity|]. split; [exact H1|]. split; [exact H2|].
    split; [reflexivity|].
    eexists. split; [|split].
    + cbn [SessionState.messages SessionState.append_message].
      rewrite <- app_assoc. reflexivity.
    + discriminate.
    + intros error details [= <-] [= <-]. reflexivity.
  - rewrite (chat_turn_rule_error user_query _ _ _ w Hq Hrule).
    cbn [fst snd]. cbn [Script.trace Script.state].
    match goal with
    | |- context [st_error ?m] => destruct (Htrace [st_error m]) as [H1 H2]
    end.
    { intros ev [ <- | [] ]; reflexivity. }
    split; [reflexivity|]. split; [exact H1|]. split; [exact H2|].
    split; [reflexivity|].
    eexists. split; [|split].
    + cbn [SessionState.messages SessionState.append_message].
      rewrite <- app_assoc. reflexivity.
    + discriminate.
    + intros error details [= <-] [= <-]. reflexivity.
Qed.

End TurnClaims.

Lemma rule_verdict_skips_model_witness :
  "recommend" <> ""
  /\ apply_pre_checks
       (SessionState.project_details
          (Script.state (new_session python_and_none_project)))
     = Some contradictory_input_verdict
  /\ model_calls
       (Script.trace
          (snd (chat_turn sample_json_loads "recommend"
                          (new_session python_and_none_project))))
     = model_calls (Script.trace (new_session python_and_none_project)).
Proof.
  assert ("recommend" <> "") as H1 by discriminate.
  assert (apply_pre_checks
            (SessionState.project_details
               (Script.state (new_session python_and_none_project)))
          = Some contradictory_input_verdict) as H2 by reflexivity.
  split; [exact H1|]. split; [exact H2|].
  exact (proj1 (proj2 (rule_verdict_skips_model sample_json_loads "recommend"
                         (new_session python_and_none_project) _ H1 H2))).
Defined.

(** Without a verdict the turn does reach the model: the sample session
    with the initial project details calls [get_llm_chain_response] and the
    model once each, and shows the parse error of the answer. *)
Example no_rule_calls_model :
  apply_pre_checks initial_project_details = None
  /\ model_calls
       (Script.trace
          (snd (chat_turn sample_json_loads "recommend"
                          (new_session initial_project_details)))) = 2%nat
  /\ SessionState.memory
       (Script.state
          (snd (chat_turn sample_json_loads "recommend"
                          (new_session initial_project_details))))
     = Some [ (format_user_input_with_context initial_project_details
                                              "recommend",
               "[{bad json}]") ].
Proof. repeat split; vm_compute; reflexivity. Qed.

(* ================================================================== *)
(** ** Further properties of the rule pre-checks *)
(* ================================================================== *)

(** [apply_pre_checks] returns [None], and so defers to the model, exactly
    when none of the three rules matches. *)
Theorem no_rule_iff_none (pd : ProjectDetails) :
  apply_pre_checks pd = None
  <-> ~ static_site_rule pd /\ ~ contradiction_rule pd /\ ~ scope_rule pd.
Proof.
  rewrite <- RuleFacts.static_site_test_iff, <- RuleFacts.contradiction_test_iff,
    <- RuleFacts.scope_test_iff, RuleFacts.apply_pre_checks_chain.
  destruct (static_site_test pd), (contradiction_test pd), (scope_test pd);
    intuition congruence.
Qed.

(** When neither rule 1 nor rule 2 matches, the "Potentially Unrealistic
    Scope" error is returned exactly when the description holds a keyword of
    a complex project, the timeline starts with "very short" or "short", and
    the budget is low or the team lists "none" or no skill at all. *)
Theorem unrealistic_scope_iff (pd : ProjectDetails) :
  ~ static_site_rule pd -> ~ contradiction_rule pd ->
  (apply_pre_checks pd =
   Some [ ("error", PyStr "Potentially Unrealistic Scope");
         ("details", PyStr "A complex project with a very short timeline and limited budget/expertise is challenging. Consider adjusting scope, timeline, or budget.");
         ("source", PyStr "Rule-Based Pre-check") ]
   <-> scope_rule pd).
Proof.
  rewrite <- RuleFacts.static_site_test_iff, <- RuleFacts.contradiction_test_iff,
    <- RuleFacts.scope_test_iff, RuleFacts.apply_pre_checks_chain.
  intros H1 H2.
  destruct (static_site_test pd); [tauto|].
  destruct (contradiction_test pd); [tauto|].
  destruct (scope_test pd); split; intros H; try reflexivity; discriminate.
Qed.

Lemma unrealistic_scope_iff_witness :
  ~ static_site_rule enterprise_project
  /\ ~ contradiction_rule enterprise_project
  /\ scope_rule enterprise_project
  /\ (apply_pre_checks enterprise_project =
      Some [ ("error", PyStr "Potentially Unrealistic Scope");
         ("details", PyStr "A complex project with a very short timeline and limited budget/expertise is challenging. Consider adjusting scope, timeline, or budget.");
         ("source", PyStr "Rule-Based Pre-check") ]
      <-> scope_rule enterprise_project).
Proof.
  assert (~ static_site_rule enterprise_project) as H1.
  { intros H. apply RuleFacts.static_site_test_iff in H. vm_compute in H.
    discriminate H. }
  assert (~ contradiction_rule enterprise_project) as H2.
  { intros H. apply RuleFacts.contradiction_test_iff in H. vm_compute in H.
    discriminate H. }
  split; [exact H1|]. split; [exact H2|].
  split; [apply RuleFacts.scope_test_iff; vm_compute; reflexivity|].
  exact (unrealistic_scope_iff enterprise_project H1 H2).
Defined.

(** The verdict does not depend on the case of the letters of any field. *)
Theorem apply_pre_checks_ignores_case (pd pd' : ProjectDetails) :
  same_up_to_case pd pd' -> apply_pre_checks pd = apply_pre_checks pd'.
Proof.
  unfold same_up_to_case, same_text_ci.
  intros (H1 & H2 & H3 & H4 & H5 & H6).
  unfold apply_pre_checks. rewrite H1, H2, H3, H4, H5, H6. reflexivity.
Qed.

Lemma apply_pre_checks_ignores_case_witness :
  same_up_to_case portfolio_project portfolio_project_upper
  /\ apply_pre_checks portfolio_project
     = apply_pre_checks portfolio_project_upper.
Proof.
  assert (same_up_to_case portfolio_project portfolio_project_upper) as H
      by (repeat split; reflexivity).
  split; [exact H | exact (apply_pre_checks_ignores_case _ _ H)].
Defined.

(** Every verdict is a non-empty dict with the source "Rule-Based
    Pre-check"; it holds either an error with its details and no
    recommendations, or no error and the list of the one JAMstack
    recommendation. *)
Theorem verdict_shape (pd : ProjectDetails) (verdict : dict) :
  apply_pre_checks pd = Some verdict ->
  verdict <> []
  /\ dict_get verdict "source" = Some (PyStr "Rule-Based Pre-check")
  /\ ((dict_has verdict "recommendations" = false
       /\ exists error details,
           dict_get verdict "error" = Some (PyStr error)
           /\ dict_get verdict "details" = Some (PyStr details))
      \/ (dict_has verdict "error" = false
          /\ dict_get verdict "recommendations" =
             Some (PyList
                     [ PyDict
                         [ ("stack_name",
                            PyStr "JAMstack (e.g., Astro / Eleventy / Hugo / Next.js static export)");
                           ("core_components",
                            PyList [ PyStr "Static Site Generator";
                                     PyStr "CDN (Netlify, Vercel, GitHub Pages)" ]);
                           ("justification",
                            PyStr "For simple, static content with low budget and fast timeline, JAMstack offers optimal performance, security, and low cost.");
                           ("pros",
                            PyList [ PyStr "Excellent performance"; PyStr "High security";
                                     PyStr "Low hosting costs";
                                     PyStr "Good developer experience" ]);
                           ("cons",
                            PyList [ PyStr "Not suitable for dynamic server-side logic without workarounds (serverless functions)";
                                     PyStr "Build times can increase for very large sites" ]) ] ]))).
Proof.
  rewrite RuleFacts.apply_pre_checks_chain.
  destruct (static_site_test pd); [intros [= <-]|].
  { split; [discriminate|]. split; [reflexivity|]. right. split; reflexivity. }
  destruct (contradiction_test pd); [intros [= <-]|].
  { split; [discriminate|]. split; [reflexivity|]. left.
    split; [reflexivity|]. eexists. eexists. split; reflexivity. }
  destruct (scope_test pd); [intros [= <-] | discriminate].
  split; [discriminate|]. split; [reflexivity|]. left.
  split; [reflexivity|]. eexists. eexists. split; reflexivity.
Qed.

Lemma verdict_shape_witness :
  apply_pre_checks portfolio_project = Some static_site_verdict
  /\ dict_get static_site_verdict "source" = Some (PyStr "Rule-Based Pre-check").
Proof.
  assert (apply_pre_checks portfolio_project = Some static_site_verdict) as H
      by reflexivity.
  split; [exact H|].
  exact (proj1 (proj2 (verdict_shape portfolio_project _ H))).
Defined.

(** With scalability needs High or Very High, a team without any of the
    backend skills, in particular a team with no skill ticked at all, gets
    the "Contradictory Input" error. *)
Theorem no_backend_skill_gives_contradiction (pd : ProjectDetails) :
  high_scalability pd -> ~ has_backend_skill pd ->
  apply_pre_checks pd =
  Some [ ("error", PyStr "Contradictory Input");
         ("details", PyStr "High scalability typically requires a robust backend. Please clarify if a backend is needed or adjust scalability expectations.");
         ("source", PyStr "Rule-Based Pre-check") ].
Proof.
  intros Hh Hn.
  assert (contradiction_rule pd) as Hc by (split; [exact Hh | tauto]).
  apply (RuleFacts.first_match pd ScalabilityBackend); [exact Hc|].
  intros r' Hlt Hm. destruct r'; simpl in Hlt; try lia.
  exact (RuleFacts.static_site_excludes_contradiction pd Hm Hc).
Qed.

Lemma no_backend_skill_gives_contradiction_witness :
  high_scalability high_scalability_no_skills
  /\ skills high_scalability_no_skills = []
  /\ ~ has_backend_skill high_scalability_no_skills
  /\ apply_pre_checks high_scalability_no_skills =
     Some [ ("error", PyStr "Contradictory Input");
         ("details", PyStr "High scalability typically requires a robust backend. Please clarify if a backend is needed or adjust scalability expectations.");
         ("source", PyStr "Rule-Based Pre-check") ].
Proof.
  assert (high_scalability high_scalability_no_skills) as H1
      by (left; reflexivity).
  assert (~ has_backend_skill high_scalability_no_skills) as H2
      by (intros (skill & H & _); simpl in H; exact H).
  split; [exact H1|]. split; [reflexivity|]. split; [exact H2|].
  exact (no_backend_skill_gives_contradiction _ H1 H2).
Defined.

(* ================================================================== *)
(** ** Further properties of the Response Normalizer *)
(* ================================================================== *)

Module NormalizerFacts.
Import PyStr PyStrFacts.

Lemma rfind_append_absent (c : ascii) (a r : string) :
  ~ occurs c r -> rfind (a ++ r) (String c "") = rfind a (String c "").
Proof.
  intros H. induction a as [|d a IH].
  - simpl append. now rewrite rfind_char_absent.
  - simpl append. rewrite !rfind_cons, IH, !startswith_char. reflexivity.
Qed.

Lemma rfind_char_bound (c : ascii) (s : string) :
  rfind s (String c "") < len s.
Proof.
  induction s as [|d s IH]; [reflexivity|].
  rewrite rfind_cons, len_cons, startswith_char.
  pose proof (len_nonneg s).
  destruct (0 <=? rfind s (String c "")); [lia|].
  destruct (Ascii.eqb c d); lia.
Qed.

Lemma blank_lstrip (s : string) : blank s -> lstrip s = "".
Proof.
  induction s as [|c s IH]; intros H; [reflexivity|].
  simpl. rewrite (H c) by (simpl; tauto).
  apply IH. intros d Hd. apply H. simpl. tauto.
Qed.

Lemma blank_strip (s : string) : blank s -> strip s = "".
Proof. intros H. unfold strip. now rewrite blank_lstrip. Qed.

End NormalizerFacts.

Section NormalizerExtras.
Import PyStr PyStrFacts.

Variable json_loads : string -> exn + pyval.

(** The two shapes of a result of the normalizer. *)
Lemma normalize_shape (raw : string) :
  (exists recs,
      normalize json_loads raw =
      [ ("recommendations", PyList recs);
        ("source", PyStr "LLM via LangChain") ])
  \/ (exists code details raw_text,
         is_error_package (normalize json_loads raw) code details raw_text
         /\ (raw_text = raw \/ raw_text = strip raw)).
Proof.
  unfold normalize, parse_llm_output.
  destruct (negb (find (strip raw) "[" =? -1)
            && negb (rfind (strip raw) "]" + 1 =? 0)
            && (rfind (strip raw) "]" + 1 >? find (strip raw) "[")).
  - destruct (json_loads _) as [e|parsed].
    + right. destruct e; do 3 eexists;
        (split; [repeat split; reflexivity | left; reflexivity]).
    + destruct parsed; cbn [is_list negb];
        try (right; do 3 eexists;
             split; [repeat split; reflexivity | left; reflexivity]).
      left. eexists. reflexivity.
  - right. do 3 eexists.
    split; [repeat split; reflexivity | right; reflexivity].
Qed.

(** Whatever the raw text and the decoder, the result is a package that
    [src/App.py] can read: the recommendations, a list, with their source;
    or an error code with text details and a raw text, which is the raw text
    as given or trimmed. *)
Theorem normalize_package_shape (raw : string) :
  (exists recs,
      normalize json_loads raw =
      [ ("recommendations", PyList recs);
        ("source", PyStr "LLM via LangChain") ])
  \/ (exists code details raw_text,
         is_error_package (normalize json_loads raw) code details raw_text
         /\ (raw_text = raw \/ raw_text = strip raw)).
Proof. exact (normalize_shape raw). Qed.

(** A raw text of white space only, the empty text included, gives the
    fallback package with an empty raw text. *)
Theorem blank_text_gives_empty_fallback (raw : string) :
  blank raw ->
  normalize json_loads raw =
  [ ("error", PyStr "LLM_RESPONSE_NOT_JSON_ARRAY");
    ("details", PyStr "LLM did not return a parseable JSON array. Displaying raw text.");
    ("raw_text_fallback", PyStr "");
    ("source", PyStr "LLM via LangChain") ].
Proof.
  intros H. unfold normalize, parse_llm_output.
  rewrite (NormalizerFacts.blank_strip raw H). reflexivity.
Qed.

(** When no closing bracket follows the first opening bracket, also when
    closing brackets stand before it, the decoder is not asked: the result
    is the fallback package with the trimmed text. *)
Theorem closing_before_opening_gives_fallback (raw before rest : string) :
  raw = before ++ "[" ++ rest ->
  ~ occurs "[" before ->
  ~ occurs "]" rest ->
  normalize json_loads raw =
  [ ("error", PyStr "LLM_RESPONSE_NOT_JSON_ARRAY");
    ("details", PyStr "LLM did not return a parseable JSON array. Displaying raw text.");
    ("raw_text_fallback", PyStr (strip raw));
    ("source", PyStr "LLM via LangChain") ].
Proof.
  intros -> Hb Hr. unfold normalize, parse_llm_output.
  assert (strip (before ++ "[" ++ rest)
          = lstrip before ++ String "[" (rstrip rest)) as Hclean.
  { unfold strip. simpl append.
    rewrite lstrip_keeps by reflexivity. now rewrite rstrip_keeps. }
  rewrite Hclean.
  set (A := lstrip before). set (R := rstrip rest).
  assert (~ occurs "[" A) as HA by (intros H; now apply occurs_lstrip in H).
  assert (~ occurs "]" (String "[" R)) as HR.
  { simpl. intros [H|H]; [discriminate H|]. now apply occurs_rstrip in H. }
  rewrite find_char_first by exact HA.
  rewrite NormalizerFacts.rfind_append_absent by exact HR.
  pose proof (NormalizerFacts.rfind_char_bound "]" A) as Hbound.
  assert ((rfind A "]" + 1 >? len A) = false) as ->.
  { destruct (rfind A "]" + 1 >? len A) eqn:E; [|reflexivity].
    apply Z.gtb_lt in E. lia. }
  rewrite !andb_false_r. reflexivity.
Qed.

(** An exception of the decoder other than [JSONDecodeError] is caught by
    the general handler: the result is the "LLM_CHAIN_ERROR" package with
    the name and the text of the exception and the untrimmed raw text. *)
Theorem decoder_failure_gives_chain_error
        (raw before body after : string) (e : exn) :
  bracket_span raw before body after ->
  json_loads ("[" ++ body ++ "]") = inl e ->
  (forall msg, e <> JSONDecodeError msg) ->
  normalize json_loads raw =
  [ ("error", PyStr "LLM_CHAIN_ERROR");
    ("details", PyStr ("An unexpected error occurred: " ++ exn_type_name e
                       ++ " - " ++ exn_str e));
    ("raw_text_fallback", PyStr raw) ].
Proof.
  intros Hspan Hdec He. unfold normalize.
  rewrite (parse_llm_output_span json_loads _ _ _ _ Hspan), Hdec.
  destruct e; try reflexivity. now elim (He msg).
Qed.

(** For a decoder that reads a text in brackets as an array, as [json.loads]
    does, the branch for a value that is not a list is never taken: with a
    bracket span, a decoded value is a list and is passed through. *)
Lemma bracket_span_decodes_to_list
      (raw before body after : string) (parsed : pyval) :
  decodes_arrays json_loads ->
  bracket_span raw before body after ->
  json_loads ("[" ++ body ++ "]") = inr parsed ->
  is_list parsed = true
  /\ normalize json_loads raw =
     [ ("recommendations", parsed); ("source", PyStr "LLM via LangChain") ].
Proof.
  intros Hdec Hspan Hval.
  assert (is_list parsed = true) as Hlist
      by (apply (Hdec ("[" ++ body ++ "]"));
          [apply startswith_append | exact Hval]).
  split; [exact Hlist|]. unfold normalize.
  rewrite (parse_llm_output_span json_loads _ _ _ _ Hspan), Hval, Hlist.
  reflexivity.
Qed.

End NormalizerExtras.

Lemma sample_json_loads_decodes_arrays : decodes_arrays sample_json_loads.
Proof.
  intros text value _. unfold sample_json_loads.
  destruct (String.eqb text "[{bad json}]"); [discriminate|].
  destruct (String.eqb text _); [|discriminate].
  intros [= <-]. reflexivity.
Qed.

Lemma blank_text_gives_empty_fallback_witness :
  blank ("  " ++ nl)
  /\ normalize sample_json_loads ("  " ++ nl) =
     [ ("error", PyStr "LLM_RESPONSE_NOT_JSON_ARRAY");
       ("details", PyStr "LLM did not return a parseable JSON array. Displaying raw text.");
       ("raw_text_fallback", PyStr "");
       ("source", PyStr "LLM via LangChain") ].
Proof.
  assert (blank ("  " ++ nl)) as H.
  { intros c Hc. simpl in Hc.
    repeat (destruct Hc as [<-|Hc]; [reflexivity|]). destruct Hc. }
  split; [exact H | exact (blank_text_gives_empty_fallback sample_json_loads _ H)].
Defined.

Lemma closing_before_opening_gives_fallback_witness :
  "see ] and then [ this" = "see ] and then " ++ "[" ++ " this"
  /\ ~ PyStr.occurs "[" "see ] and then "
  /\ ~ PyStr.occurs "]" " this"
  /\ normalize sample_json_loads "see ] and then [ this" =
     [ ("error", PyStr "LLM_RESPONSE_NOT_JSON_ARRAY");
       ("details", PyStr "LLM did not return a parseable JSON array. Displaying raw text.");
       ("raw_text_fallback", PyStr "see ] and then [ this");
       ("source", PyStr "LLM via LangChain") ].
Proof.
  assert ("see ] and then [ this" = "see ] and then " ++ "[" ++ " this") as H0
      by reflexivity.
  assert (~ PyStr.occurs "[" "see ] and then ") as H1.
  { simpl. intros H. repeat (destruct H as [H|H]; [discriminate H|]). exact H. }
  assert (~ PyStr.occurs "]" " this") as H2.
  { simpl. intros H. repeat (destruct H as [H|H]; [discriminate H|]). exact H. }
  split; [exact H0|]. split; [exact H1|]. split; [exact H2|].
  exact (closing_before_opening_gives_fallback sample_json_loads _ _ _ H0 H1 H2).
Defined.

Lemma decoder_failure_gives_chain_error_witness :
  bracket_span "[[[[1]]]]" "" "[[[1]]]" ""
  /\ normalize
       (decoder_raising
          (OtherException "RecursionError"
                          "maximum recursion depth exceeded"))
       "[[[[1]]]]" =
     [ ("error", PyStr "LLM_CHAIN_ERROR");
       ("details", PyStr "An unexpected error occurred: RecursionError - maximum recursion depth exceeded");
       ("raw_text_fallback", PyStr "[[[[1]]]]") ].
Proof.
  assert (bracket_span "[[[[1]]]]" "" "[[[1]]]" "") as H
      by (apply (bracket_span_intro "" "[[[1]]]" ""); reflexivity).
  split; [exact H|].
  refine (decoder_failure_gives_chain_error
            (decoder_raising
               (OtherException "RecursionError"
                               "maximum recursion depth exceeded"))
            _ _ _ _ _ H eq_refl _).
  intros msg. discriminate.
Defined.

Lemma list_gives_recommendations_witness :
  bracket_span ("Sure: [1, 2] ok") "Sure: " "1, 2" " ok"
  /\ decoder_answering (PyList [PyInt 1; PyInt 2]) "[1, 2]"
     = inr (PyList [PyInt 1; PyInt 2])
  /\ normalize (decoder_answering (PyList [PyInt 1; PyInt 2]))
               "Sure: [1, 2] ok" =
     [ ("recommendations", PyList [PyInt 1; PyInt 2]);
       ("source", PyStr "LLM via LangChain") ].
Proof.
  assert (bracket_span ("Sure: [1, 2] ok") "Sure: " "1, 2" " ok") as H
      by (apply (bracket_span_intro "Sure: " "1, 2" " ok"); reflexivity).
  split; [exact H|]. split; [reflexivity|].
  exact (list_gives_recommendations
           (decoder_answering (PyList [PyInt 1; PyInt 2])) _ _ _ _ _ H eq_refl).
Defined.

(* ================================================================== *)
(** ** Further properties of [get_llm_chain_response] and of the turn *)
(* ================================================================== *)

Module TurnFacts.

Lemma dict_get_has (d : dict) (key : string) (v : pyval) :
  dict_get d key = Some v -> dict_has d key = true.
Proof.
  induction d as [|[k w] d IH]; simpl; [discriminate|].
  destruct (String.eqb k key); [reflexivity | exact IH].
Qed.

Lemma dict_get_set_same (d : dict) (key : string) (v : pyval) :
  dict_get (dict_set d key v) key = Some v.
Proof.
  induction d as [|[k w] d IH]; simpl.
  - now rewrite String.eqb_refl.
  - destruct (String.eqb k key) eqn:E; simpl; rewrite E; [reflexivity | exact IH].
Qed.

Lemma dict_get_set_other (d : dict) (key key' : string) (v : pyval) :
  key' <> key -> dict_get (dict_set d key v) key' = dict_get d key'.
Proof.
  intros Hne. induction d as [|[k w] d IH]; simpl.
  - apply String.eqb_neq in Hne. rewrite String.eqb_sym in Hne.
    now rewrite Hne.
  - destruct (String.eqb k key) eqn:E; simpl.
    + apply String.eqb_eq in E. subst k.
      apply String.eqb_neq in Hne. rewrite String.eqb_sym in Hne.
      now rewrite Hne.
    + now rewrite IH.
Qed.

Lemma as_dicts_map (dicts : list dict) :
  as_dicts (List.map PyDict dicts) = Some dicts.
Proof.
  induction dicts as [|d ds IH]; [reflexivity|]. simpl. now rewrite IH.
Qed.

Lemma as_dicts_some (values : list pyval) (dicts : list dict) :
  as_dicts values = Some dicts -> values = List.map PyDict dicts.
Proof.
  revert dicts. induction values as [|v vs IH]; intros dicts H.
  - injection H as <-. reflexivity.
  - destruct v; try discriminate H. simpl in H.
    destruct (as_dicts vs) as [ds|]; [|discriminate H].
    injection H as <-. simpl. now rewrite (IH ds eq_refl).
Qed.

Lemma as_dicts_none (values : list pyval) :
  as_dicts values = None <->
  exists item, In item values /\ forall d, item <> PyDict d.
Proof.
  induction values as [|v vs IH]; simpl.
  - split; [discriminate | intros (item & [] & _)].
  - destruct v;
      try (split; [intros _; eexists; split; [left; reflexivity | discriminate]
                  | reflexivity]).
    destruct (as_dicts vs) as [ds|]; simpl.
    + split; [discriminate|]. intros (item & [<-|Hin] & Hd).
      * now elim (Hd entries).
      * assert (@None (list dict) = None) as H by reflexivity.
        destruct IH as [_ IH]. discriminate IH. now exists item.
    + split; [|reflexivity]. intros _. destruct IH as [IH _].
      destruct (IH eq_refl) as (item & Hin & Hd). exists item. tauto.
Qed.

(** The loop that attaches the source: it stops at the first item that is
    not a dict, and changes nothing in the session. *)
Lemma set_source_run (recs : list pyval) (source : pyval) (w : Script.world) :
  set_source (PyList recs) source w =
  match as_dicts recs with
  | Some dicts =>
      (inr (PyList (List.map (fun d => PyDict (dict_set d "source" source))
                             dicts)), w)
  | None => (inl (TypeError "object does not support item assignment"), w)
  end.
Proof.
  unfold set_source.
  assert (forall l,
             Script.mapM
               (fun rec_item =>
                  match rec_item with
                  | PyDict d => Script.ret (PyDict (dict_set d "source" source))
                  | _ => Script.raise
                           (TypeError "object does not support item assignment")
                  end) l w =
             match as_dicts l with
             | Some dicts =>
                 (inr (List.map (fun d => PyDict (dict_set d "source" source))
                                dicts), w)
             | None =>
                 (inl (TypeError "object does not support item assignment"), w)
             end) as H.
  { induction l as [|v l IH]; [reflexivity|].
    cbn [Script.mapM as_dicts]. unfold Script.bind at 1.
    destruct v; try reflexivity.
    unfold Script.ret at 1. cbv iota beta. unfold Script.bind at 1.
    rewrite IH. destruct (as_dicts l); reflexivity. }
  unfold Script.bind. rewrite H. destruct (as_dicts recs); reflexivity.
Qed.

End TurnFacts.

Section TurnExtras.
Import TurnFacts.

Variable json_loads : string -> exn + pyval.

(** What [get_llm_chain_response] does with a model client. *)
Lemma get_llm_chain_response_run
      (client : llm_client) (pd : ProjectDetails) (user_query : string)
      (w : Script.world) :
  get_llm_chain_response json_loads (Some client) pd user_query w =
  let input := format_user_input_with_context pd user_query in
  let history := history_of (SessionState.memory (Script.state w)) in
  let events := [ call_get_llm_chain_response user_query;
                  chain_invoke history input ] in
  match generate client history input with
  | inl e =>
      (inr (handle_exception e ""),
       {| Script.state := Script.state w;
          Script.trace := Script.trace w ++ events |})
  | inr response =>
      (inr (normalize json_loads (get_text response)),
       {| Script.state :=
            SessionState.set_last_llm (get_text response) input
              (SessionState.set_memory
                 (option_map
                    (fun window =>
                       Memory.append window (input, get_text response))
                    (SessionState.memory (Script.state w)))
                 (Script.state w));
          Script.trace := Script.trace w ++ events |})
  end.
Proof.
  destruct w as [s tr]. unfold get_llm_chain_response, invoke_chain, history_of.
  cbv [Script.bind Script.emit Script.gets Script.modify Script.ret
       Script.state Script.trace].
  cbv zeta.
  destruct (generate client _ _); rewrite <- app_assoc; reflexivity.
Qed.

(** An exception of the handlers' making always has a code, details and a
    raw text. *)
Lemma handle_exception_shape (e : exn) (raw : string) :
  exists code details,
    is_error_package (handle_exception e raw) code details raw
    /\ (code = "LLM_JSON_PARSE_ERROR" \/ code = "LLM_CHAIN_ERROR").
Proof.
  destruct e; do 2 eexists; (split; [repeat split; reflexivity|]);
    (left; reflexivity) || (right; reflexivity).
Qed.

(** [get_llm_chain_response] never lets an exception escape, whatever the
    model and the decoder do; what it returns holds the recommendations or
    an error code with text details, so that the look-ups of [src/App.py] on
    it cannot fail. *)
Theorem get_llm_chain_response_never_raises
        (llm : option llm_client) (pd : ProjectDetails) (user_query : string)
        (w : Script.world) :
  exists package,
    fst (get_llm_chain_response json_loads llm pd user_query w) = inr package
    /\ ((exists recs, dict_get package "recommendations" = Some (PyList recs))
        \/ (dict_has package "recommendations" = false
            /\ exists code details,
                dict_get package "error" = Some (PyStr code)
                /\ dict_get package "details" = Some (PyStr details))).
Proof.
  destruct llm as [client|].
  - rewrite get_llm_chain_response_run. cbv zeta.
    destruct (generate client _ _) as [e|response]; cbn [fst].
    + eexists. split; [reflexivity|]. right.
      destruct (handle_exception_shape e "") as (code & details & H & _).
      destruct H as (H1 & H2 & H3 & _). split; [exact H1|]. now exists code, details.
    + eexists. split; [reflexivity|].
      destruct (normalize_shape json_loads (get_text response))
        as [(recs & ->)|(code & details & raw_text & H & _)].
      * left. now exists recs.
      * right. destruct H as (H1 & H2 & H3 & _). split; [exact H1|].
        now exists code, details.
  - destruct w as [s tr]. eexists. split; [reflexivity|]. right.
    split; [reflexivity|]. do 2 eexists. split; reflexivity.
Qed.

(** When the model raises, the package reports the exception with an empty
    raw text, and the two debug fields of the session keep their values. *)
Theorem model_failure_is_reported
        (client : llm_client) (pd : ProjectDetails) (user_query : string)
        (w : Script.world) (e : exn) :
  generate client (history_of (SessionState.memory (Script.state w)))
           (format_user_input_with_context pd user_query) = inl e ->
  let result := get_llm_chain_response json_loads (Some client) pd user_query w in
  fst result = inr (handle_exception e "")
  /\ dict_get (handle_exception e "") "raw_text_fallback" = Some (PyStr "")
  /\ ((forall msg, e <> JSONDecodeError msg) ->
      dict_get (handle_exception e "") "error" = Some (PyStr "LLM_CHAIN_ERROR")
      /\ dict_get (handle_exception e "") "details"
         = Some (PyStr ("An unexpected error occurred: " ++ exn_type_name e
                        ++ " - " ++ exn_str e)))
  /\ SessionState.last_llm_raw_output (Script.state (snd result))
     = SessionState.last_llm_raw_output (Script.state w)
  /\ SessionState.last_llm_formatted_input (Script.state (snd result))
     = SessionState.last_llm_formatted_input (Script.state w).
Proof.
  intros H. cbv zeta. rewrite get_llm_chain_response_run. cbv zeta.
  rewrite H. cbn [fst snd Script.state].
  split; [reflexivity|]. split; [destruct e; reflexivity|].
  split; [|split; reflexivity].
  intros He. destruct e; try (split; reflexivity). now elim (He msg).
Qed.

(** When the model answers, the package is what the normalizer makes of the
    answer, and the debug fields record the raw answer and the prompt, also
    when the answer could not be decoded. *)
Theorem model_answer_is_recorded
        (client : llm_client) (pd : ProjectDetails) (user_query : string)
        (w : Script.world) (response : option string) :
  generate client (history_of (SessionState.memory (Script.state w)))
           (format_user_input_with_context pd user_query) = inr response ->
  let result := get_llm_chain_response json_loads (Some client) pd user_query w in
  fst result = inr (normalize json_loads (get_text response))
  /\ SessionState.last_llm_raw_output (Script.state (snd result))
     = Some (get_text response)
  /\ SessionState.last_llm_formatted_input (Script.state (snd result))
     = Some (format_user_input_with_context pd user_query)
  /\ SessionState.messages (Script.state (snd result))
     = SessionState.messages (Script.state w).
Proof.
  intros H. cbv zeta. rewrite get_llm_chain_response_run. cbv zeta.
  rewrite H. cbn [fst snd Script.state]. repeat split; reflexivity.
Qed.

(** *** The frame of a turn *)

Lemma turn_extends_refl (w : Script.world) : turn_extends w w.
Proof.
  repeat split; [exists [] | exists []]; now rewrite app_nil_r.
Qed.

Lemma turn_extends_trans (w1 w2 w3 : Script.world) :
  turn_extends w1 w2 -> turn_extends w2 w3 -> turn_extends w1 w3.
Proof.
  intros (P1 & L1 & (m1 & M1) & (e1 & E1)) (P2 & L2 & (m2 & M2) & (e2 & E2)).
  split; [congruence|]. split; [congruence|]. split.
  - exists (m1 ++ m2)%list. rewrite M2, M1. now rewrite app_assoc.
  - exists (e1 ++ e2)%list. rewrite E2, E1. now rewrite app_assoc.
Qed.

Lemma preserves_ret {A} (a : A) : preserves (Script.ret a).
Proof. intros w. apply turn_extends_refl. Qed.

Lemma preserves_raise {A} (e : exn) : preserves (@Script.raise A e).
Proof. intros w. apply turn_extends_refl. Qed.

Lemma preserves_gets {A} (f : SessionState.t -> A) : preserves (Script.gets f).
Proof. intros w. apply turn_extends_refl. Qed.

Lemma preserves_emit (ev : event) : preserves (Script.emit ev).
Proof.
  intros [s tr]. repeat split; [exists [] | exists [ev]];
    [now rewrite app_nil_r | reflexivity].
Qed.

Lemma preserves_append_message (m : message) :
  preserves (Script.modify (SessionState.append_message m)).
Proof.
  intros [s tr]. repeat split; [exists [m] | exists []];
    [reflexivity | now rewrite app_nil_r].
Qed.

Lemma preserves_set_memory (memory : option Memory.window) :
  preserves (Script.modify (SessionState.set_memory memory)).
Proof.
  intros [s tr]. repeat split; [exists [] | exists []]; now rewrite app_nil_r.
Qed.

Lemma preserves_set_last_llm (raw_output formatted_input : string) :
  preserves (Script.modify
               (SessionState.set_last_llm raw_output formatted_input)).
Proof.
  intros [s tr]. repeat split; [exists [] | exists []]; now rewrite app_nil_r.
Qed.

Lemma preserves_bind {A B} (c : Script.M A) (k : A -> Script.M B) :
  preserves c -> (forall a, preserves (k a)) -> preserves (Script.bind c k).
Proof.
  intros Hc Hk w. unfold Script.bind. specialize (Hc w).
  destruct (c w) as [[e|a] w1]; cbn [snd] in *; [exact Hc|].
  exact (turn_extends_trans _ _ _ Hc (Hk a w1)).
Qed.

Lemma preserves_getitem (d : dict) (key : string) :
  preserves (Script.getitem d key).
Proof.
  unfold Script.getitem. destruct (dict_get d key);
    [apply preserves_ret | apply preserves_raise].
Qed.

Lemma preserves_mapM {A B} (f : A -> Script.M B) (l : list A) :
  (forall a, preserves (f a)) -> preserves (Script.mapM f l).
Proof.
  intros Hf. induction l as [|a l IH]; [apply preserves_ret|].
  cbn [Script.mapM]. apply preserves_bind; [apply Hf|]. intros b.
  apply preserves_bind; [exact IH|]. intros bs. apply preserves_ret.
Qed.

Ltac frame :=
  repeat first
    [ apply preserves_ret | apply preserves_raise | apply preserves_gets
    | apply preserves_emit | apply preserves_append_message
    | apply preserves_set_memory | apply preserves_set_last_llm
    | apply preserves_getitem
    | apply preserves_bind; [|intros ?]
    | apply preserves_mapM; intros ?
    | match goal with
      | |- preserves (if ?b then _ else _) => destruct b
      | |- preserves (match ?x with _ => _ end) => destruct x
      end ].

Lemma preserves_set_source (response_data source : pyval) :
  preserves (set_source response_data source).
Proof. unfold set_source. frame. Qed.

Lemma preserves_rule_path (rule_result : dict) :
  preserves (rule_path rule_result).
Proof. unfold rule_path. frame. apply preserves_set_source. Qed.

Lemma preserves_get_llm_chain_response
      (llm : option llm_client) (pd : ProjectDetails) (user_query : string) :
  preserves (get_llm_chain_response json_loads llm pd user_query).
Proof. unfold get_llm_chain_response, invoke_chain. frame. Qed.

Lemma preserves_model_path (pd : ProjectDetails) (user_query : string) :
  preserves (model_path json_loads pd user_query).
Proof.
  unfold model_path. frame;
    try apply preserves_get_llm_chain_response; try apply preserves_set_source.
Qed.

(** A turn keeps the project details and the model client, removes or
    rewrites no message of the chat log and no event: it only appends, also
    when an exception escapes; and a turn with a query appends the user's
    message before anything else. *)
Theorem chat_turn_only_appends (user_query : string) (w : Script.world) :
  turn_extends w (snd (chat_turn json_loads user_query w))
  /\ exists added,
      SessionState.messages
        (Script.state (snd (chat_turn json_loads user_query w)))
      = (SessionState.messages (Script.state w)
         ++ (if String.eqb user_query "" then []
             else [user_message user_query])
         ++ added)%list.
Proof.
  assert (preserves (chat_turn json_loads user_query)) as H.
  { unfold chat_turn. frame;
      try apply preserves_rule_path; try apply preserves_model_path;
      try apply preserves_set_source;
      try apply preserves_get_llm_chain_response. }
  split; [apply H|].
  unfold chat_turn. destruct (String.eqb user_query "") eqn:Hq.
  { exists []. destruct w as [s tr]. cbn [Script.ret snd Script.state].
    now rewrite !app_nil_r. }
  unfold Script.bind at 1. destruct w as [s tr].
  cbn [Script.modify Script.state Script.trace].
  match goal with
  | |- context [snd (?c ?w0)] =>
      assert (preserves c) as Hc; [|destruct (Hc w0) as (_ & _ & (added & Ha) & _)]
  end.
  { frame; try apply preserves_rule_path; try apply preserves_model_path;
      try apply preserves_set_source;
      try apply preserves_get_llm_chain_response. }
  exists added. rewrite Ha. cbn [Script.state SessionState.messages
                                   SessionState.append_message].
  now rewrite <- app_assoc.
Qed.

End TurnExtras.

(* ================================================================== *)
(** ** The turns that reach the model *)
(* ================================================================== *)

Section ModelTurns.
Import TurnFacts.

Variable json_loads : string -> exn + pyval.

(** A turn with a query: the prelude, then one of the two paths, then the
    log of the recommendations, if there are any. *)
Lemma chat_turn_unfold (user_query : string) (w : Script.world) :
  user_query <> "" ->
  chat_turn json_loads user_query w =
  Script.bind
    match apply_pre_checks (SessionState.project_details (Script.state w)) with
    | Some ((_ :: _) as rule_result) => rule_path rule_result
    | _ => model_path json_loads
                      (SessionState.project_details (Script.state w))
                      user_query
    end
    (fun response_data =>
       if is_nonempty_list response_data then
         Script.bind
           (Script.modify (SessionState.append_message (assistant response_data)))
           (fun _ => Script.emit st_rerun)
       else Script.ret tt)
    (after_prelude user_query w).
Proof.
  intros Hq. apply String.eqb_neq in Hq. destruct w as [s tr].
  unfold chat_turn. rewrite Hq.
  unfold Script.bind at 1. cbn [Script.modify Script.state Script.trace].
  unfold Script.bind at 1. cbn [Script.emit Script.state Script.trace].
  unfold Script.bind at 1. cbn [Script.emit Script.state Script.trace].
  unfold Script.bind at 1. cbn [Script.emit Script.state Script.trace].
  unfold Script.bind at 1. cbn [Script.emit Script.state Script.trace].
  unfold Script.bind at 1.
  cbn [Script.gets Script.state Script.trace SessionState.project_details
       SessionState.append_message].
  unfold after_prelude, turn_prelude. cbn [Script.state Script.trace].
  rewrite <- !app_assoc. reflexivity.
Qed.

(** The model path, once [get_llm_chain_response] has returned. *)
Lemma model_path_unfold
      (pd : ProjectDetails) (user_query : string) (w0 w1 : Script.world)
      (client : llm_client) (window : Memory.window) (package : dict) :
  SessionState.llm (Script.state w0) = Some client ->
  SessionState.memory (Script.state w0) = Some window ->
  get_llm_chain_response json_loads (Some client) pd user_query w0
  = (inr package, w1) ->
  model_path json_loads pd user_query w0 =
  (if dict_has package "recommendations" then
     Script.bind (Script.getitem package "recommendations")
       (fun response_data =>
          set_source response_data
                     (dict_get_default package "source"
                                       (PyStr "LLM via LangChain")))
   else if dict_has package "raw_text_fallback" then
     Script.bind (Script.getitem package "details")
       (fun details =>
          Script.bind
            (Script.emit (st_warning ("AI Response (Fallback): "
                                      ++ PyRepr.str details)))
            (fun _ =>
               Script.bind (Script.getitem package "raw_text_fallback")
                 (fun raw_text_fallback =>
                    Script.bind
                      (Script.emit (st_text_area "Raw AI Output:"
                                      (PyRepr.str raw_text_fallback)))
                      (fun _ =>
                         Script.bind
                           (Script.modify
                              (SessionState.append_message
                                 (assistant (PyDict package))))
                           (fun _ => Script.ret PyNone)))))
   else if dict_has package "error" then
     Script.bind (Script.getitem package "error")
       (fun error =>
          Script.bind (Script.getitem package "details")
            (fun details =>
               Script.bind
                 (Script.emit (st_error ("**AI Agent Error:** "
                                         ++ PyRepr.str error ++ " - "
                                         ++ PyRepr.str details)))
                 (fun _ =>
                    Script.bind
                      (Script.modify
                         (SessionState.append_message
                            (assistant
                               (PyStr ("**AI Agent Error:** "
                                       ++ PyRepr.str error ++ " - "
                                       ++ PyRepr.str details)))))
                      (fun _ => Script.ret PyNone))))
   else Script.ret PyNone) w1.
Proof.
  intros Hllm Hmem Hrun. destruct w0 as [s tr].
  cbn [Script.state] in Hllm, Hmem.
  unfold model_path.
  unfold Script.bind at 1. cbn [Script.gets Script.state].
  unfold Script.bind at 1. cbn [Script.gets Script.state].
  rewrite Hllm, Hmem.
  unfold Script.bind at 1. rewrite Hrun. reflexivity.
Qed.

(** An error package is shown as a fallback and logged as it is. *)
Lemma model_path_error_package
      (pd : ProjectDetails) (user_query : string) (w0 w1 : Script.world)
      (client : llm_client) (window : Memory.window) (package : dict)
      (code details raw_text : string) :
  SessionState.llm (Script.state w0) = Some client ->
  SessionState.memory (Script.state w0) = Some window ->
  get_llm_chain_response json_loads (Some client) pd user_query w0
  = (inr package, w1) ->
  is_error_package package code details raw_text ->
  model_path json_loads pd user_query w0 =
  (inr PyNone,
   {| Script.state :=
        SessionState.append_message (assistant (PyDict package))
                                    (Script.state w1);
      Script.trace :=
        Script.trace w1
        ++ [ st_warning ("AI Response (Fallback): " ++ details);
             st_text_area "Raw AI Output:" raw_text ] |}).
Proof.
  intros Hllm Hmem Hrun (Hrec & _ & Hdet & Hraw).
  rewrite (model_path_unfold _ _ _ _ _ _ _ Hllm Hmem Hrun).
  rewrite Hrec, (dict_get_has _ _ _ Hraw).
  destruct w1 as [s1 tr1].
  unfold Script.getitem. rewrite Hdet, Hraw.
  cbv [Script.bind Script.ret Script.emit Script.modify Script.state
       Script.trace].
  cbn [PyRepr.str]. rewrite <- app_assoc. reflexivity.
Qed.

(** Recommendations go through the loop that attaches the source. *)
Lemma model_path_recommendations
      (pd : ProjectDetails) (user_query : string) (w0 w1 : Script.world)
      (client : llm_client) (window : Memory.window) (recs : list pyval) :
  SessionState.llm (Script.state w0) = Some client ->
  SessionState.memory (Script.state w0) = Some window ->
  get_llm_chain_response json_loads (Some client) pd user_query w0
  = (inr [ ("recommendations", PyList recs);
           ("source", PyStr "LLM via LangChain") ], w1) ->
  model_path json_loads pd user_query w0 =
  set_source (PyList recs) (PyStr "LLM via LangChain") w1.
Proof.
  intros Hllm Hmem Hrun.
  rewrite (model_path_unfold _ _ _ _ _ _ _ Hllm Hmem Hrun). reflexivity.
Qed.

(** The run of [get_llm_chain_response] after the prelude of a turn. *)
Lemma response_after_prelude
      (user_query : string) (w : Script.world) (client : llm_client) :
  get_llm_chain_response
    json_loads (Some client)
    (SessionState.project_details (Script.state w)) user_query
    (after_prelude user_query w) =
  match generate client
                 (history_of (SessionState.memory (Script.state w)))
                 (format_user_input_with_context
                    (SessionState.project_details (Script.state w))
                    user_query) with
  | inl e => (inr (handle_exception e ""), after_model_failure user_query w)
  | inr response =>
      (inr (normalize json_loads (get_text response)),
       after_model_answer user_query (get_text response) w)
  end.
Proof.
  rewrite get_llm_chain_response_run. cbv zeta. destruct w as [s tr].
  unfold after_prelude, after_model_failure, after_model_answer, model_events.
  cbn [Script.state Script.trace SessionState.memory
       SessionState.append_message SessionState.project_details].
  destruct (generate client _ _); rewrite <- app_assoc; reflexivity.
Qed.

Lemma after_prelude_session (user_query : string) (w : Script.world) :
  SessionState.llm (Script.state (after_prelude user_query w))
  = SessionState.llm (Script.state w)
  /\ SessionState.memory (Script.state (after_prelude user_query w))
     = SessionState.memory (Script.state w).
Proof. destruct w as [s tr]. split; reflexivity. Qed.

(** A model turn whose package is an error package. *)
Lemma model_turn_error_package
      (user_query : string) (w w1 : Script.world) (client : llm_client)
      (package : dict) (code details raw_text : string) :
  model_turn user_query w client ->
  get_llm_chain_response
    json_loads (Some client)
    (SessionState.project_details (Script.state w)) user_query
    (after_prelude user_query w) = (inr package, w1) ->
  is_error_package package code details raw_text ->
  chat_turn json_loads user_query w
  = (inr tt, with_fallback package details raw_text w1).
Proof.
  intros (Hq & Hrule & Hllm & (window & Hmem)) Hrun Hpkg.
  rewrite (chat_turn_unfold user_query w Hq), Hrule.
  destruct (after_prelude_session user_query w) as [E1 E2].
  rewrite <- E1 in Hllm. rewrite <- E2 in Hmem.
  unfold Script.bind at 1.
  rewrite (model_path_error_package _ _ _ _ _ _ _ _ _ _ Hllm Hmem Hrun Hpkg).
  reflexivity.
Qed.

(** A model turn whose package holds recommendations. *)
Lemma model_turn_recommendations
      (user_query : string) (w : Script.world) (client : llm_client)
      (response : option string) (recs : list pyval) :
  model_turn user_query w client ->
  model_outcome user_query w client = inr response ->
  normalize json_loads (get_text response)
  = [ ("recommendations", PyList recs); ("source", PyStr "LLM via LangChain") ] ->
  chat_turn json_loads user_query w =
  match as_dicts recs with
  | None => (inl (TypeError "object does not support item assignment"),
             after_model_answer user_query (get_text response) w)
  | Some [] => (inr tt, after_model_answer user_query (get_text response) w)
  | Some dicts =>
      (inr tt,
       with_recommendations (List.map with_model_source dicts)
         (after_model_answer user_query (get_text response) w))
  end.
Proof.
  intros (Hq & Hrule & Hllm & (window & Hmem)) Hgen Hnorm.
  rewrite (chat_turn_unfold user_query w Hq), Hrule.
  destruct (after_prelude_session user_query w) as [E1 E2].
  rewrite <- E1 in Hllm. rewrite <- E2 in Hmem.
  pose proof (response_after_prelude user_query w client) as Hrun.
  unfold model_outcome in Hgen. rewrite Hgen, Hnorm in Hrun.
  unfold Script.bind at 1.
  rewrite (model_path_recommendations _ _ _ _ _ _ _ Hllm Hmem Hrun).
  rewrite set_source_run.
  destruct (as_dicts recs) as [[|d ds]|]; reflexivity.
Qed.

(** What a model turn adds to the trace after the two model events:
    nothing, the rerun, or the warning with the raw text. *)
Lemma model_turn_trace
      (user_query : string) (w : Script.world) (client : llm_client) :
  model_turn user_query w client ->
  exists tail,
    Script.trace (snd (chat_turn json_loads user_query w))
    = (Script.trace w ++ turn_prelude user_query
       ++ model_events user_query w ++ tail)%list
    /\ (tail = [] \/ tail = [st_rerun]
        \/ exists details raw_text,
            tail = [ st_warning ("AI Response (Fallback): " ++ details);
                     st_text_area "Raw AI Output:" raw_text ]).
Proof.
  intros Hturn.
  pose proof (response_after_prelude user_query w client) as Hrun.
  destruct (generate client _ _) as [e|response] eqn:Hgen.
  - destruct (handle_exception_shape e "") as (code & details & Hpkg & _).
    rewrite (model_turn_error_package _ _ _ _ _ _ _ _ Hturn Hrun Hpkg).
    eexists. split; [|right; right; do 2 eexists; reflexivity].
    destruct w as [s tr]. cbn [snd with_fallback Script.trace
                                 after_model_failure].
    now rewrite <- !app_assoc.
  - destruct (normalize_shape json_loads (get_text response))
      as [(recs & Hnorm)|(code & details & raw_text & Hpkg & _)].
    + rewrite (model_turn_recommendations _ _ _ _ _ Hturn Hgen Hnorm).
      destruct (as_dicts recs) as [[|d ds]|].
      * exists []. split; [|tauto]. destruct w as [s tr].
        cbn [snd Script.trace after_model_answer]. now rewrite app_nil_r.
      * exists [st_rerun]. split; [|tauto]. destruct w as [s tr].
        cbn [snd with_recommendations Script.trace after_model_answer].
        now rewrite <- !app_assoc.
      * exists []. split; [|tauto]. destruct w as [s tr].
        cbn [snd Script.trace after_model_answer]. now rewrite app_nil_r.
    + rewrite (model_turn_error_package _ _ _ _ _ _ _ _ Hturn Hrun Hpkg).
      eexists. split; [|right; right; do 2 eexists; reflexivity].
      destruct w as [s tr]. cbn [snd with_fallback Script.trace
                                   after_model_answer].
      now rewrite <- !app_assoc.
Qed.

(** A turn that reaches the model calls [get_llm_chain_response] once and
    the model once, with the history of the memory and the prompt composed
    from the project details and the query; there is no retry. *)
Theorem model_turn_calls_model_once
        (user_query : string) (w : Script.world) (client : llm_client) :
  model_turn user_query w client ->
  model_calls (Script.trace (snd (chat_turn json_loads user_query w)))
  = (model_calls (Script.trace w) + 2)%nat
  /\ List.filter is_model_event
       (Script.trace (snd (chat_turn json_loads user_query w)))
     = (List.filter is_model_event (Script.trace w)
        ++ model_events user_query w)%list.
Proof.
  intros Hturn.
  destruct (model_turn_trace user_query w client Hturn) as (tail & -> & Htail).
  assert (List.filter is_model_event tail = []) as Ht.
  { destruct Htail as [->|[->|(d & r & ->)]]; reflexivity. }
  assert (List.filter is_model_event
            (Script.trace w ++ turn_prelude user_query
             ++ model_events user_query w ++ tail)%list
          = (List.filter is_model_event (Script.trace w)
             ++ model_events user_query w)%list) as Hf.
  { rewrite !filter_app, Ht, app_nil_r. reflexivity. }
  split; [|exact Hf].
  unfold model_calls. rewrite Hf, length_app. reflexivity.
Qed.

(** A turn that reaches the model never shows an error box: every failure
    of the model or of the decoding is shown as a fallback warning with the
    raw text, so the "AI Agent Error" message of the script is never
    displayed in such a turn. *)
Theorem model_turn_shows_no_error_box
        (user_query : string) (w : Script.world) (client : llm_client) :
  model_turn user_query w client ->
  forall body,
    In (st_error body) (Script.trace (snd (chat_turn json_loads user_query w))) ->
    In (st_error body) (Script.trace w).
Proof.
  intros Hturn body.
  destruct (model_turn_trace user_query w client Hturn) as (tail & -> & Htail).
  rewrite !in_app_iff. intros [H|[H|[H|H]]]; [exact H | | |].
  - simpl in H. repeat (destruct H as [H|H]; [discriminate H|]). destruct H.
  - simpl in H. repeat (destruct H as [H|H]; [discriminate H|]). destruct H.
  - destruct Htail as [->|[->|(d & r & ->)]]; simpl in H;
      repeat (destruct H as [H|H]; [discriminate H|]); destruct H.
Qed.

(** When the decoded array is empty, the turn shows nothing and logs no
    answer: the query is logged, the model is called, and that is all. *)
Theorem empty_array_is_silent
        (user_query : string) (w : Script.world) (client : llm_client)
        (response : option string) :
  model_turn user_query w client ->
  model_outcome user_query w client = inr response ->
  normalize json_loads (get_text response)
  = [ ("recommendations", PyList []); ("source", PyStr "LLM via LangChain") ] ->
  chat_turn json_loads user_query w
  = (inr tt, after_model_answer user_query (get_text response) w)
  /\ SessionState.messages
       (Script.state (snd (chat_turn json_loads user_query w)))
     = (SessionState.messages (Script.state w) ++ [user_message user_query])%list.
Proof.
  intros Hturn Hgen Hnorm.
  rewrite (model_turn_recommendations _ _ _ _ _ Hturn Hgen Hnorm).
  split; [reflexivity|]. destruct w as [s tr]. reflexivity.
Qed.

(** When an item of the decoded array is not an object, attaching the source
    fails: a [TypeError] escapes the turn, after the query was logged and
    the model called, and no answer is logged. *)
Theorem non_object_item_raises
        (user_query : string) (w : Script.world) (client : llm_client)
        (response : option string) (recs : list pyval) (item : pyval) :
  model_turn user_query w client ->
  model_outcome user_query w client = inr response ->
  normalize json_loads (get_text response)
  = [ ("recommendations", PyList recs); ("source", PyStr "LLM via LangChain") ] ->
  In item recs -> (forall d, item <> PyDict d) ->
  exists msg,
    chat_turn json_loads user_query w
    = (inl (TypeError msg),
       after_model_answer user_query (get_text response) w).
Proof.
  intros Hturn Hgen Hnorm Hin Hd.
  rewrite (model_turn_recommendations _ _ _ _ _ Hturn Hgen Hnorm).
  assert (as_dicts recs = None) as -> by (apply as_dicts_none; now exists item).
  eexists. reflexivity.
Qed.

(** When the decoded array holds objects, at least one, each is logged with
    its "source" entry set to "LLM via LangChain", whatever source the model
    wrote, and with its other entries as they were; then the script
    reruns. *)
Theorem recommendations_get_model_source
        (user_query : string) (w : Script.world) (client : llm_client)
        (response : option string) (dicts : list dict) :
  model_turn user_query w client ->
  model_outcome user_query w client = inr response ->
  normalize json_loads (get_text response)
  = [ ("recommendations", PyList (List.map PyDict dicts));
      ("source", PyStr "LLM via LangChain") ] ->
  dicts <> [] ->
  chat_turn json_loads user_query w
  = (inr tt,
     with_recommendations (List.map with_model_source dicts)
       (after_model_answer user_query (get_text response) w))
  /\ forall d, In d dicts ->
       exists d', with_model_source d = PyDict d'
                  /\ dict_get d' "source" = Some (PyStr "LLM via LangChain")
                  /\ forall key, key <> "source" ->
                                 dict_get d' key = dict_get d key.
Proof.
  intros Hturn Hgen Hnorm Hne. split.
  - rewrite (model_turn_recommendations _ _ _ _ _ Hturn Hgen Hnorm).
    rewrite as_dicts_map. destruct dicts; [contradiction | reflexivity].
  - intros d _. eexists. split; [reflexivity|]. split.
    + apply dict_get_set_same.
    + intros key Hk. now apply dict_get_set_other.
Qed.

(** A text of the model that cannot be normalized to recommendations is
    shown as a fallback: a warning with the details, the raw text of the
    package, and the package itself in the chat log. *)
Theorem undecodable_answer_is_shown_as_fallback
        (user_query : string) (w : Script.world) (client : llm_client)
        (response : option string) (code details raw_text : string) :
  model_turn user_query w client ->
  model_outcome user_query w client = inr response ->
  is_error_package (normalize json_loads (get_text response))
                   code details raw_text ->
  chat_turn json_loads user_query w
  = (inr tt,
     with_fallback (normalize json_loads (get_text response)) details raw_text
       (after_model_answer user_query (get_text response) w)).
Proof.
  intros Hturn Hgen Hpkg.
  pose proof (response_after_prelude user_query w client) as Hrun.
  unfold model_outcome in Hgen. rewrite Hgen in Hrun.
  exact (model_turn_error_package _ _ _ _ _ _ _ _ Hturn Hrun Hpkg).
Qed.

(** An exception of the model call is shown as a fallback too, with an
    empty raw text; the turn itself ends normally. *)
Theorem model_exception_is_shown_as_fallback
        (user_query : string) (w : Script.world) (client : llm_client)
        (e : exn) :
  model_turn user_query w client ->
  model_outcome user_query w client = inl e ->
  exists code details,
    is_error_package (handle_exception e "") code details ""
    /\ chat_turn json_loads user_query w
       = (inr tt,
          with_fallback (handle_exception e "") details ""
                        (after_model_failure user_query w)).
Proof.
  intros Hturn Hgen.
  destruct (handle_exception_shape e "") as (code & details & Hpkg & _).
  exists code, details. split; [exact Hpkg|].
  pose proof (response_after_prelude user_query w client) as Hrun.
  unfold model_outcome in Hgen. rewrite Hgen in Hrun.
  exact (model_turn_error_package _ _ _ _ _ _ _ _ Hturn Hrun Hpkg).
Qed.

(** Without a model client or without a memory in the session, a turn that
    no rule decides shows and logs "LLM or Memory not initialized. Cannot
    proceed." and does not reach the model. *)
Theorem missing_llm_or_memory_is_reported
        (user_query : string) (w : Script.world) :
  user_query <> "" ->
  apply_pre_checks (SessionState.project_details (Script.state w)) = None ->
  SessionState.llm (Script.state w) = None
  \/ SessionState.memory (Script.state w) = None ->
  chat_turn json_loads user_query w =
  (inr tt,
   {| Script.state :=
        SessionState.append_message
          (assistant (PyStr "LLM or Memory not initialized. Cannot proceed."))
          (Script.state (after_prelude user_query w));
      Script.trace :=
        Script.trace (after_prelude user_query w)
        ++ [st_error "LLM or Memory not initialized. Cannot proceed."] |})
  /\ model_calls (Script.trace (snd (chat_turn json_loads user_query w)))
     = model_calls (Script.trace w).
Proof.
  intros Hq Hrule Hmiss.
  assert (chat_turn json_loads user_query w =
          (inr tt,
           {| Script.state :=
                SessionState.append_message
                  (assistant (PyStr "LLM or Memory not initialized. Cannot proceed."))
                  (Script.state (after_prelude user_query w));
              Script.trace :=
                Script.trace (after_prelude user_query w)
                ++ [st_error "LLM or Memory not initialized. Cannot proceed."] |}))
    as H.
  { rewrite (chat_turn_unfold user_query w Hq), Hrule.
    destruct w as [[pd msgs llm memory out inp] tr].
    cbn [Script.state SessionState.llm SessionState.memory] in Hmiss.
    destruct Hmiss as [-> | ->]; [|destruct llm]; reflexivity. }
  split; [exact H|]. rewrite H. cbn [snd Script.trace].
  destruct w as [s tr]. cbn [after_prelude Script.trace].
  rewrite !model_calls_app. unfold model_calls. simpl. lia.
Qed.

End ModelTurns.

(* ================================================================== *)
(** ** The further properties on sample sessions *)
(* ================================================================== *)

Lemma sample_model_turn (client : llm_client) :
  model_turn first_query (session_with client initial_project_details) client.
Proof.
  split; [discriminate|]. split; [reflexivity|]. split; [reflexivity|].
  now exists Memory.empty.
Qed.

Lemma model_failure_is_reported_witness :
  generate (llm_raising (OtherException "TimeoutError" "timed out"))
           (history_of (SessionState.memory
                          (Script.state (new_session initial_project_details))))
           (format_user_input_with_context initial_project_details first_query)
  = inl (OtherException "TimeoutError" "timed out")
  /\ fst (get_llm_chain_response
            sample_json_loads
            (Some (llm_raising (OtherException "TimeoutError" "timed out")))
            initial_project_details first_query
            (new_session initial_project_details))
     = inr [ ("error", PyStr "LLM_CHAIN_ERROR");
             ("details", PyStr "An unexpected error occurred: TimeoutError - timed out");
             ("raw_text_fallback", PyStr "") ].
Proof.
  split; [reflexivity|].
  exact (proj1 (model_failure_is_reported
                  sample_json_loads
                  (llm_raising (OtherException "TimeoutError" "timed out"))
                  initial_project_details first_query
                  (new_session initial_project_details) _ eq_refl)).
Defined.

Lemma model_answer_is_recorded_witness :
  generate sample_llm
           (history_of (SessionState.memory
                          (Script.state (new_session initial_project_details))))
           (format_user_input_with_context initial_project_details first_query)
  = inr (Some "[{bad json}]")
  /\ SessionState.last_llm_raw_output
       (Script.state
          (snd (get_llm_chain_response
                  sample_json_loads (Some sample_llm)
                  initial_project_details first_query
                  (new_session initial_project_details))))
     = Some "[{bad json}]".
Proof.
  split; [reflexivity|].
  exact (proj1 (proj2 (model_answer_is_recorded
                         sample_json_loads sample_llm
                         initial_project_details first_query
                         (new_session initial_project_details) _ eq_refl))).
Defined.

Lemma model_turn_calls_model_once_witness :
  model_turn first_query (session_with sample_llm initial_project_details)
             sample_llm
  /\ model_calls
       (Script.trace
          (snd (chat_turn sample_json_loads first_query
                          (session_with sample_llm initial_project_details))))
     = 2%nat.
Proof.
  pose proof (sample_model_turn sample_llm) as H.
  split; [exact H|].
  exact (proj1 (model_turn_calls_model_once sample_json_loads _ _ _ H)).
Defined.

Lemma model_turn_shows_no_error_box_witness :
  model_turn first_query (session_with sample_llm initial_project_details)
             sample_llm
  /\ forall body,
      ~ In (st_error body)
           (Script.trace
              (snd (chat_turn sample_json_loads first_query
                              (session_with sample_llm
                                            initial_project_details)))).
Proof.
  pose proof (sample_model_turn sample_llm) as H.
  split; [exact H|]. intros body Hin.
  exact (model_turn_shows_no_error_box sample_json_loads _ _ _ H body Hin).
Defined.

Lemma empty_array_is_silent_witness :
  model_turn first_query
             (session_with (llm_answering "[]") initial_project_details)
             (llm_answering "[]")
  /\ normalize (decoder_answering (PyList [])) "[]"
     = [ ("recommendations", PyList []); ("source", PyStr "LLM via LangChain") ]
  /\ SessionState.messages
       (Script.state
          (snd (chat_turn (decoder_answering (PyList [])) first_query
                          (session_with (llm_answering "[]")
                                        initial_project_details))))
     = [user_message first_query].
Proof.
  pose proof (sample_model_turn (llm_answering "[]")) as H.
  split; [exact H|]. split; [reflexivity|].
  exact (proj2 (empty_array_is_silent
                  (decoder_answering (PyList [])) _ _ _ (Some "[]")
                  H eq_refl eq_refl)).
Defined.

Lemma non_object_item_raises_witness :
  model_turn first_query
             (session_with (llm_answering "[1]") initial_project_details)
             (llm_answering "[1]")
  /\ normalize (decoder_answering (PyList [PyInt 1])) "[1]"
     = [ ("recommendations", PyList [PyInt 1]);
         ("source", PyStr "LLM via LangChain") ]
  /\ exists msg,
      chat_turn (decoder_answering (PyList [PyInt 1])) first_query
                (session_with (llm_answering "[1]") initial_project_details)
      = (inl (TypeError msg),
         after_model_answer first_query "[1]"
           (session_with (llm_answering "[1]") initial_project_details)).
Proof.
  pose proof (sample_model_turn (llm_answering "[1]")) as H.
  split; [exact H|]. split; [reflexivity|].
  refine (non_object_item_raises
            (decoder_answering (PyList [PyInt 1])) _ _ _ (Some "[1]")
            [PyInt 1] (PyInt 1) H eq_refl eq_refl _ _).
  - left. reflexivity.
  - intros d. discriminate.
Defined.

Lemma recommendations_get_model_source_witness :
  model_turn first_query
             (session_with (llm_answering round_trip_answer)
                           initial_project_details)
             (llm_answering round_trip_answer)
  /\ normalize sample_json_loads round_trip_answer
     = [ ("recommendations", PyList (List.map PyDict [round_trip_recommendation]));
         ("source", PyStr "LLM via LangChain") ]
  /\ SessionState.messages
       (Script.state
          (snd (chat_turn sample_json_loads first_query
                          (session_with (llm_answering round_trip_answer)
                                        initial_project_details))))
     = [ user_message first_query;
         assistant
           (PyList [PyDict (round_trip_recommendation
                            ++ [("source", PyStr "LLM via LangChain")])]) ].
Proof.
  pose proof (sample_model_turn (llm_answering round_trip_answer)) as H.
  assert (normalize sample_json_loads round_trip_answer
          = [ ("recommendations",
               PyList (List.map PyDict [round_trip_recommendation]));
              ("source", PyStr "LLM via LangChain") ]) as Hn
      by (vm_compute; reflexivity).
  assert ([round_trip_recommendation] <> []) as Hne by discriminate.
  split; [exact H|]. split; [exact Hn|].
  rewrite (proj1 (recommendations_get_model_source
                    sample_json_loads _ _ _ (Some round_trip_answer)
                    [round_trip_recommendation] H eq_refl Hn Hne)).
  reflexivity.
Defined.

Lemma undecodable_answer_is_shown_as_fallback_witness :
  model_turn first_query (session_with sample_llm initial_project_details)
             sample_llm
  /\ Script.trace
       (snd (chat_turn sample_json_loads first_query
                       (session_with sample_llm initial_project_details)))
     = (turn_prelude first_query
        ++ model_events first_query
             (session_with sample_llm initial_project_details)
        ++ [ st_warning
               ("AI Response (Fallback): Failed to parse LLM output as JSON. Error: Expecting property name enclosed in double quotes: line 1 column 3 (char 2). Raw output was: "
                ++ nl ++ "[{bad json}]");
             st_text_area "Raw AI Output:" "[{bad json}]" ])%list.
Proof.
  pose proof (sample_model_turn sample_llm) as H.
  split; [exact H|].
  rewrite (undecodable_answer_is_shown_as_fallback
             sample_json_loads _ _ _ (Some "[{bad json}]")
             "LLM_JSON_PARSE_ERROR"
             ("Failed to parse LLM output as JSON. Error: Expecting property name enclosed in double quotes: line 1 column 3 (char 2). Raw output was: "
              ++ nl ++ "[{bad json}]")
             "[{bad json}]" H eq_refl).
  - reflexivity.
  - repeat split; reflexivity.
Defined.

Lemma model_exception_is_shown_as_fallback_witness :
  model_turn first_query
             (session_with
                (llm_raising (OtherException "TimeoutError" "timed out"))
                initial_project_details)
             (llm_raising (OtherException "TimeoutError" "timed out"))
  /\ fst (chat_turn sample_json_loads first_query
                    (session_with
                       (llm_raising (OtherException "TimeoutError" "timed out"))
                       initial_project_details))
     = inr tt.
Proof.
  pose proof (sample_model_turn
                (llm_raising (OtherException "TimeoutError" "timed out"))) as H.
  split; [exact H|].
  destruct (model_exception_is_shown_as_fallback
              sample_json_loads _ _ _
              (OtherException "TimeoutError" "timed out") H eq_refl)
    as (code & details & _ & ->).
  reflexivity.
Defined.

Lemma missing_llm_or_memory_is_reported_witness :
  first_query <> ""
  /\ apply_pre_checks
       (SessionState.project_details
          (Script.state (session_without_llm initial_project_details)))
     = None
  /\ SessionState.llm
       (Script.state (session_without_llm initial_project_details)) = None
  /\ model_calls
       (Script.trace
          (snd (chat_turn sample_json_loads first_query
                          (session_without_llm initial_project_details))))
     = 0%nat.
Proof.
  assert (first_query <> "") as H1 by discriminate.
  split; [exact H1|]. split; [reflexivity|]. split; [reflexivity|].
  exact (proj2 (missing_llm_or_memory_is_reported
                  sample_json_loads first_query
                  (session_without_llm initial_project_details)
                  H1 eq_refl (or_introl eq_refl))).
Defined.

(* ================================================================== *)
(** ** Further properties of the prompt composer *)
(* ================================================================== *)

Module PromptFacts.
Import PyStr PyStrFacts.

Lemma substring_of_refl (s : string) : substring_of s s.
Proof. exists "", "". simpl. now rewrite append_empty_r. Qed.

Lemma substring_of_append_l (sub a b : string) :
  substring_of sub b -> substring_of sub (a ++ b).
Proof.
  intros (pre & post & ->). exists (a ++ pre), post.
  now rewrite append_assoc.
Qed.

Lemma substring_of_append_r (sub a b : string) :
  substring_of sub a -> substring_of sub (a ++ b).
Proof.
  intros (pre & post & ->). exists pre, (post ++ b).
  now rewrite !append_assoc.
Qed.

Lemma substring_of_join (sep part : string) (parts : list string) :
  In part parts -> substring_of part (join sep parts).
Proof.
  induction parts as [|p parts IH]; intros H; [destruct H|].
  destruct parts as [|q parts].
  - destruct H as [->|[]]. apply substring_of_refl.
  - change (join sep (p :: q :: parts)) with (p ++ sep ++ join sep (q :: parts)).
    destruct H as [->|H].
    + apply substring_of_append_r, substring_of_refl.
    + now apply substring_of_append_l, substring_of_append_l, IH.
Qed.

Lemma substring_of_join_adjacent
      (sep a b : string) (before rest : list string) :
  substring_of (a ++ sep ++ b) (join sep (before ++ a :: b :: rest)).
Proof.
  induction before as [|p before IH].
  - simpl app. destruct rest as [|r rest].
    + apply substring_of_refl.
    + change (join sep (a :: b :: r :: rest))
        with (a ++ sep ++ b ++ sep ++ join sep (r :: rest)).
      exists "", (sep ++ join sep (r :: rest)).
      simpl. now rewrite !append_assoc.
  - destruct before as [|q before].
    + change (join sep ([p] ++ a :: b :: rest))
        with (p ++ sep ++ join sep ([] ++ a :: b :: rest)).
      now apply substring_of_append_l, substring_of_append_l.
    + change (join sep ((p :: q :: before) ++ a :: b :: rest))
        with (p ++ sep ++ join sep ((q :: before) ++ a :: b :: rest)).
      now apply substring_of_append_l, substring_of_append_l.
Qed.

Lemma substring_of_trans (a b c : string) :
  substring_of a b -> substring_of b c -> substring_of a c.
Proof.
  intros (p1 & q1 & ->) (p2 & q2 & ->).
  exists (p2 ++ p1), (q1 ++ q2). now rewrite !append_assoc.
Qed.

Lemma upper_char_underscore (c : ascii) :
  upper_char c = "_"%char -> c = "_"%char.
Proof.
  destruct c as [[] [] [] [] [] [] [] []]; vm_compute; intros H;
    try reflexivity; discriminate H.
Qed.

Lemma lower_char_underscore (c : ascii) :
  lower_char c = "_"%char -> c = "_"%char.
Proof.
  destruct c as [[] [] [] [] [] [] [] []]; vm_compute; intros H;
    try reflexivity; discriminate H.
Qed.

Lemma occurs_replace (old new : ascii) (s : string) :
  old <> new -> ~ occurs old (replace old new s).
Proof.
  intros Hne. induction s as [|c s IH]; simpl; [tauto|].
  intros [H|H]; [|now apply IH].
  destruct (Ascii.eqb c old) eqn:E; [now apply Hne|].
  apply Ascii.eqb_neq in E. now apply E.
Qed.

Lemma length_map (f : ascii -> ascii) (s : string) :
  String.length (map f s) = String.length s.
Proof. induction s as [|c s IH]; simpl; [reflexivity | now rewrite IH]. Qed.

End PromptFacts.

(** The composed prompt holds the system instructions with the context
    summary in them, the context summary again, and the query between
    double quotes; for an empty query it holds the fixed request for initial
    recommendations, and is the prompt of that request. *)
Theorem prompt_embeds_context_and_query
        (pd : ProjectDetails) (user_query : string) :
  let prompt := format_user_input_with_context pd user_query in
  let summary := context_summary (items pd) in
  PyStr.substring_of (SYSTEM_PROMPT_LANGCHAIN summary) prompt
  /\ PyStr.substring_of summary (SYSTEM_PROMPT_LANGCHAIN summary)
  /\ PyStr.substring_of
       ("The overall project context is as follows:" ++ nl ++ "    " ++ summary)
       prompt
  /\ PyStr.substring_of
       (dq ++ (if String.eqb user_query "" then
                 "Provide initial tech stack recommendations based on the context above."
               else user_query) ++ dq)
       prompt
  /\ format_user_input_with_context pd ""
     = format_user_input_with_context
         pd "Provide initial tech stack recommendations based on the context above.".
Proof.
  cbv zeta. set (summary := context_summary (items pd)).
  split; [|split; [|split; [|split]]].
  - unfold format_user_input_with_context. fold summary.
    apply PromptFacts.substring_of_append_l.
    eapply PromptFacts.substring_of_trans;
      [|apply PromptFacts.substring_of_join; right; left; reflexivity].
    apply PromptFacts.substring_of_append_l, PromptFacts.substring_of_refl.
  - unfold SYSTEM_PROMPT_LANGCHAIN.
    apply PromptFacts.substring_of_append_l, PromptFacts.substring_of_append_r.
    apply PromptFacts.substring_of_join. simpl. tauto.
  - unfold format_user_input_with_context. fold summary.
    apply PromptFacts.substring_of_append_l.
    eapply PromptFacts.substring_of_trans;
      [|apply (PromptFacts.substring_of_join_adjacent
                 nl "    The overall project context is as follows:"
                 ("    " ++ summary)
                 [ "    System Instructions:";
                   "    " ++ SYSTEM_PROMPT_LANGCHAIN summary;
                   "";
                   "    User's Current Request/Context:" ])].
    apply (PromptFacts.substring_of_append_l _ "    ").
    apply PromptFacts.substring_of_refl.
  - unfold format_user_input_with_context. fold summary.
    apply PromptFacts.substring_of_append_l.
    eapply PromptFacts.substring_of_trans;
      [|apply PromptFacts.substring_of_join;
        do 7 right; left; reflexivity].
    apply PromptFacts.substring_of_append_l, PromptFacts.substring_of_refl.
  - reflexivity.
Qed.

(** The name shown for a field has the length of its key and holds no
    underscore. *)
Theorem field_name_has_no_underscore (key : string) :
  String.length (PyStr.capitalize (PyStr.replace "_" " " key))
  = String.length key
  /\ ~ PyStr.occurs "_" (PyStr.capitalize (PyStr.replace "_" " " key)).
Proof.
  split.
  - destruct key as [|c key]; [reflexivity|]. simpl. f_equal.
    unfold PyStr.lower. now rewrite !PromptFacts.length_map.
  - intros H.
    assert (PyStr.occurs "_" (PyStr.replace "_" " " key)) as Hr.
    { unfold PyStr.replace in *. destruct key as [|c key]; [exact H|].
      simpl in H. simpl. destruct H as [H|H].
      - left. now apply PromptFacts.upper_char_underscore.
      - right. revert H. apply SummaryFacts.occurs_map.
        exact PromptFacts.lower_char_underscore. }
    revert Hr. apply PromptFacts.occurs_replace. discriminate.
Qed.

(* ================================================================== *)
(** ** Properties of the start of the script *)
(* ================================================================== *)

Module StartupFacts.
Import Startup.

Lemma lookup_app_new (keys : list (string * nat)) (key : string) (r : nat) :
  lookup keys key = None ->
  lookup (keys ++ [(key, r)]) key = Some r.
Proof.
  induction keys as [|[k r'] keys IH]; simpl.
  - now rewrite String.eqb_refl.
  - destruct (String.eqb k key); [discriminate | exact IH].
Qed.

Lemma lookup_app_old (keys : list (string * nat)) (key key' : string)
      (r r' : nat) :
  lookup keys key' = Some r' ->
  lookup (keys ++ [(key, r)]) key' = Some r'.
Proof.
  induction keys as [|[k r0] keys IH]; simpl; [discriminate|].
  destruct (String.eqb k key'); [tauto | exact IH].
Qed.

Lemma lookup_app_inv (keys : list (string * nat)) (key key' : string)
      (r r' : nat) :
  lookup keys key' = None ->
  lookup (keys ++ [(key, r)]) key' = Some r' -> r' = r.
Proof.
  induction keys as [|[k r0] keys IH]; simpl.
  - destruct (String.eqb key key'); congruence.
  - destruct (String.eqb k key'); [discriminate | exact IH].
Qed.

Lemma nth_error_set_object (objs : list Memory.window) (r : nat)
      (w : Memory.window) :
  (r < List.length objs)%nat ->
  List.nth_error (set_object objs r w) r = Some w.
Proof.
  revert r. induction objs as [|o objs IH]; intros [|r] H; simpl in *;
    try lia; [reflexivity|]. apply IH. lia.
Qed.

Lemma nth_error_set_object_other (objs : list Memory.window) (r r' : nat)
      (w : Memory.window) :
  r' <> r ->
  List.nth_error (set_object objs r w) r' = List.nth_error objs r'.
Proof.
  revert r r'. induction objs as [|o objs IH]; intros [|r] [|r'] H;
    simpl; try reflexivity; try contradiction.
  apply IH. congruence.
Qed.

(** With a client, [get_llm_and_memory] returns it with the memory of the
    session id, which afterwards is under the key of the session id and in
    the store. *)
Lemma get_llm_and_memory_run (client : llm_client) (id : string) (s : store) :
  well_formed s ->
  exists r s',
    get_llm_and_memory (inr client) id s = (Some (client, r), s', [])
    /\ lookup (conversation_memory s') (memory_key id) = Some r
    /\ (r < List.length (objects s'))%nat
    /\ Startup.llm s' = Startup.llm s
    /\ Startup.memory s' = Startup.memory s
    /\ Startup.session_id s' = Startup.session_id s
    /\ (exists more, objects s' = (objects s ++ more)%list)
    /\ well_formed s'.
Proof.
  intros [Hk Hm]. unfold get_llm_and_memory.
  destruct (lookup (conversation_memory s) (memory_key id)) as [r|] eqn:E.
  - exists r, s. repeat split; try assumption; try reflexivity.
    + exact (Hk _ _ E).
    + exists []. now rewrite app_nil_r.
  - eexists. eexists. split; [reflexivity|]. cbn [conversation_memory objects
      Startup.llm Startup.memory Startup.session_id].
    split; [now apply lookup_app_new|].
    split; [rewrite length_app; simpl; lia|].
    repeat split; try reflexivity.
    + eexists. reflexivity.
    + intros key r. cbn [conversation_memory objects].
      rewrite length_app. simpl.
      destruct (lookup (conversation_memory s) key) as [r0|] eqn:E0.
      * rewrite (lookup_app_old _ _ _ _ _ E0). intros [= <-].
        specialize (Hk _ _ E0). lia.
      * intros H.
        rewrite (lookup_app_inv _ _ _ _ _ E0 H). lia.
    + intros r. cbn [Startup.memory objects]. rewrite length_app. intros H.
      specialize (Hm _ H). lia.
Qed.

End StartupFacts.

(** When building the client fails, [get_llm_and_memory] shows the error
    and returns [None]; the start of the script then fails to unpack it: a
    [TypeError] escapes, the session gets neither client nor memory, and the
    message "Could not initialize AI model or memory" is not shown. *)
Theorem failed_client_raises_type_error
        (e : exn) (llm_truth memory_truth : bool) (s : Startup.store) :
  Startup.llm s = None \/ Startup.memory s = None ->
  exists s',
    Startup.start (inl e) llm_truth memory_truth s
    = (Startup.Raised (TypeError "cannot unpack non-iterable NoneType object"),
       s',
       [st_error ("Error initializing Google Gemini: " ++ exn_str e)])
    /\ Startup.llm s' = Startup.llm s
    /\ Startup.memory s' = Startup.memory s
    /\ Startup.objects s' = Startup.objects s.
Proof.
  intros H. unfold Startup.start.
  cbn [Startup.llm Startup.memory Startup.get_llm_and_memory].
  destruct (Startup.llm s) as [c|] eqn:El;
    destruct (Startup.memory s) as [r|] eqn:Em;
    try (destruct H; discriminate);
    eexists; (split; [reflexivity|]); cbn; auto.
Qed.

Lemma failed_client_raises_type_error_witness :
  (Startup.llm Startup.fresh = None \/ Startup.memory Startup.fresh = None)
  /\ fst (fst (Startup.start
                 (inl (ValueError "API key not valid")) true true
                 Startup.fresh))
     = Startup.Raised (TypeError "cannot unpack non-iterable NoneType object").
Proof.
  assert (Startup.llm Startup.fresh = None
          \/ Startup.memory Startup.fresh = None) as H by (left; reflexivity).
  split; [exact H|].
  destruct (failed_client_raises_type_error
              (ValueError "API key not valid") true true Startup.fresh H)
    as (s' & -> & _).
  reflexivity.
Defined.

(** A second call of [get_llm_and_memory] for a session id returns the
    memory object of the first call and changes nothing: there is one memory
    per session id, and the call never drops a memory object. *)
Theorem get_llm_and_memory_reuses_memory
        (client client' : llm_client) (id : string) (s : Startup.store) :
  Startup.well_formed s ->
  exists r s',
    Startup.get_llm_and_memory (inr client) id s = (Some (client, r), s', [])
    /\ Startup.get_llm_and_memory (inr client') id s'
       = (Some (client', r), s', [])
    /\ exists more, Startup.objects s' = (Startup.objects s ++ more)%list.
Proof.
  intros Hwf.
  destruct (StartupFacts.get_llm_and_memory_run client id s Hwf)
    as (r & s' & Hrun & Hkey & _ & _ & _ & _ & Hmore & _).
  exists r, s'. split; [exact Hrun|]. split; [|exact Hmore].
  unfold Startup.get_llm_and_memory. now rewrite Hkey.
Qed.

Lemma get_llm_and_memory_reuses_memory_witness :
  Startup.well_formed Startup.fresh
  /\ exists r s',
      Startup.get_llm_and_memory (inr sample_llm) "default_user_session"
                                 Startup.fresh
      = (Some (sample_llm, r), s', [])
      /\ Startup.get_llm_and_memory (inr sample_llm) "default_user_session" s'
         = (Some (sample_llm, r), s', []).
Proof.
  assert (Startup.well_formed Startup.fresh) as H
      by (split; intros; discriminate).
  split; [exact H|].
  destruct (get_llm_and_memory_reuses_memory
              sample_llm sample_llm "default_user_session" Startup.fresh H)
    as (r & s' & H1 & H2 & _).
  exists r, s'. split; assumption.
Defined.

(** After a start that builds the client, the key [memory] and the key of
    the session id hold the same memory object, so the "Clear Conversation
    History" button empties the memory that the chain uses; it leaves the
    client in place. *)
Theorem clear_button_empties_session_memory
        (client : llm_client) (s : Startup.store) :
  Startup.well_formed s ->
  Startup.llm s = None \/ Startup.memory s = None ->
  exists s' r,
    Startup.start (inr client) true true s = (Startup.Continues, s', [])
    /\ Startup.llm s' = Some client
    /\ Startup.memory s' = Some r
    /\ exists s'',
        Startup.clear_history s'
        = (Startup.Continues, s'',
           [st_success "Conversation history cleared!"; st_rerun])
        /\ Startup.current_memory s'' = Some Memory.empty
        /\ Startup.llm s'' = Some client.
Proof.
  intros Hwf Hmiss. unfold Startup.start.
  set (id := match Startup.session_id s with
             | Some id => id
             | None => "default_user_session"
             end).
  set (s0 := {| Startup.session_id := Some id;
                Startup.llm := Startup.llm s;
                Startup.memory := Startup.memory s;
                Startup.conversation_memory := Startup.conversation_memory s;
                Startup.objects := Startup.objects s |}).
  assert (Startup.well_formed s0) as Hwf0 by exact Hwf.
  destruct (StartupFacts.get_llm_and_memory_run client id s0 Hwf0)
    as (r & s1 & Hrun & Hkey & Hr & Hl1 & Hm1 & Hid1 & _ & _).
  assert (match Startup.llm s0, Startup.memory s0 with
          | Some _, Some _ => (Startup.Continues, s0, [])
          | _, _ =>
              match Startup.get_llm_and_memory (inr client) id s0 with
              | (None, s', events) =>
                  (Startup.Raised
                     (TypeError "cannot unpack non-iterable NoneType object"),
                   s', events)
              | (Some (llm, memory), s', events) =>
                  if true && true then
                    (Startup.Continues,
                     {| Startup.session_id := Startup.session_id s';
                        Startup.llm := Some llm;
                        Startup.memory := Some memory;
                        Startup.conversation_memory :=
                          Startup.conversation_memory s';
                        Startup.objects := Startup.objects s' |},
                     events)
                  else
                    (Startup.Stopped, s',
                     (events
                      ++ [st_error "Could not initialize AI model or memory. Please check API key configuration."])%list)
              end
          end
          = (Startup.Continues,
             {| Startup.session_id := Startup.session_id s1;
                Startup.llm := Some client;
                Startup.memory := Some r;
                Startup.conversation_memory := Startup.conversation_memory s1;
                Startup.objects := Startup.objects s1 |},
             [])) as Hstart.
  { rewrite Hrun. cbn [andb].
    change (Startup.llm s0) with (Startup.llm s).
    change (Startup.memory s0) with (Startup.memory s).
    destruct (Startup.llm s), (Startup.memory s); try reflexivity.
    destruct Hmiss; discriminate. }
  eexists. exists r. split; [exact Hstart|].
  split; [reflexivity|]. split; [reflexivity|].
  unfold Startup.clear_history.
  cbn [Startup.session_id Startup.conversation_memory Startup.objects
       Startup.llm Startup.memory].
  rewrite Hid1. cbn [s0 Startup.session_id]. fold id. rewrite Hkey.
  eexists. split; [reflexivity|]. split; [|reflexivity].
  unfold Startup.current_memory. cbn [Startup.memory Startup.objects].
  now apply StartupFacts.nth_error_set_object.
Qed.

Lemma clear_button_empties_session_memory_witness :
  Startup.well_formed Startup.fresh
  /\ (Startup.llm Startup.fresh = None \/ Startup.memory Startup.fresh = None)
  /\ exists s' r,
      Startup.start (inr sample_llm) true true Startup.fresh
      = (Startup.Continues, s', [])
      /\ Startup.llm s' = Some sample_llm
      /\ Startup.memory s' = Some r.
Proof.
  assert (Startup.well_formed Startup.fresh) as H1
      by (split; intros; discriminate).
  assert (Startup.llm Startup.fresh = None
          \/ Startup.memory Startup.fresh = None) as H2 by (left; reflexivity).
  split; [exact H1|]. split; [exact H2|].
  destruct (clear_button_empties_session_memory sample_llm Startup.fresh H1 H2)
    as (s' & r & Hs & Hl & Hm & _).
  exists s', r. repeat split; assumption.
Defined.

(** Once the session holds a client and a memory, the start of the script
    builds nothing: whatever building the client would give, failure
    included, the run goes on with the same client, memory and memory
    objects, and shows nothing. *)
Theorem restart_keeps_client_and_memory
        (construct : exn + llm_client) (llm_truth memory_truth : bool)
        (s : Startup.store) (client : llm_client) (r : nat) :
  Startup.llm s = Some client ->
  Startup.memory s = Some r ->
  exists s',
    Startup.start construct llm_truth memory_truth s
    = (Startup.Continues, s', [])
    /\ Startup.llm s' = Some client
    /\ Startup.memory s' = Some r
    /\ Startup.conversation_memory s' = Startup.conversation_memory s
    /\ Startup.objects s' = Startup.objects s.
Proof.
  intros Hl Hm. unfold Startup.start.
  cbn [Startup.llm Startup.memory]. rewrite Hl, Hm.
  eexists. split; [reflexivity|]. cbn. auto.
Qed.

Lemma restart_keeps_client_and_memory_witness :
  Startup.llm Startup.started = Some sample_llm
  /\ Startup.memory Startup.started = Some 0%nat
  /\ fst (fst (Startup.start (inl (ValueError "API key not valid")) true true
                             Startup.started))
     = Startup.Continues.
Proof.
  split; [reflexivity|]. split; [reflexivity|].
  destruct (restart_keeps_client_and_memory
              (inl (ValueError "API key not valid")) true true
              Startup.started sample_llm 0%nat eq_refl eq_refl)
    as (s' & -> & _).
  reflexivity.
Defined.
